(** * SEO research scripts: search client, backlink pipeline, exporters,
      URL categoriser and submission analyser.

    A shallow embedding of the JavaScript sources

      - [lib/googleSearch.js]      ([searchGoogle])
      - [lib/serpAnalyzer.js]      ([analyzeSERP])
      - [lib/backlinkFinder.js]    ([findBacklinksForUrl],
                                    [getUniqueReferringDomains],
                                    [verifyBacklinks])
      - [lib/backlinkAnalyzer.js]  ([analyzeTopRankingBacklinks])
      - [lib/exporters.js]         ([exportToCsv])
      - [src/modules/urlCategorizer.js]     ([categorizeUrl],
                                             [categorizeSearchResults])
      - [src/modules/submissionAnalyzer.js] ([analyzeSiteForSubmission])

    Asynchronous functions are written in a state-and-exception monad over
    an abstract outside world: every call of the search API, every HTTP GET
    and every file-system call asks an oracle, which answers and moves the
    world on, and is recorded in a log.  The functions that the sources
    call but do not define (the search API, axios, cheerio's HTML parser,
    the two URL parsers, [JSON.stringify], the CSV writer) are the fields
    of a [Platform] record over which every definition is parameterised. *)

From Stdlib Require Import ZArith List String Ascii Bool Lia.
From Stdlib Require Import DecimalString.
From stdpp Require Import base option list gmap strings.
Import ListNotations.

Set Warnings "-register-all".

Open Scope string_scope.
Open Scope list_scope.
Open Scope Z_scope.

(** ** JavaScript strings

    Strings are sequences of 8-bit code units (Latin-1); the functions
    below are the [String.prototype] methods and the regular-expression
    replacements the sources use, restricted to that alphabet. *)

Module JsString.

(** [s.startsWith(p)] *)
Definition startsWith (s p : string) : bool := String.prefix p s.

(** [s.includes(p)] *)
Fixpoint includes (s p : string) : bool :=
  String.prefix p s ||
  match s with
  | EmptyString => false
  | String _ s' => includes s' p
  end.

Definition rev (s : string) : string :=
  string_of_list_ascii (List.rev (list_ascii_of_string s)).

(** [s.endsWith(p)] *)
Definition endsWith (s p : string) : bool := String.prefix (rev p) (rev s).

(** White space removed by [trim]: TAB, LF, VT, FF, CR, SPACE and NBSP. *)
Definition is_space (c : ascii) : bool :=
  let n := nat_of_ascii c in
  ((9 <=? n)%nat && (n <=? 13)%nat) || (n =? 32)%nat || (n =? 160)%nat.

Fixpoint trimStart (s : string) : string :=
  match s with
  | EmptyString => EmptyString
  | String c s' => if is_space c then trimStart s' else s
  end.

(** [s.trim()] *)
Definition trim (s : string) : string := rev (trimStart (rev (trimStart s))).

(** Upper-case letters of Latin-1: A-Z and the accented capitals except
    the multiplication sign. *)
Definition is_upper (n : nat) : bool :=
  ((65 <=? n)%nat && (n <=? 90)%nat) ||
  ((192 <=? n)%nat && (n <=? 222)%nat && negb (n =? 215)%nat).

Definition lower (c : ascii) : ascii :=
  let n := nat_of_ascii c in
  if is_upper n then ascii_of_nat (n + 32) else c.

(** [s.toLowerCase()] *)
Fixpoint toLowerCase (s : string) : string :=
  match s with
  | EmptyString => EmptyString
  | String c s' => String (lower c) (toLowerCase s')
  end.

(** [s.replace(/[...]/g, by)] for a class of single characters. *)
Fixpoint replaceAllChars (cls : ascii -> bool) (by_ : ascii) (s : string) : string :=
  match s with
  | EmptyString => EmptyString
  | String c s' => String (if cls c then by_ else c) (replaceAllChars cls by_ s')
  end.

(** The rest of [s] after the literal prefix [p], if [s] starts with it. *)
Fixpoint stripPrefix (p s : string) : option string :=
  match p, s with
  | EmptyString, _ => Some s
  | String a p', String b s' => if Ascii.eqb a b then stripPrefix p' s' else None
  | String _ _, EmptyString => None
  end.

(** [s.replace(/^p/, '')] for a literal [p]. *)
Definition removePrefix (p s : string) : string :=
  match stripPrefix p s with
  | Some rest => rest
  | None => s
  end.

Definition slash : ascii := ascii_of_nat 47.

(** [s.replace(/\/$/, '')] *)
Definition removeTrailingSlash (s : string) : string :=
  match rev s with
  | String c r => if Ascii.eqb c slash then rev r else s
  | EmptyString => s
  end.

(** LF and CR, which [.] does not match. *)
Definition is_line_terminator (c : ascii) : bool :=
  let n := nat_of_ascii c in (n =? 10)%nat || (n =? 13)%nat.

Fixpoint has_line_terminator (s : string) : bool :=
  match s with
  | EmptyString => false
  | String c s' => is_line_terminator c || has_line_terminator s'
  end.

(** [s.replace(/\/.*$/, '')]: the match starts at the leftmost slash that
    is followed by no line terminator up to the end of the input. *)
Fixpoint removeFromSlash (s : string) : string :=
  match s with
  | EmptyString => EmptyString
  | String c s' =>
      if Ascii.eqb c slash && negb (has_line_terminator s')
      then EmptyString
      else String c (removeFromSlash s')
  end.

Fixpoint concat_all (l : list string) : string :=
  match l with
  | [] => EmptyString
  | s :: l' => s +:+ concat_all l'
  end.

(** A template literal with one quoted hole. *)
Definition dquote : string := String (ascii_of_nat 34) EmptyString.

(** [String(n)] for an integer below 10^21 in magnitude. *)
Definition of_Z (n : Z) : string := NilZero.string_of_int (Z.to_int n).

End JsString.

(** ** Thrown values *)

(** An [Error] as the sources inspect it: [error.message] and, for HTTP
    failures raised by axios, [error.response.status]. *)
Record JsError : Type := mkJsError {
  message : string;
  response_status : option Z
}.

(** [new Error(msg)] *)
Definition Error (msg : string) : JsError := mkJsError msg None.

Inductive Result (A : Type) : Type :=
| Ok (a : A)
| Throw (e : JsError).
Arguments Ok {A} a.
Arguments Throw {A} e.

(** ** The search API and the HTTP client *)

(** One entry of [response.data.items] of the Custom Search API. *)
Record CseItem : Type := mkCseItem {
  item_title : string;
  item_link : string;
  item_snippet : string;
  item_displayLink : string
}.

(** The arguments of [customsearch.cse.list] that vary between calls. *)
Record CseRequest : Type := mkCseRequest {
  req_q : string;
  req_start : Z;
  req_num : Z
}.

(** A page of the API: [items] may be missing from the response. *)
Definition CseOutcome : Type := Result (option (list CseItem)).

(** [response.status] and [response.data] of a successful [axios.get]. *)
Record HttpResponse : Type := mkHttpResponse {
  resp_status : Z;
  resp_data : string
}.

Definition GetOutcome : Type := Result HttpResponse.

(** ** JavaScript values, as [exportToCsv] meets them *)

Inductive JsValue : Type :=
| JsUndefined
| JsNull
| JsBool (b : bool)
| JsNumber (n : Z)
| JsString (s : string)
| JsArray (elements : list JsValue)
| JsObject (fields : list (string * JsValue)).

(** A flat record handed to the CSV writer, and a column of its header. *)
Definition CsvRecord : Type := list (string * JsValue).

Record CsvColumn : Type := mkCsvColumn {
  col_id : string;
  col_title : string
}.

(** ** What the program does to the outside world *)

Inductive Event : Type :=
| EvSearch (r : CseRequest) (o : CseOutcome)
| EvGet (url : string) (o : GetOutcome)
| EvEnsureDir (dir : string) (o : Result unit)
| EvWriteRecords (path : string) (header : list CsvColumn)
                 (records : list CsvRecord) (o : Result unit).

(** The items a logged page delivered. *)
Definition page_items (o : CseOutcome) : list CseItem :=
  match o with
  | Ok (Some items) => items
  | _ => []
  end.

(** ** HTML documents, as cheerio presents them *)

Inductive Node : Type :=
| Text (data : string)
| Element (tag : string) (attribs : list (string * string)) (children : list Node).

Definition Document : Type := list Node.

(** A page of [url-parse]. *)
Record ParsedUrl : Type := mkParsedUrl {
  protocol : string;
  hostname : string
}.

(** ** The platform *)

(** Everything the sources call without defining it.  [W] is the state of
    the outside world; an oracle answers a call and moves the world on. *)
Record Platform (W : Type) : Type := mkPlatform {
  (** [customsearch.cse.list] of googleapis *)
  cse_list : CseRequest -> W -> CseOutcome * W;
  (** [axios.get] *)
  axios_get : string -> W -> GetOutcome * W;
  (** [cheerio.load] *)
  cheerio_load : string -> Document;
  (** [new URL(s).hostname]; [None] when the constructor throws *)
  URL_hostname : string -> option string;
  (** [new URLParser(s)] of url-parse *)
  URLParser : string -> Result ParsedUrl;
  (** [JSON.stringify] of a plain object *)
  JSON_stringify : JsValue -> string;
  (** [fs.ensureDir] of fs-extra *)
  fs_ensureDir : string -> W -> Result unit * W;
  (** [createObjectCsvWriter({path, header}).writeRecords(records)] *)
  csv_writeRecords :
    string -> list CsvColumn -> list CsvRecord -> W -> Result unit * W;
  (** [config.output.csvDir] and [path.join] *)
  csvDir : string;
  path_join : string -> string -> string
}.
Arguments cse_list {W} _ _ _.
Arguments axios_get {W} _ _ _.
Arguments cheerio_load {W} _ _.
Arguments URL_hostname {W} _ _.
Arguments URLParser {W} _ _.
Arguments JSON_stringify {W} _ _.
Arguments fs_ensureDir {W} _ _ _.
Arguments csv_writeRecords {W} _ _ _ _ _.
Arguments csvDir {W} _.
Arguments path_join {W} _ _ _.

(** ** The monad of asynchronous code *)

Record Sys (W : Type) : Type := mkSys {
  world : W;
  log : list Event
}.
Arguments mkSys {W} _ _.
Arguments world {W} _.
Arguments log {W} _.

Definition M (W A : Type) : Type := Sys W -> Result A * Sys W.

Definition ret {W A} (a : A) : M W A := fun s => (Ok a, s).

Definition throw {W A} (e : JsError) : M W A := fun s => (Throw e, s).

Definition bind {W A B} (m : M W A) (k : A -> M W B) : M W B :=
  fun s =>
    match m s with
    | (Ok a, s') => k a s'
    | (Throw e, s') => (Throw e, s')
    end.

(** [try { m } catch (error) { h(error) }] *)
Definition try_catch {W A} (m : M W A) (h : JsError -> M W A) : M W A :=
  fun s =>
    match m s with
    | (Ok a, s') => (Ok a, s')
    | (Throw e, s') => h e s'
    end.

Notation "x <- m ;; k" := (bind m (fun x => k))
  (at level 100, m at next level, right associativity).

(** Running the promises of a list in the order in which they were
    created and gathering their values in that order.  For promises that
    never reject this is what [await Promise.all(ps)] yields; the requests
    of one batch are in flight together, which the oracle model renders as
    their being answered in the order in which they were issued. *)
Fixpoint Promise_all {W A} (ps : list (M W A)) : M W (list A) :=
  match ps with
  | [] => ret []
  | p :: ps' =>
      v <- p ;;
      vs <- Promise_all ps' ;;
      ret (v :: vs)
  end.

(** ** Search results and backlinks *)

Record SearchResult : Type := mkSearchResult {
  title : string;
  link : string;
  snippet : string;
  displayLink : string
}.

Record SerpEntry : Type := mkSerpEntry {
  position : Z;
  url : string;
  serp_title : string;
  displayUrl : string;
  serp_snippet : string
}.

(** What a backlink points to: [targetDomain] (set by [findBacklinks]) or
    [targetUrl] (set by [findBacklinksForUrl]). *)
Inductive Target : Type :=
| TargetDomain (domain : string)
| TargetUrl (url : string).

Record Backlink : Type := mkBacklink {
  sourceUrl : string;
  sourceTitle : string;
  target : Target;
  bl_snippet : string
}.

Record BacklinkAnalysis : Type := mkBacklinkAnalysis {
  ba_position : Z;
  ba_url : string;
  ba_title : string;
  backlinksCount : Z;
  uniqueDomainsCount : Z;
  backlinks : list Backlink;
  uniqueDomains : list string
}.

Record CompetitorAnalysis : Type := mkCompetitorAnalysis {
  keyword : string;
  topPages : list SerpEntry;
  backlinksAnalysis : list BacklinkAnalysis
}.

(** One entry of [links] of a verified backlink. *)
Record FoundLink : Type := mkFoundLink {
  href : option string;
  anchorText : string;
  isNofollow : bool
}.

(** [{...backlink, verified, links, statusCode, error}]: [links] and
    [error] are [None] where the object literal does not set them. *)
Record VerifiedBacklink : Type := mkVerifiedBacklink {
  vb_backlink : Backlink;
  verified : bool;
  links : option (list FoundLink);
  statusCode : Z;
  error : option string
}.

(** ** cheerio selections *)

Module Cheerio.

(** The elements of a subtree in document order, the root first. *)
Fixpoint elements_of (n : Node) : list Node :=
  match n with
  | Text _ => []
  | Element _ _ children => n :: flat_map elements_of children
  end.

(** [$(el).text()]: the text nodes below [el], concatenated. *)
Fixpoint text (n : Node) : string :=
  match n with
  | Text data => data
  | Element _ _ children => JsString.concat_all (map text children)
  end.

Definition has_tag (tag : string) (n : Node) : bool :=
  match n with
  | Element t _ _ => String.eqb t tag
  | Text _ => false
  end.

(** [$(el).attr(name)] *)
Definition attr (name : string) (n : Node) : option string :=
  match n with
  | Element _ attribs _ =>
      match find (fun kv => String.eqb (fst kv) name) attribs with
      | Some kv => Some (snd kv)
      | None => None
      end
  | Text _ => None
  end.

(** [$('tag')] *)
Definition select (doc : Document) (tag : string) : list Node :=
  filter (fun n => has_tag tag n = true) (flat_map elements_of doc).

(** [$('tag[name*="value"]')]: the attribute is present and contains
    [value]; an empty [value] matches nothing. *)
Definition select_attr_contains (doc : Document) (tag name value : string)
  : list Node :=
  filter (fun n =>
            match attr name n with
            | Some v => negb (String.eqb value EmptyString) && JsString.includes v value
            | None => false
            end = true)
         (select doc tag).

(** [$('tag[name="value"]')] *)
Definition select_attr_equals (doc : Document) (tag name value : string)
  : list Node :=
  filter (fun n =>
            match attr name n with
            | Some v => String.eqb v value
            | None => false
            end = true)
         (select doc tag).

(** [$(selector).text()] of a whole selection. *)
Definition text_all (sel : list Node) : string :=
  JsString.concat_all (map text sel).

(** [$(selector).attr(name)]: the attribute of the first element. *)
Definition attr_first (name : string) (sel : list Node) : option string :=
  match sel with
  | [] => None
  | n :: _ => attr name n
  end.

End Cheerio.

(** ** [new Set(xs)] spread back into an array *)

(** [Set.prototype.add]: a value already present keeps its place. *)
Definition Set_add (seen : list string) (x : string) : list string :=
  if existsb (String.eqb x) seen then seen else seen ++ [x].

Definition Set_of_array (seen : list string) (xs : list string) : list string :=
  fold_left Set_add xs seen.

(** ** The sources *)

Section Sources.

Context {W : Type} (P : Platform W).

(** [await customsearch.cse.list(r)] *)
Definition await_cse_list (r : CseRequest) : M W (option (list CseItem)) :=
  fun s =>
    let (o, w') := cse_list P r (world s) in
    (o, mkSys w' (log s ++ [EvSearch r o])).

(** [await axios.get(url, ...)] *)
Definition await_axios_get (u : string) : M W HttpResponse :=
  fun s =>
    let (o, w') := axios_get P u (world s) in
    (o, mkSys w' (log s ++ [EvGet u o])).

(** *** [lib/googleSearch.js] *)

(** [Math.ceil(n / 10)] on integers. *)
Definition ceil_div10 (n : Z) : Z := - ((- n) / 10).

Definition format_item (item : CseItem) : SearchResult :=
  {| title := item_title item;
     link := item_link item;
     snippet := item_snippet item;
     displayLink := item_displayLink item |}.

(** The [for] loop of [searchGoogle]; [remaining] is [numCalls - i]. *)
Fixpoint searchGoogle_loop (keywords : string) (numResults : Z)
         (remaining : nat) (i : Z) (allResults : list CseItem)
  : M W (list CseItem) :=
  match remaining with
  | O => ret allResults
  | S remaining' =>
      let startIndex := i * 10 + 1 in
      items <- await_cse_list
                 {| req_q := keywords;
                    req_start := startIndex;
                    req_num := Z.min 10 (numResults - Z.of_nat (length allResults)) |} ;;
      match items with
      | Some (item :: items') =>
          searchGoogle_loop keywords numResults remaining' (i + 1)
                            (allResults ++ item :: items')
      | _ => ret allResults
      end
  end.

Definition searchGoogle (keywords : string) (numResults : Z)
  : M W (list SearchResult) :=
  try_catch
    (let numCalls := ceil_div10 numResults in
     allResults <- searchGoogle_loop keywords numResults (Z.to_nat numCalls) 0 [] ;;
     ret (map format_item allResults))
    (fun error => throw error).

(** *** [lib/serpAnalyzer.js] *)

(** The callback [(result, index) => ({...})] of [searchResults.map]. *)
Definition serp_entry (index : nat) (result : SearchResult) : SerpEntry :=
  {| position := Z.of_nat index + 1;
     url := link result;
     serp_title := title result;
     displayUrl := displayLink result;
     serp_snippet := snippet result |}.

Definition analyzeSERP (keyword : string) (numResults : Z) : M W (list SerpEntry) :=
  try_catch
    (searchResults <- searchGoogle keyword numResults ;;
     ret (imap serp_entry searchResults))
    (fun error => throw error).

(** *** [lib/backlinkFinder.js] *)

Definition findBacklinksForUrl (url : string) (numResults : Z) : M W (list Backlink) :=
  try_catch
    (let searchQuery := JsString.dquote +:+ url +:+ JsString.dquote in
     searchResults <- searchGoogle searchQuery numResults ;;
     ret (map (fun result =>
                 {| sourceUrl := link result;
                    sourceTitle := title result;
                    target := TargetUrl url;
                    bl_snippet := snippet result |})
              searchResults))
    (fun error => throw error).

(** [new URL(v).hostname] inside [try]/[catch]: [v] is [backlink.sourceUrl],
    [None] when the property is missing, which the constructor reads as
    the string [undefined]. *)
Definition hostname_or_null (v : option string) : option string :=
  URL_hostname P (match v with Some s => s | None => "undefined" end).

(** [getUniqueReferringDomains] over elements of any shape; [get_sourceUrl]
    is the property access [backlink.sourceUrl]. *)
Definition getUniqueReferringDomainsOf {A : Type}
           (get_sourceUrl : A -> option string) (backlinks : list A)
  : list string :=
  let domains := omap (fun backlink => hostname_or_null (get_sourceUrl backlink))
                      backlinks in
  Set_of_array [] domains.

(** On backlink records, every one of which has a [sourceUrl]. *)
Definition getUniqueReferringDomains (backlinks : list Backlink) : list string :=
  getUniqueReferringDomainsOf (fun backlink => Some (sourceUrl backlink)) backlinks.

(** On an array of strings: a string has no property [sourceUrl]. *)
Definition getUniqueReferringDomains_of_strings (xs : list string) : list string :=
  getUniqueReferringDomainsOf (fun _ : string => None) xs.

(** *** [lib/backlinkAnalyzer.js] *)

(** The [for] loop over [topPages]. *)
Fixpoint analyze_loop (pages : list SerpEntry) (maxBacklinksPerUrl : Z)
         (backlinksAnalysis : list BacklinkAnalysis)
  : M W (list BacklinkAnalysis) :=
  match pages with
  | [] => ret backlinksAnalysis
  | page :: pages' =>
      backlinks <- findBacklinksForUrl (url page) maxBacklinksPerUrl ;;
      let uniqueDomains := getUniqueReferringDomains backlinks in
      analyze_loop pages' maxBacklinksPerUrl
        (backlinksAnalysis ++
         [{| ba_position := position page;
             ba_url := url page;
             ba_title := serp_title page;
             backlinksCount := Z.of_nat (length backlinks);
             uniqueDomainsCount := Z.of_nat (length uniqueDomains);
             backlinks := backlinks;
             uniqueDomains := uniqueDomains |}])
  end.

Definition analyzeTopRankingBacklinks (keyword : string) (numResults : Z)
           (maxBacklinksPerUrl : Z) : M W CompetitorAnalysis :=
  try_catch
    (topPages <- analyzeSERP keyword numResults ;;
     backlinksAnalysis <- analyze_loop topPages maxBacklinksPerUrl [] ;;
     ret {| keyword := keyword;
            topPages := topPages;
            backlinksAnalysis := backlinksAnalysis |})
    (fun error => throw error).

(** [target.replace(/^https?:\/\//, '').replace(/\/$/, '').replace(/\/.*$/, '')] *)
Definition bare_hostname (targetUrl : string) : string :=
  let no_scheme :=
    match JsString.stripPrefix "https://" targetUrl with
    | Some rest => rest
    | None => JsString.removePrefix "http://" targetUrl
    end in
  JsString.removeFromSlash (JsString.removeTrailingSlash no_scheme).

(** The callback of [.each] in [verifyBacklinks]. *)
Definition found_link (el : Node) : FoundLink :=
  {| href := Cheerio.attr "href" el;
     anchorText := JsString.trim (Cheerio.text el);
     isNofollow :=
       match Cheerio.attr "rel" el with
       | Some rel => JsString.includes rel "nofollow"
       | None => false
       end |}.

(** [error.response?.status || 0] *)
Definition status_or_zero (error : JsError) : Z :=
  match response_status error with
  | Some status => if status =? 0 then 0 else status
  | None => 0
  end.

(** The [async (backlink) => ...] that [verifyBacklinks] maps over a
    batch. *)
Definition verify_one (targetDomain : string) (backlink : Backlink)
  : M W VerifiedBacklink :=
  try_catch
    (response <- await_axios_get (sourceUrl backlink) ;;
     let html := resp_data response in
     let doc := cheerio_load P html in
     let links :=
       map found_link (Cheerio.select_attr_contains doc "a" "href" targetDomain) in
     if (0 <? length links)%nat
     then ret {| vb_backlink := backlink;
                 verified := true;
                 links := Some links;
                 statusCode := resp_status response;
                 error := None |}
     else ret {| vb_backlink := backlink;
                 verified := false;
                 links := Some [];
                 statusCode := resp_status response;
                 error := None |})
    (fun error =>
       ret {| vb_backlink := backlink;
              verified := false;
              links := None;
              error := Some (message error);
              statusCode := status_or_zero error |}).

(** [backlinks.slice(i, j)] for indices within [0, 2^53). *)
Definition slice {A : Type} (l : list A) (i j : nat) : list A :=
  take (j - i) (drop i l).

(** The [for] loop of [verifyBacklinks].  The loop need not end (a
    [maxConcurrent] of zero never advances [i]); [fuel] bounds the number
    of iterations and [None] is returned when it runs out. *)
Fixpoint verifyBacklinks_loop (fuel : nat) (backlinks : list Backlink)
         (targetDomain : string) (maxConcurrent : nat) (i : nat)
         (verifiedBacklinks : list VerifiedBacklink)
  : M W (option (list VerifiedBacklink)) :=
  if (i <? length backlinks)%nat then
    match fuel with
    | O => ret None
    | S fuel' =>
        let batch := slice backlinks i (i + maxConcurrent) in
        let batchPromises := map (verify_one targetDomain) batch in
        batchResults <- Promise_all batchPromises ;;
        verifyBacklinks_loop fuel' backlinks targetDomain maxConcurrent
                             (i + maxConcurrent)
                             (verifiedBacklinks ++ batchResults)
    end
  else ret (Some verifiedBacklinks).

Definition verifyBacklinks (fuel : nat) (backlinks : list Backlink)
           (targetUrl : string) (maxConcurrent : nat)
  : M W (option (list VerifiedBacklink)) :=
  let targetDomain := bare_hostname targetUrl in
  verifyBacklinks_loop fuel backlinks targetDomain maxConcurrent 0 [].

(** The default value of the parameter [maxConcurrent]. *)
Definition default_maxConcurrent : nat := 5.

(** *** [lib/exporters.js] *)

(** [await fs.ensureDir(dir)] *)
Definition await_ensureDir (dir : string) : M W unit :=
  fun s =>
    let (o, w') := fs_ensureDir P dir (world s) in
    (o, mkSys w' (log s ++ [EvEnsureDir dir o])).

(** [await csvWriter.writeRecords(records)] for the writer made from
    [path] and [header]. *)
Definition await_writeRecords (path : string) (header : list CsvColumn)
           (records : list CsvRecord) : M W unit :=
  fun s =>
    let (o, w') := csv_writeRecords P path header records (world s) in
    (o, mkSys w' (log s ++ [EvWriteRecords path header records o])).

(** [Array.prototype.join]: [undefined] and [null] elements give the empty
    string, the others are converted by [elt]. *)
Definition join_with (elt : JsValue -> string) (sep : string)
  : list JsValue -> string :=
  fix go (l : list JsValue) : string :=
    let item x :=
      match x with
      | JsUndefined | JsNull => EmptyString
      | _ => elt x
      end in
    match l with
    | [] => EmptyString
    | [x] => item x
    | x :: l' => item x +:+ sep +:+ go l'
    end.

(** [String(v)] *)
Fixpoint ToString (v : JsValue) : string :=
  match v with
  | JsUndefined => "undefined"
  | JsNull => "null"
  | JsBool true => "true"
  | JsBool false => "false"
  | JsNumber n => JsString.of_Z n
  | JsString s => s
  | JsArray elements => join_with ToString "," elements
  | JsObject _ => "[object Object]"
  end.

(** [elements.join(sep)] *)
Definition Array_join (elements : list JsValue) (sep : string) : string :=
  join_with ToString sep elements.

(** The own enumerable properties of a value in the order of
    [Object.keys], each key with [item[key]]; [None] when [Object.keys]
    throws.  The fields of a [JsObject] are taken to be listed in that
    order, each key once. *)
Definition own_entries (item : JsValue) : option (list (string * JsValue)) :=
  match item with
  | JsUndefined | JsNull => None
  | JsBool _ | JsNumber _ => Some []
  | JsString s =>
      Some (imap (fun i c => (JsString.of_Z (Z.of_nat i),
                              JsString (String c EmptyString)))
                 (list_ascii_of_string s))
  | JsArray elements =>
      Some (imap (fun i x => (JsString.of_Z (Z.of_nat i), x)) elements)
  | JsObject fields => Some fields
  end.

(** The three branches on [item[key]]. *)
Definition flatten_value (v : JsValue) : JsValue :=
  match v with
  | JsArray elements => JsString (Array_join elements "||")
  | JsObject _ => JsString (JSON_stringify P v)
  | _ => v
  end.

(** The callback of [data.map]. *)
Definition process_item (item : JsValue) : Result CsvRecord :=
  match own_entries item with
  | Some entries => Ok (map (fun kv => (fst kv, flatten_value (snd kv))) entries)
  | None => Throw (Error "Cannot convert undefined or null to object")
  end.

(** [data.map(f)] for a callback that may throw. *)
Fixpoint map_throwing {A B : Type} (f : A -> Result B) (l : list A)
  : M W (list B) :=
  match l with
  | [] => ret []
  | x :: l' =>
      match f x with
      | Ok y => ys <- map_throwing f l' ;; ret (y :: ys)
      | Throw e => throw e
      end
  end.

Definition csv_header (processedData : list CsvRecord) : list CsvColumn :=
  match processedData with
  | first :: _ => map (fun kv => {| col_id := fst kv; col_title := fst kv |}) first
  | [] => []
  end.

Definition exportToCsv (data : JsValue) (filename : string) : M W string :=
  try_catch
    (match data with
     | JsArray items =>
         _ <- await_ensureDir (csvDir P) ;;
         let filename :=
           if JsString.endsWith filename ".csv" then filename
           else filename +:+ ".csv" in
         let filePath := path_join P (csvDir P) filename in
         if (length items =? 0)%nat
         then throw (Error "Cannot export empty data to CSV")
         else
           processedData <- map_throwing process_item items ;;
           let header := csv_header processedData in
           _ <- await_writeRecords filePath header processedData ;;
           ret filePath
     | _ => throw (Error "Data must be an array for CSV export")
     end)
    (fun error => throw error).

(** *** [src/modules/urlCategorizer.js] *)

Definition SOCIAL_MEDIA_DOMAINS : list string :=
  [ "linkedin.com"; "facebook.com"; "twitter.com"; "instagram.com";
    "pinterest.com"; "reddit.com"; "medium.com"; "tumblr.com"; "quora.com";
    "youtube.com"; "tiktok.com"; "snapchat.com"; "threads.net"; "flickr.com";
    "vimeo.com"; "telegram.org"; "whatsapp.com"; "discord.com"; "slack.com";
    "meetup.com" ].

Definition CONTENT_PLATFORMS : list string :=
  [ "wordpress.com"; "blogger.com"; "medium.com"; "substack.com";
    "ghost.org"; "wix.com"; "squarespace.com"; "weebly.com"; "hubspot.com";
    "typepad.com" ].

Record Categorization : Type := mkCategorization {
  cat_url : string;
  category : string;
  cat_domain : string;
  cat_error : option string
}.

Definition categorizeUrl (url : string) : Categorization :=
  match URLParser P url with
  | Ok parsedUrl =>
      let hostname := JsString.removePrefix "www." (hostname parsedUrl) in
      if existsb (fun domain => JsString.includes hostname domain) SOCIAL_MEDIA_DOMAINS
      then {| cat_url := url; category := "social_media";
              cat_domain := hostname; cat_error := None |}
      else if existsb (fun domain => JsString.includes hostname domain) CONTENT_PLATFORMS
      then {| cat_url := url; category := "content_platform";
              cat_domain := hostname; cat_error := None |}
      else {| cat_url := url; category := "other";
              cat_domain := hostname; cat_error := None |}
  | Throw error =>
      {| cat_url := url; category := "error";
         cat_domain := EmptyString; cat_error := Some (message error) |}
  end.

(** A search result of the keyword search, which tags each result with
    the keyword it was found for. *)
Record KeywordResult : Type := mkKeywordResult {
  kr_link : string;
  kr_title : string;
  kr_snippet : string;
  kr_keyword : string
}.

Record EnhancedResult : Type := mkEnhancedResult {
  categorization : Categorization;
  er_title : string;
  er_snippet : string;
  er_keyword : string
}.

Definition enhance (result : KeywordResult) : EnhancedResult :=
  {| categorization := categorizeUrl (kr_link result);
     er_title := kr_title result;
     er_snippet := kr_snippet result;
     er_keyword := kr_keyword result |}.

(** The object literal [categories]. *)
Definition empty_categories : gmap string (list EnhancedResult) :=
  <["social_media" := []]> (<["content_platform" := []]>
    (<["other" := []]> (<["error" := []]> ∅))).

(** [categories[key].push(x)]; a missing key makes [push] a call on
    [undefined]. *)
Definition push_to (categories : gmap string (list EnhancedResult))
           (key : string) (x : EnhancedResult)
  : Result (gmap string (list EnhancedResult)) :=
  match categories !! key with
  | Some xs => Ok (<[key := xs ++ [x]]> categories)
  | None => Throw (Error "Cannot read properties of undefined (reading 'push')")
  end.

(** The callback of [searchResults.forEach]. *)
Definition categorize_step (acc : Result (gmap string (list EnhancedResult)))
           (result : KeywordResult)
  : Result (gmap string (list EnhancedResult)) :=
  match acc with
  | Ok categories =>
      let enhancedResult := enhance result in
      push_to categories (category (categorization enhancedResult)) enhancedResult
  | Throw e => Throw e
  end.

Definition categorizeSearchResults (searchResults : list KeywordResult)
  : Result (gmap string (list EnhancedResult)) :=
  fold_left categorize_step searchResults (Ok empty_categories).

(** *** [src/modules/submissionAnalyzer.js] *)

Definition SUBMISSION_URL_PATTERNS : list string :=
  [ "/write-for-us"; "/contribute"; "/submission"; "/submit"; "/guest-post";
    "/write-with-us"; "/contributors"; "/guest-blogging";
    "/guest-contributor"; "/authors"; "/become-a-contributor"; "/join-us";
    "/publish"; "/guidelines" ].

Definition SUBMISSION_KEYWORDS : list string :=
  [ "write for us"; "submit article"; "guest post"; "contribute";
    "become a contributor"; "guest author"; "submission guidelines";
    "content submission"; "article submission"; "become an author";
    "publish with us"; "join our writers"; "guest blogging";
    "submit your content"; "write for"; "author guidelines" ].

Record SiteAnalysis : Type := mkSiteAnalysis {
  sa_url : string;
  sa_domain : string;
  acceptsSubmissions : bool;
  confidence : Z;
  submissionPageUrls : list string;
  submissionKeywordsFound : list string;
  notes : list string
}.

(** [xs.includes(x)] on an array of strings. *)
Definition Array_includes (xs : list string) (x : string) : bool :=
  existsb (String.eqb x) xs.

(** [result.submissionPageUrls.push(fullUrl); result.confidence += n] *)
Definition add_page_url (result : SiteAnalysis) (fullUrl : string) (n : Z)
  : SiteAnalysis :=
  {| sa_url := sa_url result;
     sa_domain := sa_domain result;
     acceptsSubmissions := acceptsSubmissions result;
     confidence := confidence result + n;
     submissionPageUrls := submissionPageUrls result ++ [fullUrl];
     submissionKeywordsFound := submissionKeywordsFound result;
     notes := notes result |}.

(** [result.submissionKeywordsFound.push(keyword); result.confidence += n] *)
Definition add_keyword (result : SiteAnalysis) (keyword : string) (n : Z)
  : SiteAnalysis :=
  {| sa_url := sa_url result;
     sa_domain := sa_domain result;
     acceptsSubmissions := acceptsSubmissions result;
     confidence := confidence result + n;
     submissionPageUrls := submissionPageUrls result;
     submissionKeywordsFound := submissionKeywordsFound result ++ [keyword];
     notes := notes result |}.

(** [result.notes.push(note); result.confidence += n] *)
Definition add_note (result : SiteAnalysis) (note : string) (n : Z)
  : SiteAnalysis :=
  {| sa_url := sa_url result;
     sa_domain := sa_domain result;
     acceptsSubmissions := acceptsSubmissions result;
     confidence := confidence result + n;
     submissionPageUrls := submissionPageUrls result;
     submissionKeywordsFound := submissionKeywordsFound result;
     notes := notes result ++ [note] |}.

(** [result.confidence = Math.min(result.confidence, 100);
     result.acceptsSubmissions = result.confidence >= 30] *)
Definition decide_acceptance (result : SiteAnalysis) : SiteAnalysis :=
  let capped := Z.min (confidence result) 100 in
  {| sa_url := sa_url result;
     sa_domain := sa_domain result;
     acceptsSubmissions := 30 <=? capped;
     confidence := capped;
     submissionPageUrls := submissionPageUrls result;
     submissionKeywordsFound := submissionKeywordsFound result;
     notes := notes result |}.

Definition is_slash_or_dash (c : ascii) : bool :=
  let n := nat_of_ascii c in (n =? 47)%nat || (n =? 45)%nat.

Definition space : ascii := ascii_of_nat 32.

(** The body of [for (const pattern of SUBMISSION_URL_PATTERNS)]. *)
Definition check_pattern (baseUrl href linkText : string)
           (result : SiteAnalysis) (pattern : string) : SiteAnalysis :=
  if JsString.includes href pattern ||
     JsString.includes linkText
       (JsString.trim (JsString.replaceAllChars is_slash_or_dash space pattern))
  then
    let fullUrl :=
      if JsString.startsWith href "/" then baseUrl +:+ href
      else if negb (JsString.startsWith href "http") then baseUrl +:+ "/" +:+ href
      else href in
    if negb (Array_includes (submissionPageUrls result) fullUrl)
    then add_page_url result fullUrl 20
    else result
  else result.

(** The body of the keyword loops: [n] is 15 for link texts and 10 for
    the page text. *)
Definition check_keyword (text : string) (n : Z) (result : SiteAnalysis)
           (keyword : string) : SiteAnalysis :=
  if JsString.includes text keyword
  then if negb (Array_includes (submissionKeywordsFound result) keyword)
       then add_keyword result keyword n
       else result
  else result.

(** The callback of [$('a').each]. *)
Definition visit_anchor (baseUrl : string) (result : SiteAnalysis) (el : Node)
  : SiteAnalysis :=
  let linkText := JsString.trim (JsString.toLowerCase (Cheerio.text el)) in
  match Cheerio.attr "href" el with
  | None => result
  | Some href =>
      if String.eqb href EmptyString then result
      else
        let result := fold_left (check_pattern baseUrl href linkText)
                                SUBMISSION_URL_PATTERNS result in
        fold_left (check_keyword linkText 15) SUBMISSION_KEYWORDS result
  end.

(** The [try] block after the page has been fetched and parsed. *)
Definition analyze_document (url : string) (parsedUrl : ParsedUrl)
           (doc : Document) : SiteAnalysis :=
  let baseUrl := protocol parsedUrl +:+ "//" +:+ hostname parsedUrl in
  let result :=
    {| sa_url := url;
       sa_domain := hostname parsedUrl;
       acceptsSubmissions := false;
       confidence := 0;
       submissionPageUrls := [];
       submissionKeywordsFound := [];
       notes := [] |} in
  let result := fold_left (visit_anchor baseUrl) (Cheerio.select doc "a") result in
  let pageText := JsString.toLowerCase (Cheerio.text_all (Cheerio.select doc "body")) in
  let result := fold_left (check_keyword pageText 10) SUBMISSION_KEYWORDS result in
  let hasContactForm :=
    (0 <? length (Cheerio.select doc "form"))%nat &&
    (JsString.includes pageText "contact" ||
     JsString.includes pageText "message" ||
     JsString.includes pageText "email") in
  let result :=
    if hasContactForm
    then add_note result "Has contact form that might be used for submissions" 5
    else result in
  let hasWordPress :=
    match Cheerio.attr_first "content"
            (Cheerio.select_attr_equals doc "meta" "name" "generator") with
    | Some content => JsString.includes content "WordPress"
    | None => false
    end ||
    (0 <? length (Cheerio.select_attr_equals doc "link" "rel" "https://api.w.org/"))%nat in
  let result :=
    if hasWordPress
    then add_note result "WordPress site (more likely to accept submissions)" 10
    else result in
  let result := decide_acceptance result in
  if acceptsSubmissions result
  then add_note result
         ("Confidence level: " +:+ JsString.of_Z (confidence result) +:+ "%") 0
  else add_note result "No clear submission opportunities found" 0.

(** A synchronous step that may throw, inside asynchronous code. *)
Definition lift {A : Type} (r : Result A) : M W A :=
  match r with
  | Ok a => ret a
  | Throw e => throw e
  end.

Definition analyzeSiteForSubmission (url : string) : M W SiteAnalysis :=
  try_catch
    (parsedUrl <- lift (URLParser P url) ;;
     response <- await_axios_get url ;;
     let doc := cheerio_load P (resp_data response) in
     ret (analyze_document url parsedUrl doc))
    (fun error =>
       parsedAgain <- lift (URLParser P url) ;;
       ret {| sa_url := url;
              sa_domain := hostname parsedAgain;
              acceptsSubmissions := false;
              confidence := 0;
              submissionPageUrls := [];
              submissionKeywordsFound := [];
              notes := ["Error during analysis: " +:+ message error] |}).

End Sources.

(** ** A small platform to run the sources on

    A stand-in for the outside world, used to evaluate the sources on
    concrete inputs: a search API with a quota that serves at most seven
    results a page, a web with one page on it, and simplified parsers. *)

Module Sample.

Definition is_alpha (c : ascii) : bool :=
  let n := nat_of_ascii (JsString.lower c) in (97 <=? n)%nat && (n <=? 122)%nat.

Definition is_scheme_char (c : ascii) : bool :=
  let n := nat_of_ascii c in
  is_alpha c || ((48 <=? n)%nat && (n <=? 57)%nat) ||
  (n =? 43)%nat || (n =? 45)%nat || (n =? 46)%nat.

(** Splits [scheme:rest] at the first colon. *)
Fixpoint split_scheme (s : string) : option (string * string) :=
  match s with
  | EmptyString => None
  | String c s' =>
      if (nat_of_ascii c =? 58)%nat then Some (EmptyString, s')
      else if is_scheme_char c then
        match split_scheme s' with
        | Some (scheme, rest) => Some (String c scheme, rest)
        | None => None
        end
      else None
  end.

Fixpoint skip_slashes (s : string) : string :=
  match s with
  | String c s' => if Ascii.eqb c JsString.slash then skip_slashes s' else s
  | EmptyString => s
  end.

(** The characters up to the first of [/], [?], [#] and [:]. *)
Fixpoint host_chars (s : string) : string :=
  match s with
  | EmptyString => EmptyString
  | String c s' =>
      let n := nat_of_ascii c in
      if (n =? 47)%nat || (n =? 63)%nat || (n =? 35)%nat || (n =? 58)%nat
      then EmptyString
      else String (JsString.lower c) (host_chars s')
  end.

(** Absolute [http] and [https] URLs without credentials: the protocol
    (with its colon) and the host name.  A string without a scheme is
    not a URL. *)
Definition parse (s : string) : option ParsedUrl :=
  match split_scheme s with
  | Some (String c scheme, rest) =>
      let scheme := JsString.toLowerCase (String c scheme) in
      if is_alpha c && (String.eqb scheme "http" || String.eqb scheme "https") then
        let host := host_chars (skip_slashes rest) in
        if String.eqb host EmptyString then None
        else Some {| protocol := scheme +:+ ":"; hostname := host |}
      else None
  | _ => None
  end.

Definition url_hostname (s : string) : option string :=
  match parse s with
  | Some u => Some (hostname u)
  | None => None
  end.

(** url-parse does not throw on what it cannot parse. *)
Definition url_parse (s : string) : Result ParsedUrl :=
  match parse s with
  | Some u => Ok u
  | None => Ok {| protocol := EmptyString; hostname := EmptyString |}
  end.

(** The [n]-th result of every query. *)
Definition nth_item (n : nat) : CseItem :=
  let k := JsString.of_Z (Z.of_nat n) in
  {| item_title := "Site " +:+ k;
     item_link := "https://site" +:+ k +:+ ".example/";
     item_snippet := "About site " +:+ k;
     item_displayLink := "site" +:+ k +:+ ".example" |}.

(** The world is the number of API calls left in the quota.  A page has
    the results from [start] on, seven at most. *)
Definition cse (r : CseRequest) (quota : nat) : CseOutcome * nat :=
  match quota with
  | O => (Throw {| message := "Quota exceeded"; response_status := Some 429 |}, O)
  | S quota' =>
      let count := Z.to_nat (Z.min (req_num r) 7) in
      (Ok (Some (map nth_item (seq (Z.to_nat (req_start r)) count))), quota')
  end.

Definition page_html : string :=
  "<p>See</p><a href='https://target.example/foo' rel='nofollow'>Click</a>".

Definition page_doc : Document :=
  [ Element "html" []
      [ Element "head" [] [];
        Element "body" []
          [ Element "p" [] [Text "See"];
            Element "a" [("href", "https://target.example/foo"); ("rel", "nofollow")]
                    [Text "Click"] ] ] ].

Definition get (u : string) (quota : nat) : GetOutcome * nat :=
  if String.eqb u "https://site1.example/"
  then (Ok {| resp_status := 200; resp_data := page_html |}, quota)
  else (Throw {| message := "Request failed with status code 404";
                 response_status := Some 404 |}, quota).

Definition load (html : string) : Document :=
  if String.eqb html page_html then page_doc else [].

Definition platform : Platform nat :=
  {| cse_list := cse;
     axios_get := get;
     cheerio_load := load;
     URL_hostname := url_hostname;
     URLParser := url_parse;
     JSON_stringify := fun _ => "{}";
     fs_ensureDir := fun _ w => (Ok tt, w);
     csv_writeRecords := fun _ _ _ w => (Ok tt, w);
     csvDir := "output/csv";
     path_join := fun a b => a +:+ "/" +:+ b |}.

Definition start (quota : nat) : Sys nat := mkSys quota [].

End Sample.

(** Two backlinks to verify on the sample platform: the page of the
    first is there, the page of the second is gone. *)
Module SampleBacklinks.

Definition found : Backlink :=
  {| sourceUrl := "https://site1.example/"; sourceTitle := "Site 1";
     target := TargetDomain "target.example"; bl_snippet := "About site 1" |}.

Definition gone : Backlink :=
  {| sourceUrl := "https://site2.example/"; sourceTitle := "Site 2";
     target := TargetDomain "target.example"; bl_snippet := "About site 2" |}.

Definition not_found : JsError :=
  {| message := "Request failed with status code 404";
     response_status := Some 404 |}.

Definition run : Result (option (list VerifiedBacklink)) * Sys nat :=
  verifyBacklinks Sample.platform 2 [found; gone] "target.example"
                  default_maxConcurrent (Sample.start 0).

Definition records : list VerifiedBacklink :=
  match fst run with
  | Ok (Some out) => out
  | _ => []
  end.

End SampleBacklinks.

(** * The rest of the sources

    The functions beside the ones above: the domain-wide backlink finder,
    the metadata extractor, the search client and the helpers of the
    article-research workflow ([src/modules]), the batch analyser of
    sites, and the exporters of the backlink analysis.  Timers
    ([setTimeout]) are left out: they delay a run and change no value. *)

(** What these functions need beside the [Platform]. *)
Record Runtime (W : Type) : Type := mkRuntime {
  (** [config.request.concurrentRequests] *)
  concurrentRequests : nat;
  (** [String(error)], as a template literal renders a thrown value *)
  Error_toString : JsError -> string;
  (** [config.output.jsonDir] *)
  jsonDir : string;
  (** [fs.writeJson(path, data, { spaces: 2 })] of fs-extra *)
  fs_writeJson : string -> JsValue -> W -> Result unit * W;
  (** [new Date().toISOString()] *)
  Date_toISOString : W -> string;
  (** [fs.mkdir(dir, { recursive: true })] of fs/promises *)
  fs_mkdir : string -> W -> Result unit * W;
  (** [fs.writeFile(path, text)] *)
  fs_writeFile : string -> string -> W -> Result unit * W;
  (** [JSON.stringify(value, null, 2)] *)
  JSON_pretty : JsValue -> string;
  (** [process.cwd()] *)
  process_cwd : string;
  (** [path.dirname(p)] *)
  path_dirname : string -> string;
  (** The workbook of [XLSX.utils] made of the sheets given, in their
      order, and written by [XLSX.writeFile(workbook, path)] *)
  XLSX_writeFile : list (string * list CsvRecord) -> string -> W -> Result unit * W;
  (** The [TypeError] of spreading [undefined], for the expression spread *)
  not_iterable : string -> JsError
}.
Arguments concurrentRequests {W} _.
Arguments Error_toString {W} _ _.
Arguments jsonDir {W} _.
Arguments fs_writeJson {W} _ _ _ _.
Arguments Date_toISOString {W} _ _.
Arguments fs_mkdir {W} _ _ _.
Arguments fs_writeFile {W} _ _ _ _.
Arguments JSON_pretty {W} _ _.
Arguments process_cwd {W} _.
Arguments path_dirname {W} _ _.
Arguments XLSX_writeFile {W} _ _ _ _.
Arguments not_iterable {W} _ _.

(** The record of [extractMetadata]; [md_error] is set in the record of a
    page that could not be fetched. *)
Record Metadata : Type := mkMetadata {
  md_url : string;
  md_error : option string;
  md_title : string;
  md_description : string;
  md_keywords : string;
  h1Tags : list string;
  h2Tags : list string;
  h3Tags : list string
}.

(** [{...result, keyword}] of [searchMultipleKeywords]. *)
Record TaggedResult : Type := mkTaggedResult {
  tr_result : SearchResult;
  tr_keyword : string
}.

(** [{...site, ...analysis}] of [analyzeBatchOfSites]: the fields of the
    site, and the fields of the analysis, of which [url] and [domain] are
    the site's own where the analysis was rejected. *)
Record AnalyzedSite : Type := mkAnalyzedSite {
  as_site : EnhancedResult;
  as_analysis : SiteAnalysis
}.

Record OrganizedSites : Type := mkOrganizedSites {
  highPotential : list AnalyzedSite;
  mediumPotential : list AnalyzedSite;
  lowPotential : list AnalyzedSite;
  rejected : list AnalyzedSite
}.


Section MoreSources.

Context {W : Type} (P : Platform W) (R : Runtime W).

(** *** [lib/backlinkFinder.js], [findBacklinks] *)

(** [domain.replace(/^https?:\/\//, '').replace(/\/$/, '')] *)
Definition clean_domain (domain : string) : string :=
  let no_scheme :=
    match JsString.stripPrefix "https://" domain with
    | Some rest => rest
    | None => JsString.removePrefix "http://" domain
    end in
  JsString.removeTrailingSlash no_scheme.

Definition findBacklinks (domain : string) (numResults : Z) : M W (list Backlink) :=
  try_catch
    (let cleanDomain := clean_domain domain in
     let searchQuery :=
       JsString.dquote +:+ cleanDomain +:+ JsString.dquote +:+ " -site:" +:+ cleanDomain in
     searchResults <- searchGoogle P searchQuery numResults ;;
     ret (map (fun result =>
                 {| sourceUrl := link result;
                    sourceTitle := title result;
                    target := TargetDomain cleanDomain;
                    bl_snippet := snippet result |})
              searchResults))
    (fun error => throw error).

(** *** [lib/serpAnalyzer.js], [extractUniqueDomains] *)

(** The callback of [urls.map]: the host name, or the string itself when
    it is no URL. *)
Definition domain_or_self (url : string) : string :=
  match URL_hostname P url with
  | Some hostname => hostname
  | None => url
  end.

Definition extractUniqueDomains (urls : list string) : list string :=
  let domains := map domain_or_self urls in
  Set_of_array [] domains.

(** *** [lib/metadataExtractor.js] *)

(** [attr || ''] *)
Definition or_empty (v : option string) : string :=
  match v with
  | Some s => s
  | None => EmptyString
  end.

(** [$(tag).each((i, el) => { const text = $(el).text().trim();
     if (text) tags.push(text); })] *)
Definition heading_texts (doc : Document) (tag : string) : list string :=
  fold_left
    (fun tags el =>
       let text := JsString.trim (Cheerio.text el) in
       if String.eqb text EmptyString then tags else tags ++ [text])
    (Cheerio.select doc tag) [].

Definition extractMetadata (url : string) : M W Metadata :=
  try_catch
    (response <- await_axios_get P url ;;
     let html := resp_data response in
     let doc := cheerio_load P html in
     ret {| md_url := url;
            md_error := None;
            md_title := JsString.trim (Cheerio.text_all (Cheerio.select doc "title"));
            md_description :=
              or_empty (Cheerio.attr_first "content"
                          (Cheerio.select_attr_equals doc "meta" "name" "description"));
            md_keywords :=
              or_empty (Cheerio.attr_first "content"
                          (Cheerio.select_attr_equals doc "meta" "name" "keywords"));
            h1Tags := heading_texts doc "h1";
            h2Tags := heading_texts doc "h2";
            h3Tags := heading_texts doc "h3" |})
    (fun error =>
       ret {| md_url := url;
              md_error := Some (message error);
              md_title := EmptyString;
              md_description := EmptyString;
              md_keywords := EmptyString;
              h1Tags := [];
              h2Tags := [];
              h3Tags := [] |}).

(** The [for] loop of [extractMetadataFromUrls]; [fuel] bounds its
    iterations as it does those of [verifyBacklinks_loop]. *)
Fixpoint extractMetadataFromUrls_loop (fuel : nat) (urls : list string)
         (i : nat) (results : list Metadata) : M W (option (list Metadata)) :=
  if (i <? length urls)%nat then
    match fuel with
    | O => ret None
    | S fuel' =>
        let batch := slice urls i (i + concurrentRequests R) in
        let batchPromises := map extractMetadata batch in
        batchResults <- Promise_all batchPromises ;;
        extractMetadataFromUrls_loop fuel' urls (i + concurrentRequests R)
                                     (results ++ batchResults)
    end
  else ret (Some results).

Definition extractMetadataFromUrls (fuel : nat) (urls : list string)
  : M W (option (list Metadata)) :=
  extractMetadataFromUrls_loop fuel urls 0 [].

(** *** [src/modules/metadataExtractor.js], [processUrls] *)

(** [url.split(' ')[0]] *)
Fixpoint first_token (url : string) : string :=
  match url with
  | EmptyString => EmptyString
  | String c rest =>
      if Ascii.eqb c space then EmptyString else String c (first_token rest)
  end.

(** The [for ... of] loop of [processUrls]. *)
Fixpoint processUrls_loop (urls : list string) (results : list Metadata)
  : M W (list Metadata) :=
  match urls with
  | [] => ret results
  | url :: urls' =>
      results' <-
        try_catch
          (let cleanUrl := first_token url in
           metadata <- extractMetadata cleanUrl ;;
           ret (results ++ [metadata]))
          (fun error => ret results) ;;
      processUrls_loop urls' results'
  end.

Definition processUrls (urls : list string) : M W (list Metadata) :=
  processUrls_loop urls [].

(** *** [src/modules/submissionAnalyzer.js], the batch analyser *)






(** The callback of [analyzedSites.forEach] in [organizePotentialSites]. *)
Definition organize_step (organized : OrganizedSites) (site : AnalyzedSite)
  : OrganizedSites :=
  let c := confidence (as_analysis site) in
  if 70 <=? c then
    {| highPotential := highPotential organized ++ [site];
       mediumPotential := mediumPotential organized;
       lowPotential := lowPotential organized;
       rejected := rejected organized |}
  else if 40 <=? c then
    {| highPotential := highPotential organized;
       mediumPotential := mediumPotential organized ++ [site];
       lowPotential := lowPotential organized;
       rejected := rejected organized |}
  else if 30 <=? c then
    {| highPotential := highPotential organized;
       mediumPotential := mediumPotential organized;
       lowPotential := lowPotential organized ++ [site];
       rejected := rejected organized |}
  else
    {| highPotential := highPotential organized;
       mediumPotential := mediumPotential organized;
       lowPotential := lowPotential organized;
       rejected := rejected organized ++ [site] |}.

Definition organizePotentialSites (analyzedSites : list AnalyzedSite)
  : OrganizedSites :=
  fold_left organize_step analyzedSites
            {| highPotential := []; mediumPotential := [];
               lowPotential := []; rejected := [] |}.

(** *** [lib/exporters.js], [exportToJson] *)

(** [await fs.writeJson(path, data, { spaces: 2 })] *)
Definition await_writeJson (path : string) (data : JsValue) : M W unit :=
  fun s =>
    let (o, w') := fs_writeJson R path data (world s) in
    (o, mkSys w' (log s)).

Definition exportToJson (data : JsValue) (filename : string) : M W string :=
  try_catch
    (_ <- await_ensureDir P (jsonDir R) ;;
     let filename :=
       if JsString.endsWith filename ".json" then filename
       else filename +:+ ".json" in
     let filePath := path_join P (jsonDir R) filename in
     _ <- await_writeJson filePath data ;;
     ret filePath)
    (fun error => throw error).

(** *** [lib/backlinkAnalyzer.js], [exportBacklinkAnalysis] *)

(** The records of the analysis as the objects they are. *)
Definition js_of_backlink (b : Backlink) : JsValue :=
  JsObject
    [ ("sourceUrl", JsString (sourceUrl b));
      ("sourceTitle", JsString (sourceTitle b));
      match target b with
      | TargetDomain d => ("targetDomain", JsString d)
      | TargetUrl u => ("targetUrl", JsString u)
      end;
      ("snippet", JsString (bl_snippet b)) ].

Definition js_of_serp_entry (e : SerpEntry) : JsValue :=
  JsObject
    [ ("position", JsNumber (position e));
      ("url", JsString (url e));
      ("title", JsString (serp_title e));
      ("displayUrl", JsString (displayUrl e));
      ("snippet", JsString (serp_snippet e)) ].

Definition js_of_backlink_analysis (item : BacklinkAnalysis) : JsValue :=
  JsObject
    [ ("position", JsNumber (ba_position item));
      ("url", JsString (ba_url item));
      ("title", JsString (ba_title item));
      ("backlinksCount", JsNumber (backlinksCount item));
      ("uniqueDomainsCount", JsNumber (uniqueDomainsCount item));
      ("backlinks", JsArray (map js_of_backlink (backlinks item)));
      ("uniqueDomains", JsArray (map JsString (uniqueDomains item))) ].

Definition js_of_analysis (analysis : CompetitorAnalysis) : JsValue :=
  JsObject
    [ ("keyword", JsString (keyword analysis));
      ("topPages", JsArray (map js_of_serp_entry (topPages analysis)));
      ("backlinksAnalysis",
       JsArray (map js_of_backlink_analysis (backlinksAnalysis analysis))) ].

(** [s.padStart(2, '0')] *)
Definition padStart2 (s : string) : string :=
  match s with
  | EmptyString => "00"
  | String _ EmptyString => "0" +:+ s
  | _ => s
  end.

Definition is_colon_or_dot (c : ascii) : bool :=
  let n := nat_of_ascii c in (n =? 58)%nat || (n =? 46)%nat.

(** [new Date().toISOString().replace(/[:.]/g, '-')] *)
Definition timestamp_now : M W string :=
  fun s =>
    (Ok (JsString.replaceAllChars is_colon_or_dot (ascii_of_nat 45)
           (Date_toISOString R (world s))), s).

(** The callback of [analysis.backlinksAnalysis.map] that makes the
    summary. *)
Definition summary_row (analysis : CompetitorAnalysis) (item : BacklinkAnalysis)
  : JsValue :=
  JsObject
    [ ("keyword", JsString (keyword analysis));
      ("position", JsNumber (ba_position item));
      ("url", JsString (ba_url item));
      ("title", JsString (ba_title item));
      ("backlinksCount", JsNumber (backlinksCount item));
      ("uniqueDomainsCount", JsNumber (uniqueDomainsCount item)) ].

Definition domain_row (item : BacklinkAnalysis) (domain : string) : JsValue :=
  JsObject
    [ ("targetUrl", JsString (ba_url item));
      ("targetPosition", JsNumber (ba_position item));
      ("referringDomain", JsString domain) ].

(** The first [for ... of] loop: a file of domains for every page that
    has any. *)
Fixpoint export_domains (filePrefix : string) (items : list BacklinkAnalysis)
  : M W unit :=
  match items with
  | [] => ret tt
  | item :: items' =>
      let domains := map (domain_row item) (uniqueDomains item) in
      _ <- (if (0 <? length domains)%nat
            then
              let position := padStart2 (JsString.of_Z (ba_position item)) in
              _ <- exportToCsv P (JsArray domains)
                     (filePrefix +:+ "_pos" +:+ position +:+ "_domains") ;;
              ret tt
            else ret tt) ;;
      export_domains filePrefix items'
  end.

(** The second loop: a file of backlinks for every page that has any. *)
Fixpoint export_backlinks (filePrefix : string) (items : list BacklinkAnalysis)
  : M W unit :=
  match items with
  | [] => ret tt
  | item :: items' =>
      _ <- (if (0 <? length (backlinks item))%nat
            then
              let position := padStart2 (JsString.of_Z (ba_position item)) in
              _ <- exportToCsv P (JsArray (map js_of_backlink (backlinks item)))
                     (filePrefix +:+ "_pos" +:+ position +:+ "_backlinks") ;;
              ret tt
            else ret tt) ;;
      export_backlinks filePrefix items'
  end.

(** [outputPrefix || fallback] *)
Definition prefix_or (outputPrefix : option string) (fallback : string) : string :=
  match outputPrefix with
  | Some p => if String.eqb p EmptyString then fallback else p
  | None => fallback
  end.

Definition exportBacklinkAnalysis (analysis : CompetitorAnalysis)
           (outputPrefix : option string) : M W (string * string) :=
  try_catch
    (timestamp <- timestamp_now ;;
     let filePrefix := prefix_or outputPrefix ("backlink_analysis_" +:+ timestamp) in
     fullAnalysisPath <- exportToJson (js_of_analysis analysis) (filePrefix +:+ "_full") ;;
     let summary := map (summary_row analysis) (backlinksAnalysis analysis) in
     summaryPath <- exportToCsv P (JsArray summary) (filePrefix +:+ "_summary") ;;
     _ <- export_domains filePrefix (backlinksAnalysis analysis) ;;
     _ <- export_backlinks filePrefix (backlinksAnalysis analysis) ;;
     ret (fullAnalysisPath, summaryPath))
    (fun error => throw error).

End MoreSources.

(** *** [src/modules/googleSearch.js]: the search client of the workflow *)

Module Research.

Section Research.

Context {W : Type} (P : Platform W) (R : Runtime W).

(** The [for] loop of this [searchGoogle]: a page that fails is logged
    and passed over, and no page is asked for past result 100. *)
Fixpoint searchGoogle_loop (keyword : string) (remaining : nat) (i : Z)
         (searchResults : list CseItem) : M W (list CseItem) :=
  match remaining with
  | O => ret searchResults
  | S remaining' =>
      let startIndex := i * 10 + 1 in
      if 100 <? startIndex then ret searchResults
      else
        searchResults' <-
          try_catch
            (items <- await_cse_list P
                        {| req_q := keyword; req_start := startIndex; req_num := 10 |} ;;
             match items with
             | Some (item :: items') => ret (searchResults ++ item :: items')
             | _ => ret searchResults
             end)
            (fun error => ret searchResults) ;;
        searchGoogle_loop keyword remaining' (i + 1) searchResults'
  end.

Definition searchGoogle (keyword : string) (numResults : Z)
  : M W (list SearchResult) :=
  try_catch
    (let numRequests := ceil_div10 numResults in
     searchResults <- searchGoogle_loop keyword (Z.to_nat numRequests) 0 [] ;;
     ret (map format_item searchResults))
    (fun error => ret []).

(** The inner [for ... of] loop of [searchMultipleKeywords]: a result
    whose link was seen is passed over. *)
Definition add_unique (keyword : string)
           (acc : list TaggedResult * gset string) (result : SearchResult)
  : list TaggedResult * gset string :=
  let (allResults, uniqueUrls) := acc in
  if decide (link result ∈ uniqueUrls) then acc
  else (allResults ++ [{| tr_result := result; tr_keyword := keyword |}],
        {[link result]} ∪ uniqueUrls).

(** The outer loop of [searchMultipleKeywords]. *)
Fixpoint searchMultipleKeywords_loop (keywords : list string)
         (numResultsPerKeyword : Z) (acc : list TaggedResult * gset string)
  : M W (list TaggedResult) :=
  match keywords with
  | [] => ret (fst acc)
  | keyword :: keywords' =>
      acc' <-
        try_catch
          (results <- searchGoogle keyword numResultsPerKeyword ;;
           ret (fold_left (add_unique keyword) results acc))
          (fun error => ret acc) ;;
      searchMultipleKeywords_loop keywords' numResultsPerKeyword acc'
  end.

Definition searchMultipleKeywords (keywords : list string)
           (numResultsPerKeyword : Z) : M W (list TaggedResult) :=
  searchMultipleKeywords_loop keywords numResultsPerKeyword ([], ∅).


Definition is_alnum (c : ascii) : bool :=
  let n := nat_of_ascii c in
  (48 <=? n)%nat && (n <=? 57)%nat ||
  (65 <=? n)%nat && (n <=? 90)%nat ||
  (97 <=? n)%nat && (n <=? 122)%nat.

(** [await fs.mkdir(path, { recursive: true })] *)
Definition await_mkdir (path : string) : M W unit :=
  fun s =>
    let (o, w') := fs_mkdir R path (world s) in
    (o, mkSys w' (log s)).

(** [await fs.writeFile(path, text)] *)
Definition await_writeFile (path : string) (text : string) : M W unit :=
  fun s =>
    let (o, w') := fs_writeFile R path text (world s) in
    (o, mkSys w' (log s)).

Definition js_of_result (r : SearchResult) : list (string * JsValue) :=
  [ ("title", JsString (title r));
    ("link", JsString (link r));
    ("snippet", JsString (snippet r));
    ("displayLink", JsString (displayLink r)) ].


(** [path.join(process.cwd(), 'data', 'search-results')] *)
Definition search_results_dir : string :=
  path_join P (path_join P (process_cwd R) "data") "search-results".

(** [keyword.replace(/[^a-z0-9]/gi, '_').toLowerCase()] *)
Definition sanitize (keyword : string) : string :=
  JsString.toLowerCase
    (JsString.replaceAllChars (fun c => negb (is_alnum c)) (ascii_of_nat 95) keyword).

Definition saveSearchResults (results : list SearchResult) (keyword : string)
  : M W string :=
  try_catch
    (let outputPath := search_results_dir in
     _ <- await_mkdir outputPath ;;
     let sanitizedKeyword := sanitize keyword in
     let jsonPath := path_join P outputPath (sanitizedKeyword +:+ "_results.json") in
     _ <- await_writeFile jsonPath
            (JSON_pretty R (JsArray (map (fun r => JsObject (js_of_result r)) results))) ;;
     ret jsonPath)
    (fun error => throw error).


Definition default_numResultsPerKeyword : Z := 10.


End Research.

End Research.

(** *** [src/modules/dataExporter.js]: the exporters of the workflow *)

Module DataExporter.

Section DataExporter.

Context {W : Type} (P : Platform W) (R : Runtime W).

Definition exportToCsv (data : list CsvRecord) (outputPath : string)
           (headers : list CsvColumn) : M W string :=
  try_catch
    (let dir := path_dirname R outputPath in
     _ <- Research.await_mkdir R dir ;;
     _ <- await_writeRecords P outputPath headers data ;;
     ret outputPath)
    (fun error => throw error).

(** The workbook is made and written without an [await]. *)
Definition write_workbook (data : list (string * list CsvRecord))
           (outputPath : string) : M W unit :=
  fun s =>
    let (o, w') := XLSX_writeFile R data outputPath (world s) in
    (o, mkSys w' (log s)).

Definition exportToExcel (data : list (string * list CsvRecord))
           (outputPath : string) : M W string :=
  try_catch
    (let dir := path_dirname R outputPath in
     _ <- Research.await_mkdir R dir ;;
     _ <- write_workbook data outputPath ;;
     ret outputPath)
    (fun error => throw error).

(** A categorised site as the object it is: [error] is a key of the
    sites of the category [error] only. *)
Definition js_of_site (site : EnhancedResult) : CsvRecord :=
  let c := categorization site in
  [ ("url", JsString (cat_url c));
    ("category", JsString (category c));
    ("domain", JsString (cat_domain c)) ] ++
  match cat_error c with
  | Some e => [("error", JsString e)]
  | None => []
  end ++
  [ ("title", JsString (er_title site));
    ("snippet", JsString (er_snippet site));
    ("keyword", JsString (er_keyword site)) ].

(** [...categorizedSites.key] in an array literal *)
Definition spread (categorizedSites : gmap string (list EnhancedResult))
           (key : string) : M W (list EnhancedResult) :=
  match categorizedSites !! key with
  | Some sites => ret sites
  | None => throw (not_iterable R ("categorizedSites." +:+ key))
  end.

Definition categorized_headers : list CsvColumn :=
  [ {| col_id := "url"; col_title := "URL" |};
    {| col_id := "category"; col_title := "Category" |};
    {| col_id := "domain"; col_title := "Domain" |};
    {| col_id := "title"; col_title := "Title" |};
    {| col_id := "snippet"; col_title := "Snippet" |};
    {| col_id := "keyword"; col_title := "Keyword" |} ].

Definition exportCategorizedSites
           (categorizedSites : gmap string (list EnhancedResult))
  : M W (string * string) :=
  try_catch
    (let outputDir :=
       path_join P (path_join P (process_cwd R) "data") "categorized-sites" in
     _ <- Research.await_mkdir R outputDir ;;
     let headers := categorized_headers in
     social_media <- spread categorizedSites "social_media" ;;
     content_platform <- spread categorizedSites "content_platform" ;;
     other <- spread categorizedSites "other" ;;
     let allSites := social_media ++ content_platform ++ other in
     let csvPath := path_join P outputDir "categorized_sites.csv" in
     _ <- exportToCsv (map js_of_site allSites) csvPath headers ;;
     let excelPath := path_join P outputDir "categorized_sites.xlsx" in
     _ <- exportToExcel
            [ ("Social Media", map js_of_site social_media);
              ("Content Platforms", map js_of_site content_platform);
              ("Other Sites", map js_of_site other);
              ("All Sites", map js_of_site allSites) ]
            excelPath ;;
     ret (csvPath, excelPath))
    (fun error => throw error).

End DataExporter.

End DataExporter.

(** *** The script of the submission analysis, [exportPotentialSites] *)

Section Submissions.

Context {W : Type} (P : Platform W) (R : Runtime W).

Definition potential_headers : list CsvColumn :=
  [ {| col_id := "url"; col_title := "URL" |};
    {| col_id := "domain"; col_title := "Domain" |};
    {| col_id := "acceptsSubmissions"; col_title := "Accepts Submissions" |};
    {| col_id := "confidence"; col_title := "Confidence Score" |};
    {| col_id := "submissionPageUrls"; col_title := "Submission Pages" |};
    {| col_id := "submissionKeywordsFound"; col_title := "Keywords Found" |};
    {| col_id := "notes"; col_title := "Notes" |};
    {| col_id := "title"; col_title := "Site Title" |};
    {| col_id := "snippet"; col_title := "Description" |} ].

(** The callback of [sites.map] in [prepareForExport]: the analysed site
    as the object it is, with its three arrays of strings joined. *)
Definition prepared_site (site : AnalyzedSite) : CsvRecord :=
  let c := categorization (as_site site) in
  let a := as_analysis site in
  [ ("url", JsString (sa_url a));
    ("category", JsString (category c));
    ("domain", JsString (sa_domain a)) ] ++
  match cat_error c with
  | Some e => [("error", JsString e)]
  | None => []
  end ++
  [ ("title", JsString (er_title (as_site site)));
    ("snippet", JsString (er_snippet (as_site site)));
    ("keyword", JsString (er_keyword (as_site site)));
    ("acceptsSubmissions", JsBool (acceptsSubmissions a));
    ("confidence", JsNumber (confidence a));
    ("submissionPageUrls", JsString (String.concat "|" (submissionPageUrls a)));
    ("submissionKeywordsFound",
     JsString (String.concat "|" (submissionKeywordsFound a)));
    ("notes", JsString (String.concat "|" (notes a))) ].

Definition prepareForExport (sites : list AnalyzedSite) : list CsvRecord :=
  map prepared_site sites.

Definition exportPotentialSites (organizedSites : OrganizedSites) : M W unit :=
  try_catch
    (let outputDir :=
       path_join P (path_join P (process_cwd R) "data") "potential-websites" in
     let headers := potential_headers in
     let allPotentialSites :=
       prepareForExport (highPotential organizedSites) ++
       prepareForExport (mediumPotential organizedSites) ++
       prepareForExport (lowPotential organizedSites) in
     let csvPath := path_join P outputDir "potential_submission_sites.csv" in
     _ <- DataExporter.exportToCsv P R allPotentialSites csvPath headers ;;
     let excelPath := path_join P outputDir "potential_submission_sites.xlsx" in
     _ <- DataExporter.exportToExcel R
            [ ("High Potential", prepareForExport (highPotential organizedSites));
              ("Medium Potential", prepareForExport (mediumPotential organizedSites));
              ("Low Potential", prepareForExport (lowPotential organizedSites));
              ("Rejected", prepareForExport (rejected organizedSites));
              ("All Potential", allPotentialSites) ]
            excelPath ;;
     ret tt)
    (fun error => throw error).

End Submissions.

(** ** Vocabulary of the statements *)

(** A page of a search: the request and what the API answered. *)
Definition Page : Type := CseRequest * CseOutcome.

Definition page_event (p : Page) : Event := EvSearch (fst p) (snd p).

Definition items_of (pages : list Page) : list CseItem :=
  flat_map (fun p => page_items (snd p)) pages.

(** The requests of a search for [numResults] results, page after page:
    the page with index [i] starts at result [10 i + 1] and asks for the
    results still missing, ten at most. *)
Fixpoint requests_from (keywords : string) (numResults : Z) (i : Z)
         (collected : Z) (pages : list Page) : Prop :=
  match pages with
  | [] => True
  | p :: pages' =>
      fst p = {| req_q := keywords;
                 req_start := i * 10 + 1;
                 req_num := Z.min 10 (numResults - collected) |} /\
      requests_from keywords numResults (i + 1)
                    (collected + Z.of_nat (length (page_items (snd p)))) pages'
  end.

(** No page but the last came back empty. *)
Fixpoint only_last_empty (pages : list Page) : Prop :=
  match pages with
  | [] => True
  | p :: pages' =>
      (page_items (snd p) = [] -> pages' = []) /\ only_last_empty pages'
  end.

(** A page that delivered fewer results than it was asked for. *)
Definition short_page (p : Page) : Prop :=
  Z.of_nat (length (page_items (snd p))) < req_num (fst p).

(** The API serves no more results than a request asks for. *)
Definition honest_page (p : Page) : Prop :=
  Z.of_nat (length (page_items (snd p))) <= req_num (fst p).

(** The host names of the backlinks whose [sourceUrl] is a URL. *)
Definition parsed_hosts {W : Type} (P : Platform W) (backlinks : list Backlink)
  : list string :=
  omap (fun backlink => URL_hostname P (sourceUrl backlink)) backlinks.

(** A property of the value of a computation that returns. *)
Definition forall_ok {W A : Type} (run : Result A * Sys W) (Q : A -> Prop) : Prop :=
  match fst run with
  | Ok a => Q a
  | Throw _ => False
  end.

(** The record that [verifyBacklinks] makes of a backlink, by the outcome
    of fetching its source page. *)
Definition record_of_outcome {W : Type} (P : Platform W) (targetDomain : string)
           (backlink : Backlink) (o : GetOutcome) : VerifiedBacklink :=
  match o with
  | Ok response =>
      let found :=
        map found_link
            (Cheerio.select_attr_contains (cheerio_load P (resp_data response))
                                          "a" "href" targetDomain) in
      {| vb_backlink := backlink;
         verified := (0 <? length found)%nat;
         links := Some found;
         statusCode := resp_status response;
         error := None |}
  | Throw e =>
      {| vb_backlink := backlink;
         verified := false;
         links := None;
         statusCode := status_or_zero e;
         error := Some (message e) |}
  end.

(** The fetches of a list of backlinks, as they are logged. *)
Definition get_events (backlinks : list Backlink) (outcomes : list GetOutcome)
  : list Event :=
  zip_with EvGet (map sourceUrl backlinks) outcomes.

(** The object [categories] with the four arrays given. *)
Definition categories_of (social content other errors : list EnhancedResult)
  : gmap string (list EnhancedResult) :=
  <["social_media" := social]> (<["content_platform" := content]>
    (<["other" := other]> (<["error" := errors]> ∅))).

(** The enhanced results of one category, in the order of the input. *)
Definition in_category {W : Type} (P : Platform W) (c : string)
           (results : list KeywordResult) : list EnhancedResult :=
  filter (fun r => category (categorization r) = c) (map (enhance P) results).

(** The invariant of a site analysis. *)
Definition confidence_invariant (r : SiteAnalysis) : Prop :=
  0 <= confidence r <= 100 /\
  acceptsSubmissions r = (30 <=? confidence r).

(** A record with its array-valued and object-valued fields flattened. *)
Definition flatten_record {W : Type} (P : Platform W) (r : CsvRecord) : CsvRecord :=
  map (fun kv => (fst kv, flatten_value P (snd kv))) r.

(** The path of the file that [exportToCsv] writes. *)
Definition csv_path {W : Type} (P : Platform W) (filename : string) : string :=
  path_join P (csvDir P)
            (if JsString.endsWith filename ".csv" then filename
             else filename +:+ ".csv").

(** The search API answers every call. *)
Definition search_never_fails {W : Type} (P : Platform W) : Prop :=
  forall r w, exists items, fst (cse_list P r w) = Ok items.

(** ** Vocabulary of the statements about the rest of the sources *)

(** What every record of [extractMetadata] satisfies: no heading is
    empty, and the record of a failure has nothing but its URL and the
    error. *)
Definition well_formed_metadata (md : Metadata) : Prop :=
  Forall (fun t => t <> EmptyString) (h1Tags md ++ h2Tags md ++ h3Tags md) /\
  (md_error md <> None ->
   md_title md = EmptyString /\ md_description md = EmptyString /\
   md_keywords md = EmptyString /\
   h1Tags md = [] /\ h2Tags md = [] /\ h3Tags md = []).

(** The record made for a URL. *)
Definition metadata_for (url : string) (md : Metadata) : Prop :=
  md_url md = url /\ well_formed_metadata md.

(** The confidence of an analysed site. *)
Definition site_confidence (site : AnalyzedSite) : Z :=
  confidence (as_analysis site).

(** What the two accumulators of [searchMultipleKeywords] keep: the
    links of the results are distinct, the set holds exactly them, and
    every result is tagged with one of the keywords. *)
Definition unique_so_far (kws : list string)
           (acc : list TaggedResult * gset string) : Prop :=
  NoDup (map (fun r : TaggedResult => link (tr_result r)) (fst acc)) /\
  (forall l, l ∈ snd acc <-> l ∈ map (fun r : TaggedResult => link (tr_result r)) (fst acc)) /\
  Forall (fun r => tr_keyword r ∈ kws) (fst acc).

(** ** A runtime to run the rest of the sources on *)

Module SampleRuntime.

(** What is before the last slash of a path. *)
Fixpoint before_last_slash (p : string) : option string :=
  match p with
  | EmptyString => None
  | String c p' =>
      match before_last_slash p' with
      | Some d => Some (String c d)
      | None => if Ascii.eqb c JsString.slash then Some EmptyString else None
      end
  end.

Definition dirname (p : string) : string :=
  match before_last_slash p with
  | Some EmptyString => "/"
  | Some d => d
  | None => "."
  end.

Definition runtime : Runtime nat :=
  {| concurrentRequests := 3;
     Error_toString := fun e => "Error: " +:+ message e;
     jsonDir := "output/json";
     fs_writeJson := fun _ _ w => (Ok tt, w);
     Date_toISOString := fun _ => "2024-01-02T03:04:05.678Z";
     fs_mkdir := fun _ w => (Ok tt, w);
     fs_writeFile := fun _ _ w => (Ok tt, w);
     JSON_pretty := fun _ => "[]";
     process_cwd := "/app";
     path_dirname := dirname;
     XLSX_writeFile := fun _ _ w => (Ok tt, w);
     not_iterable := fun e => Error (e +:+ " is not iterable") |}.

(** Two sites of the category [other]. *)
Definition site (u : string) : EnhancedResult :=
  {| categorization := categorizeUrl Sample.platform u;
     er_title := "A site";
     er_snippet := "About a site";
     er_keyword := "k" |}.

Definition sites : list EnhancedResult :=
  [site "https://site1.example/"; site "https://site2.example/"].

(** A site analysed with confidence [c]. *)
Definition analysed (u : string) (c : Z) : AnalyzedSite :=
  {| as_site := site u;
     as_analysis :=
       {| sa_url := u;
          sa_domain := "site.example";
          acceptsSubmissions := 30 <=? c;
          confidence := c;
          submissionPageUrls := [];
          submissionKeywordsFound := [];
          notes := [] |} |}.

End SampleRuntime.

(** The evidence behind a confidence: twenty points a submission page,
    fifteen at most a keyword. *)
Definition backed_by_evidence (r : SiteAnalysis) (allowance : Z) : Prop :=
  confidence r <= 20 * Z.of_nat (length (submissionPageUrls r))
                  + 15 * Z.of_nat (length (submissionKeywordsFound r)) + allowance /\
  NoDup (submissionPageUrls r) /\
  NoDup (submissionKeywordsFound r) /\
  (forall k, k ∈ submissionKeywordsFound r -> k ∈ SUBMISSION_KEYWORDS).

(** What every record of the competitor analysis keeps. *)
Definition counted_backlinks (ba : BacklinkAnalysis) : Prop :=
  backlinksCount ba = Z.of_nat (length (backlinks ba)) /\
  uniqueDomainsCount ba = Z.of_nat (length (uniqueDomains ba)) /\
  uniqueDomainsCount ba <= backlinksCount ba /\
  NoDup (uniqueDomains ba) /\
  Forall (fun b => target b = TargetUrl (ba_url ba)) (backlinks ba).

(** The page calls that threw. *)
Definition page_threw (p : Page) : Prop :=
  match snd p with
  | Throw _ => True
  | Ok _ => False
  end.

(** The file system plays along: no call of it fails. *)
Definition fs_never_fails {W : Type} (P : Platform W) (R : Runtime W) : Prop :=
  (forall d w, fst (fs_ensureDir P d w) = Ok tt) /\
  (forall p h r w, fst (csv_writeRecords P p h r w) = Ok tt) /\
  (forall p d w, fst (fs_writeJson R p d w) = Ok tt).

(** The CSV files among the events, each with the number of its rows. *)
Definition written (evs : list Event) : list (string * nat) :=
  omap (fun ev =>
          match ev with
          | EvWriteRecords p _ r _ => Some (p, length r)
          | _ => None
          end) evs.

(** The path of the file that [exportToJson] writes. *)
Definition json_path {W : Type} (P : Platform W) (R : Runtime W)
           (filename : string) : string :=
  path_join P (jsonDir R)
            (if JsString.endsWith filename ".json" then filename
             else filename +:+ ".json").

(** The prefix of the files of [exportBacklinkAnalysis] called in [s]. *)
Definition file_prefix {W : Type} (R : Runtime W) (outputPrefix : option string)
           (s : Sys W) : string :=
  prefix_or outputPrefix
    ("backlink_analysis_" +:+
     JsString.replaceAllChars is_colon_or_dot (ascii_of_nat 45)
       (Date_toISOString R (world s))).

(** The path of the file of one ranked page. *)
Definition pos_file {W : Type} (P : Platform W) (filePrefix : string)
           (item : BacklinkAnalysis) (suffix : string) : string :=
  csv_path P (filePrefix +:+ "_pos" +:+
              padStart2 (JsString.of_Z (ba_position item)) +:+ suffix).

Module SampleAnalysis.

Definition link : Backlink :=
  {| sourceUrl := "https://site1.example/"; sourceTitle := "Site 1";
     target := TargetUrl "https://top.example/"; bl_snippet := "About site 1" |}.

Definition page : SerpEntry :=
  {| position := 1; url := "https://top.example/"; serp_title := "Top";
     displayUrl := "top.example"; serp_snippet := "The top page" |}.

Definition lonely : SerpEntry :=
  {| position := 2; url := "https://second.example/"; serp_title := "Second";
     displayUrl := "second.example"; serp_snippet := "The second page" |}.

(** Two ranked pages, the second without backlinks. *)
Definition analysis : CompetitorAnalysis :=
  {| keyword := "k";
     topPages := [page; lonely];
     backlinksAnalysis :=
       [ {| ba_position := 1; ba_url := "https://top.example/"; ba_title := "Top";
            backlinksCount := 1; uniqueDomainsCount := 1;
            backlinks := [link]; uniqueDomains := ["site1.example"] |};
         {| ba_position := 2; ba_url := "https://second.example/";
            ba_title := "Second";
            backlinksCount := 0; uniqueDomainsCount := 0;
            backlinks := []; uniqueDomains := [] |} ] |}.


End SampleAnalysis.


(** [fs.mkdir] and [fs.writeFile] never fail. *)
Definition files_never_fail {W : Type} (R : Runtime W) : Prop :=
  (forall p w, fst (fs_mkdir R p w) = Ok tt) /\
  (forall p t w, fst (fs_writeFile R p t w) = Ok tt).

(** The characters of a sanitised keyword. *)
Definition is_safe_char (c : ascii) : bool :=
  let n := nat_of_ascii c in
  (48 <=? n)%nat && (n <=? 57)%nat ||
  (97 <=? n)%nat && (n <=? 122)%nat ||
  (n =? 95)%nat.

(** The directories, the CSV writer and the workbook writer never fail. *)
Definition exports_never_fail {W : Type} (P : Platform W) (R : Runtime W) : Prop :=
  (forall p w, fst (fs_mkdir R p w) = Ok tt) /\
  (forall p h r w, fst (csv_writeRecords P p h r w) = Ok tt) /\
  (forall d p w, fst (XLSX_writeFile R d p w) = Ok tt).

(** The directory of the categorised sites. *)
Definition categorized_dir {W : Type} (P : Platform W) (R : Runtime W) : string :=
  path_join P (path_join P (process_cwd R) "data") "categorized-sites".

(** The directory of the potential sites. *)
Definition potential_dir {W : Type} (P : Platform W) (R : Runtime W) : string :=
  path_join P (path_join P (process_cwd R) "data") "potential-websites".

(** * Properties *)

(** ** The string functions on the inputs the sources give them *)

Example bare_hostname_of_url :
  bare_hostname "https://target.example/a/b/" = "target.example".
Proof. reflexivity. Qed.

Example bare_hostname_of_domain :
  bare_hostname "target.example" = "target.example".
Proof. reflexivity. Qed.

Example bare_hostname_keeps_upper_scheme :
  bare_hostname "HTTP://target.example" = "HTTP:".
Proof. reflexivity. Qed.

Example includes_hostname :
  JsString.includes "https://target.example/foo" "target.example" = true.
Proof. reflexivity. Qed.

Example trim_link_text :
  JsString.trim (JsString.toLowerCase "  Write For Us ") = "write for us".
Proof. reflexivity. Qed.

Example pattern_as_text :
  JsString.trim (JsString.replaceAllChars is_slash_or_dash space "/write-for-us")
  = "write for us".
Proof. reflexivity. Qed.

Example endsWith_csv :
  JsString.endsWith "report.csv" ".csv" = true /\
  JsString.endsWith "report" ".csv" = false.
Proof. split; reflexivity. Qed.

Example ceil_div10_values :
  ceil_div10 0 = 0 /\ ceil_div10 3 = 1 /\ ceil_div10 20 = 2 /\ ceil_div10 25 = 3.
Proof. repeat split; reflexivity. Qed.

(** ** The monad *)

Section MonadFacts.

Context {W : Type}.

Lemma bind_ok {A B} (m : M W A) (k : A -> M W B) s a s1 :
  m s = (Ok a, s1) -> bind m k s = k a s1.
Proof. intros H. unfold bind. now rewrite H. Qed.

Lemma bind_throw {A B} (m : M W A) (k : A -> M W B) s e s1 :
  m s = (Throw e, s1) -> bind m k s = (Throw e, s1).
Proof. intros H. unfold bind. now rewrite H. Qed.

(** [catch (error) { throw error }] changes nothing. *)
Lemma try_rethrow {A} (m : M W A) s :
  try_catch m (fun error => throw error) s = m s.
Proof.
  unfold try_catch, throw. destruct (m s) as [[a | e] s1]; reflexivity.
Qed.

End MonadFacts.

(** ** The search client *)

Section SearchClient.

Context {W : Type} (P : Platform W).

Lemma await_cse_list_log r s :
  exists o, await_cse_list P r s = (o, mkSys (snd (cse_list P r (world s)))
                                           (log s ++ [EvSearch r o])).
Proof.
  unfold await_cse_list. destruct (cse_list P r (world s)) as [o w'].
  exists o. reflexivity.
Qed.

(** What one run of the loop does, whatever the API answers. *)
Lemma searchGoogle_loop_pages q N :
  forall remaining i allResults s r s',
    searchGoogle_loop P q N remaining i allResults s = (r, s') ->
    exists pages : list Page,
      log s' = log s ++ map page_event pages /\
      (length pages <= remaining)%nat /\
      requests_from q N i (Z.of_nat (length allResults)) pages /\
      only_last_empty pages /\
      match r with
      | Ok results =>
          results = allResults ++ items_of pages /\
          ((forall p, p ∈ pages -> page_items (snd p) <> []) ->
           length pages = remaining)
      | Throw e => exists rq, last pages = Some (rq, Throw e)
      end.
Proof.
  induction remaining as [| remaining IH]; intros i allResults s r s' Hrun.
  - simpl in Hrun. inversion Hrun; subst. exists []. simpl.
    rewrite !app_nil_r. repeat split; auto.
  - simpl in Hrun. unfold bind in Hrun.
    set (rq := {| req_q := q; req_start := i * 10 + 1;
                  req_num := Z.min 10 (N - Z.of_nat (length allResults)) |}) in *.
    destruct (await_cse_list_log rq s) as [o Ho]. rewrite Ho in Hrun.
    set (s1 := mkSys (snd (cse_list P rq (world s))) (log s ++ [EvSearch rq o])) in *.
    destruct o as [[[| item items'] |] | e].
    + (* an empty page *)
      inversion Hrun; subst. exists [(rq, Ok (Some []))]. simpl.
      rewrite app_nil_r. repeat split; auto; try lia.
      intros Hne. exfalso. apply (Hne (rq, Ok (Some []))); [left | reflexivity].
    + (* a page with results *)
      apply IH in Hrun. destruct Hrun as (pages & Hlog & Hlen & Hreq & Hlast & Hres).
      exists ((rq, Ok (Some (item :: items'))) :: pages).
      split. { rewrite Hlog. simpl. now rewrite <- app_assoc. }
      split. { simpl. lia. }
      split. { cbn [requests_from fst snd page_items]. split; [reflexivity |].
               rewrite length_app, Nat2Z.inj_add in Hreq. exact Hreq. }
      split. { simpl. split; [discriminate | exact Hlast]. }
      destruct r as [results | e].
      * destruct Hres as [Hres Hfull]. split.
        { rewrite Hres. unfold items_of. simpl. now rewrite <- app_assoc. }
        intros Hne. simpl. f_equal. apply Hfull.
        intros p Hp. apply Hne. now right.
      * destruct Hres as [rq' Hres]. exists rq'.
        destruct pages; [discriminate | exact Hres].
    + (* a response without items *)
      inversion Hrun; subst. exists [(rq, Ok None)]. simpl.
      rewrite app_nil_r. repeat split; auto; try lia.
      intros Hne. exfalso. apply (Hne (rq, Ok None)); [left | reflexivity].
    + (* the call throws *)
      inversion Hrun; subst. exists [(rq, Throw e)]. simpl.
      repeat split; auto; try lia. now exists rq.
Qed.

Lemma requests_from_lookup q N (pages : list Page) :
  forall i collected k p,
    requests_from q N i collected pages ->
    pages !! k = Some p ->
    fst p = {| req_q := q;
               req_start := (i + Z.of_nat k) * 10 + 1;
               req_num := Z.min 10 (N - (collected +
                            Z.of_nat (length (items_of (take k pages))))) |}.
Proof.
  induction pages as [| p0 pages IH]; intros i collected k p Hreq Hk.
  - destruct k; discriminate.
  - destruct Hreq as [Hp0 Hreq]. destruct k as [| k].
    + inversion Hk; subst. rewrite Hp0. simpl. f_equal; f_equal; lia.
    + simpl in Hk. rewrite (IH _ _ _ _ Hreq Hk).
      cbn [take items_of flat_map]. fold (items_of (take k pages)).
      rewrite length_app, Nat2Z.inj_add. f_equal; f_equal; lia.
Qed.

Lemma only_last_empty_lookup (pages : list Page) :
  forall k p,
    only_last_empty pages ->
    pages !! k = Some p ->
    page_items (snd p) = [] ->
    length pages = S k.
Proof.
  induction pages as [| p0 pages IH]; intros k p Hlast Hk Hempty.
  - destruct k; discriminate.
  - destruct Hlast as [Hp0 Hlast]. destruct k as [| k].
    + inversion Hk; subst. now rewrite (Hp0 Hempty).
    + simpl in Hk. simpl. f_equal. eapply IH; eauto.
Qed.

(** With an API that serves no more than it is asked for, the results
    collected never exceed [N]. *)
Lemma honest_pages_bound q N (pages : list Page) :
  forall i collected,
    requests_from q N i collected pages ->
    (forall p, p ∈ pages -> honest_page p) ->
    collected <= N ->
    collected + Z.of_nat (length (items_of pages)) <= N.
Proof.
  induction pages as [| p0 pages IH]; intros i collected Hreq Hhonest Hle.
  - simpl. lia.
  - destruct Hreq as [Hp0 Hreq].
    assert (Hh : honest_page p0) by (apply Hhonest; left).
    unfold honest_page in Hh. rewrite Hp0 in Hh. simpl in Hh.
    cbn [items_of flat_map]. fold (items_of pages).
    rewrite length_app, Nat2Z.inj_add.
    specialize (IH _ _ Hreq).
    assert (Hrest : forall p, p ∈ pages -> honest_page p)
      by (intros p Hp; apply Hhonest; now right).
    specialize (IH Hrest). lia.
Qed.

(** [ceil_div10] is the ceiling of [n / 10]. *)
Lemma ceil_div10_bounds n :
  10 * (ceil_div10 n - 1) < n <= 10 * ceil_div10 n.
Proof.
  unfold ceil_div10.
  pose proof (Z.div_mod (- n) 10 ltac:(lia)) as Hdm.
  pose proof (Z.mod_pos_bound (- n) 10 ltac:(lia)) as Hm.
  lia.
Qed.

(** C2 (as the code has it).  For every [N >= 0], a search that returns
    has made its page calls one after the other, page [k] starting at
    result [10 k + 1] and asking for [min(10, N - collected so far)]
    results; it returns the results of the pages in the order of the API;
    it makes exactly [ceil(N / 10)] calls unless a page comes back with no
    result at all, and such a page is the last one called; and with an API
    that serves no more results than a request asks for it returns at
    most [N] results. *)
Theorem searchGoogle_paging (q : string) (N : Z) (s s' : Sys W)
        (results : list SearchResult) :
  0 <= N ->
  searchGoogle P q N s = (Ok results, s') ->
  exists pages : list Page,
    log s' = log s ++ map page_event pages /\
    results = map format_item (items_of pages) /\
    (forall k p, pages !! k = Some p ->
       fst p = {| req_q := q;
                  req_start := Z.of_nat k * 10 + 1;
                  req_num := Z.min 10 (N - Z.of_nat (length (items_of (take k pages)))) |}) /\
    (length pages <= Z.to_nat (ceil_div10 N))%nat /\
    ((forall p, p ∈ pages -> page_items (snd p) <> []) ->
     length pages = Z.to_nat (ceil_div10 N)) /\
    (forall k p, pages !! k = Some p -> page_items (snd p) = [] ->
       length pages = S k) /\
    ((forall p, p ∈ pages -> honest_page p) ->
     Z.of_nat (length results) <= N).
Proof.
  intros HN Hrun. unfold searchGoogle in Hrun. rewrite try_rethrow in Hrun.
  unfold bind in Hrun.
  destruct (searchGoogle_loop P q N (Z.to_nat (ceil_div10 N)) 0 [] s)
    as [[allResults | e] s1] eqn:Hloop; [| discriminate].
  unfold ret in Hrun. inversion Hrun; subst. clear Hrun.
  apply searchGoogle_loop_pages in Hloop.
  destruct Hloop as (pages & Hlog & Hlen & Hreq & Hlast & Hres & Hfull).
  simpl in Hres. subst allResults.
  exists pages. repeat split; auto.
  - intros k p Hk. rewrite (requests_from_lookup _ _ _ _ _ _ _ Hreq Hk).
    simpl. f_equal; f_equal; lia.
  - intros k p Hk Hempty. eapply only_last_empty_lookup; eauto.
  - intros Hhonest. rewrite length_map.
    pose proof (honest_pages_bound _ _ _ _ _ Hreq Hhonest) as Hb.
    simpl in Hb. lia.
Qed.

End SearchClient.

(** The sample API serves seven results a page: a search for twenty
    results gets a short first page and goes on to the second. *)
Lemma searchGoogle_paging_witness :
  exists pages : list Page,
    log (snd (searchGoogle Sample.platform "k" 20 (Sample.start 10))) =
      map page_event pages /\
    length pages = 2%nat /\
    (forall p, p ∈ pages -> page_items (snd p) <> []).
Proof.
  destruct (searchGoogle Sample.platform "k" 20 (Sample.start 10))
    as [r s'] eqn:Hrun.
  assert (Hok : exists results, r = Ok results).
  { vm_compute in Hrun. inversion Hrun. eauto. }
  destruct Hok as [results ->].
  destruct (searchGoogle_paging Sample.platform "k" 20 (Sample.start 10) s' results
              ltac:(lia) Hrun)
    as (pages & Hlog & Hres & Hreq & Hlen & Hfull & Hlast & Hbound).
  exists pages. split; [exact Hlog |].
  assert (Hpages : map page_event pages = log s').
  { now rewrite Hlog. }
  vm_compute in Hrun. inversion Hrun as [[Hr Hs]]. clear Hrun Hr.
  rewrite <- Hs in Hpages. simpl in Hpages.
  destruct pages as [| [rq1 o1] [| [rq2 o2] [| p3 pages]]]; try discriminate.
  inversion Hpages; subst. split; [reflexivity |].
  intros p Hp. apply list_elem_of_In in Hp.
  destruct Hp as [<- | [<- | []]]; discriminate.
Defined.

(** C2 (as stated) fails: the first page of the sample search delivers
    seven results where ten were asked for, and a second page is called
    all the same. *)
Lemma searchGoogle_short_page_continues :
  exists results s' pages p,
    searchGoogle Sample.platform "k" 20 (Sample.start 10) = (Ok results, s') /\
    log s' = log (Sample.start 10) ++ map page_event pages /\
    pages !! 0%nat = Some p /\
    req_num (fst p) = 10 /\
    length (page_items (snd p)) = 7%nat /\
    short_page p /\
    length pages = 2%nat.
Proof.
  set (rq1 := {| req_q := "k"; req_start := 1; req_num := 10 |}).
  set (rq2 := {| req_q := "k"; req_start := 11; req_num := 10 |}).
  set (pages := [(rq1, fst (Sample.cse rq1 10)); (rq2, fst (Sample.cse rq2 9))]).
  exists (map format_item (items_of pages)), (mkSys 8%nat (map page_event pages)),
         pages, (rq1, fst (Sample.cse rq1 10)).
  repeat split; reflexivity.
Qed.

(** ** Unique referring domains *)

Section InsertionOrderedSets.

Lemma existsb_eqb_elem (x : string) (l : list string) :
  existsb (String.eqb x) l = true <-> x ∈ l.
Proof.
  rewrite existsb_exists. split.
  - intros (y & Hy & Heq). apply String.eqb_eq in Heq. subst.
    now apply list_elem_of_In.
  - intros Hx. exists x. split; [now apply list_elem_of_In | apply String.eqb_refl].
Qed.

Lemma Set_add_elem seen x y : y ∈ Set_add seen x <-> y ∈ seen \/ y = x.
Proof.
  unfold Set_add. destruct (existsb (String.eqb x) seen) eqn:Hex.
  - apply existsb_eqb_elem in Hex. split; [auto |].
    intros [H | ->]; auto.
  - rewrite elem_of_app, list_elem_of_singleton. reflexivity.
Qed.

Lemma Set_add_NoDup seen x : NoDup seen -> NoDup (Set_add seen x).
Proof.
  intros Hnd. unfold Set_add.
  destruct (existsb (String.eqb x) seen) eqn:Hex; [exact Hnd |].
  apply NoDup_app. split; [exact Hnd |]. split.
  - intros y Hy Hyx. apply list_elem_of_singleton in Hyx. subst.
    apply existsb_eqb_elem in Hy. congruence.
  - apply NoDup_singleton.
Qed.

Lemma Set_of_array_elem xs : forall seen y,
  y ∈ Set_of_array seen xs <-> y ∈ seen \/ y ∈ xs.
Proof.
  unfold Set_of_array.
  induction xs as [| x xs IH]; intros seen y; simpl.
  - rewrite elem_of_nil. tauto.
  - rewrite IH, Set_add_elem, elem_of_cons. tauto.
Qed.

Lemma Set_of_array_NoDup xs : forall seen,
  NoDup seen -> NoDup (Set_of_array seen xs).
Proof.
  unfold Set_of_array.
  induction xs as [| x xs IH]; intros seen Hnd; simpl; [exact Hnd |].
  apply IH, Set_add_NoDup, Hnd.
Qed.

(** Adding values only ever appends. *)
Lemma Set_of_array_extends xs : forall seen,
  exists added, Set_of_array seen xs = seen ++ added.
Proof.
  unfold Set_of_array.
  induction xs as [| x xs IH]; intros seen; simpl.
  - exists []. now rewrite app_nil_r.
  - destruct (IH (Set_add seen x)) as [added Hadded]. rewrite Hadded.
    unfold Set_add. destruct (existsb (String.eqb x) seen).
    + now exists added.
    + exists (x :: added). now rewrite <- app_assoc.
Qed.

(** What is added comes in the order of the array. *)
Lemma Set_of_array_sublist xs : forall seen,
  exists added, Set_of_array seen xs = seen ++ added /\ sublist added xs.
Proof.
  unfold Set_of_array.
  induction xs as [| x xs IH]; intros seen; simpl.
  - exists []. split; [now rewrite app_nil_r | constructor].
  - destruct (IH (Set_add seen x)) as (added & Hadded & Hsub). rewrite Hadded.
    unfold Set_add. destruct (existsb (String.eqb x) seen).
    + exists added. split; [reflexivity | now apply sublist_cons].
    + exists (x :: added). split; [now rewrite <- app_assoc | now apply sublist_skip].
Qed.

Lemma Set_of_array_app xs ys seen :
  Set_of_array seen (xs ++ ys) = Set_of_array (Set_of_array seen xs) ys.
Proof. unfold Set_of_array. apply fold_left_app. Qed.

(** A value takes its place in the set when it is first seen. *)
Lemma Set_of_array_first_seen pre x post :
  x ∉ pre ->
  exists rest, Set_of_array [] (pre ++ x :: post) = Set_of_array [] pre ++ x :: rest.
Proof.
  intros Hfresh. rewrite Set_of_array_app.
  change (Set_of_array (Set_of_array [] pre) (x :: post))
    with (Set_of_array (Set_add (Set_of_array [] pre) x) post).
  assert (Hnew : existsb (String.eqb x) (Set_of_array [] pre) = false).
  { destruct (existsb (String.eqb x) (Set_of_array [] pre)) eqn:Hex; [| reflexivity].
    apply existsb_eqb_elem, Set_of_array_elem in Hex.
    destruct Hex as [Hnil | Hpre]; [inversion Hnil | contradiction]. }
  unfold Set_add. rewrite Hnew.
  destruct (Set_of_array_extends post (Set_of_array [] pre ++ [x])) as [added Hadded].
  rewrite Hadded. exists added. now rewrite <- app_assoc.
Qed.

(** A list without duplicates is its own set. *)
Lemma Set_of_array_NoDup_id xs : forall seen,
  NoDup (seen ++ xs) -> Set_of_array seen xs = seen ++ xs.
Proof.
  unfold Set_of_array.
  induction xs as [| x xs IH]; intros seen Hnd; simpl.
  - now rewrite app_nil_r.
  - assert (Hnew : existsb (String.eqb x) seen = false).
    { destruct (existsb (String.eqb x) seen) eqn:Hex; [| reflexivity].
      apply existsb_eqb_elem in Hex. apply NoDup_app in Hnd.
      destruct Hnd as (_ & Hdisj & _). exfalso. apply (Hdisj x Hex). left. }
    unfold Set_add at 2. rewrite Hnew. rewrite IH.
    + now rewrite <- app_assoc.
    + now rewrite <- app_assoc.
Qed.

End InsertionOrderedSets.

Section ReferringDomains.

Context {W : Type} (P : Platform W).

Lemma getUniqueReferringDomains_eq backlinks :
  getUniqueReferringDomains P backlinks = Set_of_array [] (parsed_hosts P backlinks).
Proof. reflexivity. Qed.

(** C4 (as the code has it).  The result has no duplicates, holds exactly
    the host names of the backlinks whose [sourceUrl] parses (the others
    are skipped; the function is total), and lists them in the order of
    the input, each where it is first seen.  Removing duplicates from the result again
    leaves it as it is, and so does the function itself on any backlinks
    whose source URLs parse to the host names of the result.  Applied to
    its own result, an array of strings and not of backlinks, it finds no
    [sourceUrl] to parse and returns the empty array. *)
Theorem getUniqueReferringDomains_unique (backlinks : list Backlink) :
  let out := getUniqueReferringDomains P backlinks in
  NoDup out /\
  (forall h, h ∈ out <->
     exists b, b ∈ backlinks /\ URL_hostname P (sourceUrl b) = Some h) /\
  sublist out (parsed_hosts P backlinks) /\
  (forall pre h post,
     parsed_hosts P backlinks = pre ++ h :: post -> h ∉ pre ->
     exists rest, out = Set_of_array [] pre ++ h :: rest) /\
  Set_of_array [] out = out /\
  (forall wrap : string -> Backlink,
     (forall h, h ∈ out -> URL_hostname P (sourceUrl (wrap h)) = Some h) ->
     getUniqueReferringDomains P (map wrap out) = out) /\
  (URL_hostname P "undefined" = None ->
   getUniqueReferringDomains_of_strings P out = []).
Proof.
  intros out.
  assert (Hnd : NoDup out) by (apply Set_of_array_NoDup, NoDup_nil_2).
  split; [exact Hnd |]. split.
  { intros h. unfold out. rewrite getUniqueReferringDomains_eq, Set_of_array_elem.
    unfold parsed_hosts. rewrite list_elem_of_omap. split.
    - intros [Hnil | Hh]; [inversion Hnil | exact Hh].
    - intros Hh. now right. }
  split.
  { unfold out. rewrite getUniqueReferringDomains_eq.
    destruct (Set_of_array_sublist (parsed_hosts P backlinks) [])
      as (added & Hadded & Hsub).
    now rewrite Hadded. }
  split.
  { intros pre h post Hsplit Hfresh. unfold out.
    rewrite getUniqueReferringDomains_eq, Hsplit.
    now apply Set_of_array_first_seen. }
  split.
  { now apply (Set_of_array_NoDup_id out []). }
  split.
  { intros wrap Hwrap. rewrite getUniqueReferringDomains_eq.
    assert (Hhosts : forall l, (forall h, h ∈ l -> h ∈ out) ->
                               parsed_hosts P (map wrap l) = l).
    { induction l as [| h l IH]; intros Hl; [reflexivity |].
      unfold parsed_hosts in *. simpl.
      rewrite (Hwrap h (Hl h ltac:(left))). simpl. f_equal.
      apply IH. intros h' Hh'. apply Hl. now right. }
    rewrite Hhosts by auto. now apply (Set_of_array_NoDup_id out []). }
  intros Hundef. unfold getUniqueReferringDomains_of_strings,
    getUniqueReferringDomainsOf, hostname_or_null.
  rewrite Hundef. clear.
  induction out as [| h l IH]; [reflexivity | exact IH].
Qed.

End ReferringDomains.

(** C4 (as stated) fails: applied to its own result the function returns
    the empty array, not the result again.  On the two strings parsed
    here the sample parser answers as [new URL] does. *)
Lemma getUniqueReferringDomains_twice_differs :
  let backlinks :=
    [ {| sourceUrl := "https://a.example/x"; sourceTitle := "A";
         target := TargetDomain "t.example"; bl_snippet := "s" |} ] in
  getUniqueReferringDomains Sample.platform backlinks = ["a.example"] /\
  getUniqueReferringDomains_of_strings Sample.platform
    (getUniqueReferringDomains Sample.platform backlinks) = [] /\
  getUniqueReferringDomains_of_strings Sample.platform
    (getUniqueReferringDomains Sample.platform backlinks)
  <> getUniqueReferringDomains Sample.platform backlinks.
Proof.
  simpl. repeat split; try reflexivity. discriminate.
Qed.

(** ** The competitor analysis *)

Section CompetitorAnalysis.

Context {W : Type} (P : Platform W).

Lemma searchGoogle_loop_total q N :
  search_never_fails P ->
  forall remaining i allResults s,
    exists results s',
      searchGoogle_loop P q N remaining i allResults s = (Ok results, s').
Proof.
  intros Hok. induction remaining as [| remaining IH]; intros i allResults s.
  - simpl. unfold ret. eauto.
  - simpl. unfold bind, await_cse_list.
    match goal with |- context [cse_list P ?r (world s)] =>
      destruct (Hok r (world s)) as [items Hitems];
      destruct (cse_list P r (world s)) as [o w'] end.
    simpl in Hitems. subst o.
    destruct items as [[| item items'] |]; unfold ret; eauto.
Qed.

Lemma searchGoogle_total q N s :
  search_never_fails P ->
  exists results s', searchGoogle P q N s = (Ok results, s').
Proof.
  intros Hok. unfold searchGoogle. rewrite try_rethrow. unfold bind.
  destruct (searchGoogle_loop_total q N Hok (Z.to_nat (ceil_div10 N)) 0 [] s)
    as (results & s' & Hrun).
  rewrite Hrun. unfold ret. eauto.
Qed.

Lemma findBacklinksForUrl_total u N s :
  search_never_fails P ->
  exists backlinks s', findBacklinksForUrl P u N s = (Ok backlinks, s').
Proof.
  intros Hok. unfold findBacklinksForUrl. rewrite try_rethrow. unfold bind.
  destruct (searchGoogle_total (JsString.dquote +:+ u +:+ JsString.dquote) N s Hok)
    as (results & s' & Hrun).
  rewrite Hrun. unfold ret. eauto.
Qed.

(** An error of the underlying search leaves [findBacklinksForUrl] as it
    entered it. *)
Lemma findBacklinksForUrl_throw u N s e s' :
  searchGoogle P (JsString.dquote +:+ u +:+ JsString.dquote) N s = (Throw e, s') ->
  findBacklinksForUrl P u N s = (Throw e, s').
Proof.
  intros Hrun. unfold findBacklinksForUrl. rewrite try_rethrow.
  unfold bind. now rewrite Hrun.
Qed.

(** The loop appends one record a page, in the order of the pages. *)
Lemma analyze_loop_shape maxB :
  forall pages acc s out s',
    analyze_loop P pages maxB acc s = (Ok out, s') ->
    map ba_position out = map ba_position acc ++ map position pages /\
    map ba_url out = map ba_url acc ++ map url pages.
Proof.
  induction pages as [| page pages IH]; intros acc s out s' Hrun.
  - simpl in Hrun. inversion Hrun; subst. simpl. now rewrite !app_nil_r.
  - simpl in Hrun. unfold bind in Hrun.
    destruct (findBacklinksForUrl P (url page) maxB s) as [[bls | e] s1];
      [| discriminate].
    apply IH in Hrun. destruct Hrun as [Hpos Hurl].
    rewrite Hpos, Hurl, !map_app. simpl. now rewrite <- !app_assoc.
Qed.

Lemma analyze_loop_total maxB :
  search_never_fails P ->
  forall pages acc s, exists out s', analyze_loop P pages maxB acc s = (Ok out, s').
Proof.
  intros Hok. induction pages as [| page pages IH]; intros acc s.
  - simpl. unfold ret. eauto.
  - simpl. unfold bind.
    destruct (findBacklinksForUrl_total (url page) maxB s Hok) as (bls & s1 & Hrun).
    rewrite Hrun. apply IH.
Qed.

(** The pages before a failing one are analysed, the failing one ends the
    loop. *)
Lemma analyze_loop_app maxB :
  forall pre rest acc s,
    analyze_loop P (pre ++ rest) maxB acc s =
    bind (analyze_loop P pre maxB acc)
         (fun acc' => analyze_loop P rest maxB acc') s.
Proof.
  induction pre as [| page pre IH]; intros rest acc s.
  - reflexivity.
  - simpl. unfold bind.
    destruct (findBacklinksForUrl P (url page) maxB s) as [[bls | e] s1];
      [| reflexivity].
    rewrite IH. reflexivity.
Qed.

(** One page of three results is the whole search for three results. *)
Lemma searchGoogle_three K s i1 i2 i3 w1 :
  cse_list P {| req_q := K; req_start := 1; req_num := 3 |} (world s)
    = (Ok (Some [i1; i2; i3]), w1) ->
  searchGoogle P K 3 s =
    (Ok [format_item i1; format_item i2; format_item i3],
     mkSys w1 (log s ++ [EvSearch {| req_q := K; req_start := 1; req_num := 3 |}
                                  (Ok (Some [i1; i2; i3]))])).
Proof.
  intros Hpage. unfold searchGoogle. rewrite try_rethrow.
  change (Z.to_nat (ceil_div10 3)) with 1%nat.
  cbn [searchGoogle_loop]. unfold bind, await_cse_list.
  change (0 * 10 + 1) with 1.
  change (Z.min 10 (3 - Z.of_nat (@length CseItem []))) with 3.
  rewrite Hpage. reflexivity.
Qed.

(** The positions of a SERP count from one. *)
Lemma serp_positions (results : list SearchResult) :
  map position (imap serp_entry results) =
  map (fun k => Z.of_nat k + 1) (seq 0 (length results)).
Proof.
  assert (Hgen : forall base,
             map position (imap (fun i => serp_entry (base + i)) results) =
             map (fun k => Z.of_nat k + 1) (seq base (length results))).
  { induction results as [| r results IH]; intros base; [reflexivity |].
    rewrite imap_cons. simpl. f_equal.
    - f_equal. lia.
    - rewrite <- (IH (S base)). f_equal. apply imap_ext.
      intros i x _. simpl. f_equal. lia. }
  exact (Hgen 0%nat).
Qed.

Lemma serp_urls (results : list SearchResult) :
  map url (imap serp_entry results) = map link results.
Proof.
  assert (Hgen : forall base,
             map url (imap (fun i => serp_entry (base + i)) results) =
             map link results).
  { induction results as [| r results IH]; intros base; [reflexivity |].
    rewrite imap_cons. simpl. f_equal.
    rewrite <- (IH (S base)). f_equal. apply imap_ext.
    intros i x _. simpl. f_equal. lia. }
  exact (Hgen 0%nat).
Qed.

(** Whatever the number of results asked for, the analysis that returns
    has one record a top page, with the position and the URL of that
    page, and the positions count from one. *)
Lemma analyzeTopRankingBacklinks_rank_order K N maxB s analysis s' :
  analyzeTopRankingBacklinks P K N maxB s = (Ok analysis, s') ->
  map ba_position (backlinksAnalysis analysis) = map position (topPages analysis) /\
  map ba_url (backlinksAnalysis analysis) = map url (topPages analysis) /\
  map position (topPages analysis) =
    map (fun k => Z.of_nat k + 1) (seq 0 (length (topPages analysis))).
Proof.
  intros Hrun. unfold analyzeTopRankingBacklinks in Hrun.
  rewrite try_rethrow in Hrun. unfold bind at 1 in Hrun.
  destruct (analyzeSERP P K N s) as [[pages | e] s1] eqn:Hserp; [| discriminate].
  unfold bind in Hrun.
  destruct (analyze_loop P pages maxB [] s1) as [[out | e] s2] eqn:Hloop;
    [| discriminate].
  unfold ret in Hrun. inversion Hrun; subst. simpl.
  apply analyze_loop_shape in Hloop. destruct Hloop as [Hpos Hurl].
  split; [exact Hpos |]. split; [exact Hurl |].
  unfold analyzeSERP in Hserp. rewrite try_rethrow in Hserp. unfold bind in Hserp.
  destruct (searchGoogle P K N s) as [[results | e] s0]; [| discriminate].
  unfold ret in Hserp. inversion Hserp; subst.
  rewrite length_imap. apply serp_positions.
Qed.

Lemma analyzeTopRankingBacklinks_total K N maxB s :
  search_never_fails P ->
  exists analysis s', analyzeTopRankingBacklinks P K N maxB s = (Ok analysis, s').
Proof.
  intros Hok. unfold analyzeTopRankingBacklinks. rewrite try_rethrow.
  unfold bind at 1. unfold analyzeSERP. rewrite try_rethrow. unfold bind at 1.
  destruct (searchGoogle_total K N s Hok) as (results & s0 & Hsearch).
  rewrite Hsearch. unfold ret at 1. cbv beta iota. unfold bind.
  destruct (analyze_loop_total maxB Hok (imap serp_entry results) [] s0)
    as (out & s1 & Hloop).
  rewrite Hloop. unfold ret. eauto.
Qed.

(** C5.  When the search for the keyword delivers three results, the
    analysis for [numResults = 3] that returns has the positions 1, 2, 3 in
    that order, each record with the URL of the search result of that
    rank; and it does return when no call of the search API fails. *)
Theorem analyzeTopRankingBacklinks_three (K : string) (maxB : Z) (s : Sys W)
        (i1 i2 i3 : CseItem) (w1 : W) :
  cse_list P {| req_q := K; req_start := 1; req_num := 3 |} (world s)
    = (Ok (Some [i1; i2; i3]), w1) ->
  (forall analysis s',
     analyzeTopRankingBacklinks P K 3 maxB s = (Ok analysis, s') ->
     map ba_position (backlinksAnalysis analysis) = [1; 2; 3] /\
     map ba_url (backlinksAnalysis analysis)
       = [item_link i1; item_link i2; item_link i3] /\
     map position (topPages analysis) = [1; 2; 3] /\
     map url (topPages analysis) = [item_link i1; item_link i2; item_link i3]) /\
  (search_never_fails P ->
   exists analysis s', analyzeTopRankingBacklinks P K 3 maxB s = (Ok analysis, s')).
Proof.
  intros Hpage. split; [| apply analyzeTopRankingBacklinks_total].
  intros analysis s' Hrun.
  destruct (analyzeTopRankingBacklinks_rank_order _ _ _ _ _ _ Hrun)
    as (Hpos & Hurl & _).
  rewrite Hpos, Hurl.
  unfold analyzeTopRankingBacklinks in Hrun. rewrite try_rethrow in Hrun.
  unfold bind at 1 in Hrun. unfold analyzeSERP in Hrun.
  rewrite try_rethrow in Hrun. unfold bind at 1 in Hrun.
  rewrite (searchGoogle_three K s i1 i2 i3 w1 Hpage) in Hrun.
  unfold ret at 1 in Hrun. cbv beta iota in Hrun. unfold bind in Hrun.
  match type of Hrun with context [analyze_loop P ?pages maxB [] ?s0] =>
    destruct (analyze_loop P pages maxB [] s0) as [[out | e] s2]; [| discriminate]
  end.
  unfold ret in Hrun. inversion Hrun; subst. simpl. auto.
Qed.

(** C7.  When the backlink search for one of the ranked pages throws,
    the pages before it having been analysed, the analysis throws that
    same error and stops where the search failed: the pages after it are
    not looked at. *)
Theorem analyzeTopRankingBacklinks_aborts (K : string) (N maxB : Z)
        (s s1 s2 s3 : Sys W) (pre post : list SerpEntry) (page : SerpEntry)
        (acc : list BacklinkAnalysis) (e : JsError) :
  analyzeSERP P K N s = (Ok (pre ++ page :: post), s1) ->
  analyze_loop P pre maxB [] s1 = (Ok acc, s2) ->
  findBacklinksForUrl P (url page) maxB s2 = (Throw e, s3) ->
  analyzeTopRankingBacklinks P K N maxB s = (Throw e, s3).
Proof.
  intros Hserp Hpre Hfail. unfold analyzeTopRankingBacklinks.
  rewrite try_rethrow. unfold bind at 1. rewrite Hserp.
  unfold bind at 1. rewrite analyze_loop_app. unfold bind at 1.
  rewrite Hpre. simpl. unfold bind at 1. rewrite Hfail. reflexivity.
Qed.

End CompetitorAnalysis.

(** The sample search for the keyword finds three results, and with quota
    enough every backlink search is answered. *)
Lemma analyzeTopRankingBacklinks_three_witness :
  forall_ok (analyzeTopRankingBacklinks Sample.platform "k" 3 5 (Sample.start 10))
    (fun analysis =>
       map ba_position (backlinksAnalysis analysis) = [1; 2; 3] /\
       map ba_url (backlinksAnalysis analysis) =
         ["https://site1.example/"; "https://site2.example/"; "https://site3.example/"]).
Proof.
  destruct (analyzeTopRankingBacklinks_three Sample.platform "k" 5 (Sample.start 10)
              (Sample.nth_item 1) (Sample.nth_item 2) (Sample.nth_item 3) 9%nat
              eq_refl) as [Hshape _].
  unfold forall_ok.
  destruct (analyzeTopRankingBacklinks Sample.platform "k" 3 5 (Sample.start 10))
    as [[analysis | e] s'] eqn:Hrun.
  - destruct (Hshape analysis s' eq_refl) as (Hpos & Hurl & _).
    split; [exact Hpos | exact Hurl].
  - vm_compute in Hrun. discriminate.
Defined.

(** With a quota of two calls the sample search for the backlinks of the
    second page fails, and so does the analysis. *)
Lemma analyzeTopRankingBacklinks_aborts_witness :
  fst (analyzeTopRankingBacklinks Sample.platform "k" 3 5 (Sample.start 2))
  = Throw {| message := "Quota exceeded"; response_status := Some 429 |}.
Proof.
  set (p1 := serp_entry 0 (format_item (Sample.nth_item 1))).
  set (p2 := serp_entry 1 (format_item (Sample.nth_item 2))).
  set (p3 := serp_entry 2 (format_item (Sample.nth_item 3))).
  set (s1 := snd (analyzeSERP Sample.platform "k" 3 (Sample.start 2))).
  set (r2 := analyze_loop Sample.platform [p1] 5 [] s1).
  set (acc := match fst r2 with Ok acc => acc | Throw _ => [] end).
  set (r3 := findBacklinksForUrl Sample.platform (url p2) 5 (snd r2)).
  rewrite (analyzeTopRankingBacklinks_aborts Sample.platform "k" 3 5
             (Sample.start 2) s1 (snd r2) (snd r3) [p1] [p3] p2 acc
             {| message := "Quota exceeded"; response_status := Some 429 |}).
  - reflexivity.
  - vm_compute. reflexivity.
  - vm_compute. reflexivity.
  - vm_compute. reflexivity.
Defined.

(** ** The backlink verifier *)

Section Verifier.

Context {W : Type} (P : Platform W).

(** One backlink: one fetch, and a record whatever comes of it. *)
Lemma verify_one_outcome td b s :
  exists o w',
    axios_get P (sourceUrl b) (world s) = (o, w') /\
    verify_one P td b s =
      (Ok (record_of_outcome P td b o),
       mkSys w' (log s ++ [EvGet (sourceUrl b) o])).
Proof.
  destruct (axios_get P (sourceUrl b) (world s)) as [o w'] eqn:Hget.
  exists o, w'. split; [reflexivity |].
  unfold verify_one, try_catch, bind, await_axios_get. rewrite Hget.
  destruct o as [response | e]; simpl.
  - destruct (0 <? length _)%nat eqn:Hlen; unfold ret; simpl; rewrite ?Hlen.
    + reflexivity.
    + apply Nat.ltb_ge in Hlen.
      destruct (map found_link _) as [| l ls] eqn:Hfound; [reflexivity |].
      simpl in Hlen. lia.
  - reflexivity.
Qed.

(** A batch: the records of its backlinks in their order, one fetch
    each. *)
Lemma verify_batch td : forall batch s,
  exists outcomes s',
    Promise_all (map (verify_one P td) batch) s =
      (Ok (zip_with (record_of_outcome P td) batch outcomes), s') /\
    length outcomes = length batch /\
    log s' = log s ++ get_events batch outcomes.
Proof.
  induction batch as [| b batch IH]; intros s.
  - exists [], s. simpl. unfold ret, get_events. simpl. now rewrite app_nil_r.
  - destruct (verify_one_outcome td b s) as (o & w' & _ & Hone).
    destruct (IH (mkSys w' (log s ++ [EvGet (sourceUrl b) o])))
      as (outcomes & s' & Hrest & Hlen & Hlog).
    exists (o :: outcomes), s'. simpl. unfold bind. rewrite Hone.
    fold (@bind W (list VerifiedBacklink)). unfold bind. rewrite Hrest.
    unfold ret. split; [reflexivity |]. split; [now rewrite Hlen |].
    rewrite Hlog. simpl. unfold get_events. simpl. now rewrite <- app_assoc.
Qed.

Lemma slice_drop (backlinks : list Backlink) i mc :
  drop i backlinks = slice backlinks i (i + mc) ++ drop (i + mc) backlinks.
Proof.
  unfold slice. replace (i + mc - i)%nat with mc by lia.
  rewrite <- (take_drop mc (drop i backlinks)) at 1.
  now rewrite drop_drop.
Qed.

(** The loop from index [i] on: with batches of at least one backlink
    and fuel for one iteration a backlink, it gets through the rest of the
    input. *)
Lemma verifyBacklinks_loop_run backlinks td mc :
  (1 <= mc)%nat ->
  forall fuel i acc s,
    (length backlinks - i <= fuel)%nat ->
    exists outcomes s',
      verifyBacklinks_loop P fuel backlinks td mc i acc s =
        (Ok (Some (acc ++ zip_with (record_of_outcome P td)
                                   (drop i backlinks) outcomes)), s') /\
      length outcomes = length (drop i backlinks) /\
      log s' = log s ++ get_events (drop i backlinks) outcomes.
Proof.
  intros Hmc. induction fuel as [| fuel IH]; intros i acc s Hfuel.
  - exists [], s. simpl.
    assert (Hi : (i <? length backlinks)%nat = false) by (apply Nat.ltb_ge; lia).
    rewrite Hi. rewrite drop_ge by lia. unfold ret, get_events. simpl.
    now rewrite !app_nil_r.
  - simpl. destruct (i <? length backlinks)%nat eqn:Hi.
    + apply Nat.ltb_lt in Hi.
      destruct (verify_batch td (slice backlinks i (i + mc)) s)
        as (o1 & s1 & Hbatch & Hlen1 & Hlog1).
      destruct (IH (i + mc)%nat
                   (acc ++ zip_with (record_of_outcome P td)
                                    (slice backlinks i (i + mc)) o1) s1)
        as (o2 & s2 & Hrest & Hlen2 & Hlog2); [lia |].
      exists (o1 ++ o2), s2. unfold bind. rewrite Hbatch, Hrest.
      rewrite (slice_drop backlinks i mc).
      split.
      { rewrite <- app_assoc. do 3 f_equal.
        rewrite zip_with_app by (now rewrite Hlen1). reflexivity. }
      split.
      { rewrite !length_app. lia. }
      rewrite Hlog2, Hlog1. unfold get_events.
      rewrite map_app, zip_with_app by (now rewrite length_map, Hlen1).
      now rewrite <- app_assoc.
    + apply Nat.ltb_ge in Hi. exists [], s.
      rewrite drop_ge by lia. unfold ret, get_events. simpl.
      now rewrite !app_nil_r.
Qed.

(** The whole run: one record a backlink, made from the outcome of the
    one fetch of its source page, in the order of the input. *)
Lemma verifyBacklinks_run backlinks targetUrl mc fuel s :
  (1 <= mc)%nat ->
  (length backlinks <= fuel)%nat ->
  exists outcomes s',
    verifyBacklinks P fuel backlinks targetUrl mc s =
      (Ok (Some (zip_with (record_of_outcome P (bare_hostname targetUrl))
                          backlinks outcomes)), s') /\
    length outcomes = length backlinks /\
    log s' = log s ++ get_events backlinks outcomes.
Proof.
  intros Hmc Hfuel. unfold verifyBacklinks.
  destruct (verifyBacklinks_loop_run backlinks (bare_hostname targetUrl) mc Hmc
              fuel 0%nat [] s ltac:(lia))
    as (outcomes & s' & Hrun & Hlen & Hlog).
  rewrite drop_0 in *. simpl in Hrun. eauto.
Qed.

(** A [maxConcurrent] of zero never gets past the first backlink. *)
Lemma verifyBacklinks_zero_concurrency backlinks targetUrl s :
  backlinks <> [] ->
  forall fuel, verifyBacklinks P fuel backlinks targetUrl 0 s = (Ok None, s).
Proof.
  intros Hne fuel. unfold verifyBacklinks.
  generalize (@nil VerifiedBacklink) as acc.
  induction fuel as [| fuel IH]; intros acc.
  - simpl. destruct backlinks; [contradiction | reflexivity].
  - simpl. destruct backlinks as [| b bs] eqn:Hbs; [contradiction |].
    change (0 <? length (b :: bs))%nat with true. cbv iota.
    unfold slice. simpl. unfold bind, ret. simpl. apply IH.
Qed.

(** The record of the backlink at index [k], from the [k]-th fetch that
    the run has logged. *)
Lemma verifyBacklinks_at backlinks targetUrl mc fuel s out s' k b o :
  (1 <= mc)%nat ->
  (length backlinks <= fuel)%nat ->
  verifyBacklinks P fuel backlinks targetUrl mc s = (Ok (Some out), s') ->
  backlinks !! k = Some b ->
  drop (length (log s)) (log s') !! k = Some (EvGet (sourceUrl b) o) ->
  out !! k = Some (record_of_outcome P (bare_hostname targetUrl) b o).
Proof.
  intros Hmc Hfuel Hrun Hb Hev.
  destruct (verifyBacklinks_run backlinks targetUrl mc fuel s Hmc Hfuel)
    as (outcomes & s1 & Hrun1 & Hlen & Hlog).
  rewrite Hrun1 in Hrun. inversion Hrun; subst out s1. clear Hrun.
  rewrite Hlog, drop_app_length in Hev. unfold get_events in Hev.
  apply lookup_zip_with_Some in Hev.
  destruct Hev as (u & o' & Heq & _ & Ho'). inversion Heq; subst o'.
  apply lookup_zip_with_Some. eauto.
Qed.

(** C1.  With batches of at least one backlink (five by default) the
    verifier returns, for every list of backlinks, every target and every
    behaviour of the fetched sites, one record a backlink, each the record
    of the backlink at the same place of the input, after one fetch a
    backlink; for the empty list it returns the empty list and leaves the
    world and the log as they were. *)
Theorem verifyBacklinks_preserves_input (backlinks : list Backlink)
        (targetUrl : string) (mc fuel : nat) (s : Sys W) :
  (1 <= mc)%nat ->
  (length backlinks <= fuel)%nat ->
  exists out outcomes s',
    verifyBacklinks P fuel backlinks targetUrl mc s = (Ok (Some out), s') /\
    length out = length backlinks /\
    map vb_backlink out = backlinks /\
    length outcomes = length backlinks /\
    log s' = log s ++ get_events backlinks outcomes /\
    (backlinks = [] -> out = [] /\ s' = s).
Proof.
  intros Hmc Hfuel.
  destruct (verifyBacklinks_run backlinks targetUrl mc fuel s Hmc Hfuel)
    as (outcomes & s' & Hrun & Hlen & Hlog).
  exists (zip_with (record_of_outcome P (bare_hostname targetUrl)) backlinks outcomes),
         outcomes, s'.
  split; [exact Hrun |].
  split. { rewrite length_zip_with. lia. }
  split.
  { clear Hrun Hlog Hfuel. revert outcomes Hlen.
    induction backlinks as [| b bs IH]; intros [| o os] Hlen;
      try discriminate; [reflexivity |].
    simpl. f_equal.
    - now destruct o.
    - apply IH. simpl in Hlen. lia. }
  split; [exact Hlen |]. split; [exact Hlog |].
  intros ->. split; [reflexivity |].
  destruct fuel; simpl in Hrun; inversion Hrun; reflexivity.
Qed.

(** C3 (as the code has it).  The backlink whose fetch throws gets a
    record at its own place in the output, with [verified] false, the
    status the error carries or zero, and the message of the error; the
    record has no [links] at all where the claim has an empty list. *)
Theorem verifyBacklinks_fetch_error (backlinks : list Backlink)
        (targetUrl : string) (mc fuel : nat) (s s' : Sys W)
        (out : list VerifiedBacklink) (k : nat) (b : Backlink) (e : JsError) :
  (1 <= mc)%nat ->
  (length backlinks <= fuel)%nat ->
  verifyBacklinks P fuel backlinks targetUrl mc s = (Ok (Some out), s') ->
  backlinks !! k = Some b ->
  drop (length (log s)) (log s') !! k = Some (EvGet (sourceUrl b) (Throw e)) ->
  out !! k = Some {| vb_backlink := b;
                     verified := false;
                     links := None;
                     statusCode := status_or_zero e;
                     error := Some (message e) |}.
Proof.
  intros Hmc Hfuel Hrun Hb Hev.
  exact (verifyBacklinks_at _ _ _ _ _ _ _ _ _ _ Hmc Hfuel Hrun Hb Hev).
Qed.

(** C6.  Verifying the target [target.example]: a source page that was
    fetched and whose only anchor is
    [<a href="https://target.example/foo" rel="nofollow">Click</a>] gets a
    record with [verified] true and exactly one link, which has
    [isNofollow] true. *)
Theorem verifyBacklinks_nofollow_anchor (backlinks : list Backlink)
        (mc fuel : nat) (s s' : Sys W) (out : list VerifiedBacklink)
        (k : nat) (b : Backlink) (response : HttpResponse) :
  (1 <= mc)%nat ->
  (length backlinks <= fuel)%nat ->
  verifyBacklinks P fuel backlinks "target.example" mc s = (Ok (Some out), s') ->
  backlinks !! k = Some b ->
  drop (length (log s)) (log s') !! k = Some (EvGet (sourceUrl b) (Ok response)) ->
  Cheerio.select (cheerio_load P (resp_data response)) "a" =
    [ Element "a" [("href", "https://target.example/foo"); ("rel", "nofollow")]
              [Text "Click"] ] ->
  out !! k = Some {| vb_backlink := b;
                     verified := true;
                     links := Some [ {| href := Some "https://target.example/foo";
                                        anchorText := "Click";
                                        isNofollow := true |} ];
                     statusCode := resp_status response;
                     error := None |}.
Proof.
  intros Hmc Hfuel Hrun Hb Hev Hdoc.
  rewrite (verifyBacklinks_at _ _ _ _ _ _ _ _ _ _ Hmc Hfuel Hrun Hb Hev).
  unfold record_of_outcome, Cheerio.select_attr_contains.
  change (bare_hostname "target.example") with "target.example".
  rewrite Hdoc. reflexivity.
Qed.

End Verifier.

(** Two sample backlinks, the second of a page that is gone. *)
Lemma verifyBacklinks_preserves_input_witness :
  exists out outcomes s',
    SampleBacklinks.run = (Ok (Some out), s') /\
    length out = 2%nat /\
    map vb_backlink out = [SampleBacklinks.found; SampleBacklinks.gone] /\
    length outcomes = 2%nat /\
    log s' = log (Sample.start 0) ++
             get_events [SampleBacklinks.found; SampleBacklinks.gone] outcomes /\
    ([SampleBacklinks.found; SampleBacklinks.gone] = [] -> out = [] /\ s' = Sample.start 0).
Proof.
  apply (verifyBacklinks_preserves_input Sample.platform
           [SampleBacklinks.found; SampleBacklinks.gone] "target.example"
           default_maxConcurrent 2 (Sample.start 0)).
  - unfold default_maxConcurrent. lia.
  - simpl. lia.
Defined.

Lemma verifyBacklinks_fetch_error_witness :
  SampleBacklinks.records !! 1%nat =
    Some {| vb_backlink := SampleBacklinks.gone;
            verified := false;
            links := None;
            statusCode := 404;
            error := Some "Request failed with status code 404" |}.
Proof.
  apply (verifyBacklinks_fetch_error Sample.platform
           [SampleBacklinks.found; SampleBacklinks.gone] "target.example"
           default_maxConcurrent 2 (Sample.start 0) (snd SampleBacklinks.run)
           SampleBacklinks.records 1 SampleBacklinks.gone SampleBacklinks.not_found).
  - unfold default_maxConcurrent. lia.
  - simpl. lia.
  - vm_compute. reflexivity.
  - reflexivity.
  - vm_compute. reflexivity.
Defined.

Lemma verifyBacklinks_nofollow_anchor_witness :
  SampleBacklinks.records !! 0%nat =
    Some {| vb_backlink := SampleBacklinks.found;
            verified := true;
            links := Some [ {| href := Some "https://target.example/foo";
                               anchorText := "Click";
                               isNofollow := true |} ];
            statusCode := 200;
            error := None |}.
Proof.
  apply (verifyBacklinks_nofollow_anchor Sample.platform
           [SampleBacklinks.found; SampleBacklinks.gone]
           default_maxConcurrent 2 (Sample.start 0) (snd SampleBacklinks.run)
           SampleBacklinks.records 0 SampleBacklinks.found
           {| resp_status := 200; resp_data := Sample.page_html |}).
  - unfold default_maxConcurrent. lia.
  - simpl. lia.
  - vm_compute. reflexivity.
  - reflexivity.
  - vm_compute. reflexivity.
  - vm_compute. reflexivity.
Defined.

(** ** The URL categoriser *)

Section Categoriser.

Context {W : Type} (P : Platform W).

Lemma categorizeUrl_category u :
  category (categorizeUrl P u) = "social_media" \/
  category (categorizeUrl P u) = "content_platform" \/
  category (categorizeUrl P u) = "other" \/
  category (categorizeUrl P u) = "error".
Proof.
  unfold categorizeUrl. destruct (URLParser P u) as [parsed | e]; [| auto].
  destruct (existsb _ SOCIAL_MEDIA_DOMAINS); [auto |].
  destruct (existsb _ CONTENT_PLATFORMS); auto.
Qed.

Lemma in_category_cons_eq c r results :
  category (categorizeUrl P (kr_link r)) = c ->
  in_category P c (r :: results) = enhance P r :: in_category P c results.
Proof.
  intros Hc. unfold in_category. simpl. rewrite filter_cons_True; auto.
Qed.

Lemma in_category_cons_ne c r results :
  category (categorizeUrl P (kr_link r)) <> c ->
  in_category P c (r :: results) = in_category P c results.
Proof.
  intros Hc. unfold in_category. simpl. rewrite filter_cons_False; auto.
Qed.

(** The four cases of a result. *)
Ltac by_category r H :=
  destruct (categorizeUrl_category (kr_link r)) as [H | [H | [H | H]]].

(** The case of a result that belongs to category [c]. *)
Ltac in_its_category c H :=
  rewrite (in_category_cons_eq c) by exact H;
  rewrite !in_category_cons_ne by (rewrite H; discriminate).

Lemma push_social a b c d x :
  push_to (categories_of a b c d) "social_media" x = Ok (categories_of (a ++ [x]) b c d).
Proof. reflexivity. Qed.

Lemma push_content a b c d x :
  push_to (categories_of a b c d) "content_platform" x
  = Ok (categories_of a (b ++ [x]) c d).
Proof. reflexivity. Qed.

Lemma push_other a b c d x :
  push_to (categories_of a b c d) "other" x = Ok (categories_of a b (c ++ [x]) d).
Proof. reflexivity. Qed.

Lemma push_error a b c d x :
  push_to (categories_of a b c d) "error" x = Ok (categories_of a b c (d ++ [x])).
Proof. reflexivity. Qed.

(** Each result goes to the end of the array of its category. *)
Lemma categorize_fold results : forall a b c d,
  fold_left (categorize_step P) results (Ok (categories_of a b c d)) =
  Ok (categories_of (a ++ in_category P "social_media" results)
                    (b ++ in_category P "content_platform" results)
                    (c ++ in_category P "other" results)
                    (d ++ in_category P "error" results)).
Proof.
  induction results as [| r results IH]; intros a b c d.
  - simpl. unfold in_category. simpl. now rewrite !app_nil_r.
  - cbn [fold_left]. unfold categorize_step at 2. cbn [enhance categorization].
    by_category r Hc; rewrite Hc.
    + rewrite push_social, IH. in_its_category "social_media" Hc.
      now rewrite <- app_assoc.
    + rewrite push_content, IH. in_its_category "content_platform" Hc.
      now rewrite <- app_assoc.
    + rewrite push_other, IH. in_its_category "other" Hc.
      now rewrite <- app_assoc.
    + rewrite push_error, IH. in_its_category "error" Hc.
      now rewrite <- app_assoc.
Qed.

Lemma in_category_lengths results :
  (length (in_category P "social_media" results) +
   length (in_category P "content_platform" results) +
   length (in_category P "other" results) +
   length (in_category P "error" results) = length results)%nat.
Proof.
  induction results as [| r results IH]; [reflexivity |].
  by_category r Hc.
  - in_its_category "social_media" Hc. simpl. lia.
  - in_its_category "content_platform" Hc. simpl. lia.
  - in_its_category "other" Hc. simpl. lia.
  - in_its_category "error" Hc. simpl. lia.
Qed.

(** C9.  [categorizeSearchResults] returns, for every list of search
    results, the object of the four arrays [social_media],
    [content_platform], [other] and [error]; each array holds the results
    of its category in the order of the input, every result has one of
    the four categories (so it is in exactly one array), and the lengths
    of the four arrays add up to the length of the input. *)
Theorem categorizeSearchResults_partition (results : list KeywordResult) :
  categorizeSearchResults P results =
    Ok (categories_of (in_category P "social_media" results)
                      (in_category P "content_platform" results)
                      (in_category P "other" results)
                      (in_category P "error" results)) /\
  (forall r, r ∈ results ->
     category (categorizeUrl P (kr_link r)) ∈
       ["social_media"; "content_platform"; "other"; "error"]) /\
  (length (in_category P "social_media" results) +
   length (in_category P "content_platform" results) +
   length (in_category P "other" results) +
   length (in_category P "error" results) = length results)%nat.
Proof.
  split.
  { unfold categorizeSearchResults.
    change empty_categories with (categories_of [] [] [] []).
    now rewrite categorize_fold. }
  split; [| apply in_category_lengths].
  intros r _. rewrite !elem_of_cons. by_category r Hc; auto.
Qed.

End Categoriser.

(** ** The submission analyser *)

Section SubmissionAnalyser.

Context {W : Type} (P : Platform W).

Lemma check_pattern_confidence baseUrl href linkText result pattern :
  confidence result <= confidence (check_pattern baseUrl href linkText result pattern).
Proof.
  unfold check_pattern.
  destruct (_ || _); [| lia].
  destruct (negb _); simpl; lia.
Qed.

Lemma check_keyword_confidence text n result keyword :
  0 <= n ->
  confidence result <= confidence (check_keyword text n result keyword).
Proof.
  intros Hn. unfold check_keyword.
  destruct (JsString.includes text keyword); [| lia].
  destruct (negb _); simpl; lia.
Qed.

(** A loop whose body never lowers the confidence does not lower it. *)
Lemma fold_left_confidence {A : Type} (f : SiteAnalysis -> A -> SiteAnalysis)
      (l : list A) :
  (forall r x, confidence r <= confidence (f r x)) ->
  forall r, confidence r <= confidence (fold_left f l r).
Proof.
  intros Hf. induction l as [| x l IH]; intros r; simpl; [lia |].
  specialize (IH (f r x)). specialize (Hf r x). lia.
Qed.

Lemma visit_anchor_confidence baseUrl result el :
  confidence result <= confidence (visit_anchor baseUrl result el).
Proof.
  unfold visit_anchor. destruct (Cheerio.attr "href" el) as [href |]; [| lia].
  destruct (String.eqb href EmptyString); [lia |].
  set (linkText := JsString.trim (JsString.toLowerCase (Cheerio.text el))).
  pose proof (fold_left_confidence (check_pattern baseUrl href linkText)
                SUBMISSION_URL_PATTERNS
                (fun r x => check_pattern_confidence baseUrl href linkText r x)
                result) as Hpatterns.
  pose proof (fold_left_confidence (check_keyword linkText 15)
                SUBMISSION_KEYWORDS
                (fun r x => check_keyword_confidence linkText 15 r x ltac:(lia))
                (fold_left (check_pattern baseUrl href linkText)
                           SUBMISSION_URL_PATTERNS result)) as Hkeywords.
  lia.
Qed.

Lemma cond_note_confidence (c : bool) result note n :
  0 <= n ->
  confidence result <= confidence (if c then add_note result note n else result).
Proof. intros Hn. destruct c; simpl; lia. Qed.

(** The record of a page that was fetched. *)
Lemma analyze_document_invariant u parsed doc :
  confidence_invariant (analyze_document u parsed doc).
Proof.
  unfold analyze_document.
  set (r0 := {| sa_url := u; sa_domain := hostname parsed;
                acceptsSubmissions := false; confidence := 0;
                submissionPageUrls := []; submissionKeywordsFound := [];
                notes := [] |}).
  set (r1 := fold_left _ (Cheerio.select doc "a") r0).
  set (pageText := JsString.toLowerCase _).
  set (r2 := fold_left (check_keyword pageText 10) SUBMISSION_KEYWORDS r1).
  set (r3 := if (_ && _)%bool then add_note r2 _ 5 else r2).
  set (r4 := if (_ || _)%bool then add_note r3 _ 10 else r3).
  assert (H1 : 0 <= confidence r1).
  { change 0 with (confidence r0). apply fold_left_confidence.
    intros r x. apply visit_anchor_confidence. }
  assert (H2 : confidence r1 <= confidence r2).
  { apply fold_left_confidence. intros r x. apply check_keyword_confidence. lia. }
  assert (H3 : confidence r2 <= confidence r3).
  { apply cond_note_confidence. lia. }
  assert (H4 : confidence r3 <= confidence r4).
  { apply cond_note_confidence. lia. }
  unfold confidence_invariant.
  assert (Hcap : 0 <= Z.min (confidence r4) 100 <= 100) by lia.
  destruct (acceptsSubmissions (decide_acceptance r4)) eqn:Hacc;
    unfold decide_acceptance in *; cbn [confidence acceptsSubmissions add_note] in *;
    rewrite Z.add_0_r; (split; [exact Hcap | reflexivity]).
Qed.

(** C10.  Whatever the site answers, [analyzeSiteForSubmission] returns a
    record with a confidence between 0 and 100 and with
    [acceptsSubmissions] true exactly when the confidence is at least 30:
    the record of the analysed page, or the record of the failed analysis.
    It throws only the error that url-parse throws on the URL. *)
Theorem analyzeSiteForSubmission_invariant (u : string) (s : Sys W) :
  match fst (analyzeSiteForSubmission P u s) with
  | Ok r => confidence_invariant r
  | Throw e => URLParser P u = Throw e
  end.
Proof.
  unfold analyzeSiteForSubmission, try_catch, bind, lift.
  destruct (URLParser P u) as [parsed | e0] eqn:Hparse.
  - unfold ret at 1. cbv beta iota. unfold await_axios_get.
    destruct (axios_get P u (world s)) as [[response | e] w'].
    + simpl. apply analyze_document_invariant.
    + simpl. unfold confidence_invariant. simpl. split; [lia | reflexivity].
  - simpl. reflexivity.
Qed.

End SubmissionAnalyser.

(** ** The CSV exporter *)

Section Exporter.

Context {W : Type} (P : Platform W).

(** Joining strings is concatenating them around the separator. *)
Lemma Array_join_strings (strings : list string) (sep : string) :
  Array_join (map JsString strings) sep = String.concat sep strings.
Proof.
  unfold Array_join.
  induction strings as [| x [| y strings] IH]; try reflexivity.
  change (String.concat sep (x :: y :: strings))
    with (x +:+ sep +:+ String.concat sep (y :: strings)).
  rewrite <- IH. reflexivity.
Qed.

(** Records have keys, so flattening them does not throw. *)
Lemma map_throwing_records (records : list CsvRecord) (s : Sys W) :
  map_throwing (process_item P) (map JsObject records) s
  = (Ok (map (flatten_record P) records), s).
Proof.
  induction records as [| r records IH]; [reflexivity |].
  simpl. unfold bind. rewrite IH. reflexivity.
Qed.

(** C8 (as the code has it).  [exportToCsv] throws when [data] is not an
    array, before it touches anything, and when [data] is the empty
    array.  Given a non-empty array of records, alike or not, and a file
    system that plays along, it hands the CSV writer the records with
    every array-valued field joined by the delimiter [||] and every
    object-valued field stringified, under the header of the first
    record, and returns the path of the file; an array of strings is
    written as the strings with [||] between them. *)
Theorem exportToCsv_contract (data : JsValue) (filename : string) (s : Sys W) :
  ((forall items, data <> JsArray items) ->
   exportToCsv P data filename s
   = (Throw (Error "Data must be an array for CSV export"), s)) /\
  (data = JsArray [] ->
   exists e s',
     exportToCsv P data filename s = (Throw e, s') /\
     (fst (fs_ensureDir P (csvDir P) (world s)) = Ok tt ->
      e = Error "Cannot export empty data to CSV")) /\
  (forall (records : list CsvRecord) (w1 w2 : W),
     records <> [] ->
     data = JsArray (map JsObject records) ->
     fs_ensureDir P (csvDir P) (world s) = (Ok tt, w1) ->
     csv_writeRecords P (csv_path P filename)
                      (csv_header (map (flatten_record P) records))
                      (map (flatten_record P) records) w1 = (Ok tt, w2) ->
     exportToCsv P data filename s
     = (Ok (csv_path P filename),
        mkSys w2 (log s ++
                  [ EvEnsureDir (csvDir P) (Ok tt);
                    EvWriteRecords (csv_path P filename)
                                   (csv_header (map (flatten_record P) records))
                                   (map (flatten_record P) records) (Ok tt) ]))) /\
  (forall elements,
     flatten_value P (JsArray elements) = JsString (Array_join elements "||")) /\
  (forall fields,
     flatten_value P (JsObject fields)
     = JsString (JSON_stringify P (JsObject fields))) /\
  (forall strings,
     Array_join (map JsString strings) "||" = String.concat "||" strings).
Proof.
  split.
  { intros Hnot. unfold exportToCsv. rewrite try_rethrow.
    destruct data; try reflexivity. exfalso. now apply (Hnot elements). }
  split.
  { intros ->. unfold exportToCsv. rewrite try_rethrow.
    unfold bind, await_ensureDir.
    destruct (fs_ensureDir P (csvDir P) (world s)) as [[[] | e] w1]; simpl.
    - eexists _, _. split; [reflexivity | reflexivity].
    - eexists _, _. split; [reflexivity | discriminate]. }
  split.
  { intros records w1 w2 Hne -> Hdir Hwrite. unfold exportToCsv.
    rewrite try_rethrow. unfold bind at 1. unfold await_ensureDir at 1.
    rewrite Hdir. cbv beta iota zeta.
    destruct records as [| r records]; [contradiction |].
    change (length (map JsObject (r :: records)) =? 0)%nat with false.
    cbv iota. unfold bind at 1. rewrite map_throwing_records.
    unfold bind, await_writeRecords. cbn [world log].
    fold (csv_path P filename). rewrite Hwrite. unfold ret.
    now rewrite <- app_assoc. }
  split; [reflexivity |]. split; [reflexivity |].
  intros strings. apply Array_join_strings.
Qed.

End Exporter.

(** C8 (as stated) fails: two records with different keys are not a
    homogeneous record sequence, and [exportToCsv] writes them, under the
    header of the first, and returns the path. *)
Lemma exportToCsv_heterogeneous_records :
  exportToCsv Sample.platform
    (JsArray [ JsObject [("a", JsString "1")]; JsObject [("b", JsString "2")] ])
    "mixed" (Sample.start 0)
  = (Ok "output/csv/mixed.csv",
     mkSys 0%nat
       [ EvEnsureDir "output/csv" (Ok tt);
         EvWriteRecords "output/csv/mixed.csv"
                        [ {| col_id := "a"; col_title := "a" |} ]
                        [ [("a", JsString "1")]; [("b", JsString "2")] ]
                        (Ok tt) ]).
Proof. reflexivity. Qed.

(** An array-valued field on its way to the file. *)
Example exportToCsv_joins_arrays :
  exportToCsv Sample.platform
    (JsArray [ JsObject [ ("url", JsString "https://site1.example/");
                          ("h1Tags", JsArray [JsString "One"; JsString "Two"; JsNumber 3]) ] ])
    "metadata.csv" (Sample.start 0)
  = (Ok "output/csv/metadata.csv",
     mkSys 0%nat
       [ EvEnsureDir "output/csv" (Ok tt);
         EvWriteRecords "output/csv/metadata.csv"
                        [ {| col_id := "url"; col_title := "url" |};
                          {| col_id := "h1Tags"; col_title := "h1Tags" |} ]
                        [ [ ("url", JsString "https://site1.example/");
                            ("h1Tags", JsString "One||Two||3") ] ]
                        (Ok tt) ]).
Proof. reflexivity. Qed.

(** * Properties of the rest of the sources *)

(** ** Strings *)

Section StringFacts.

Lemma list_ascii_of_string_app (a b : string) :
  list_ascii_of_string (a +:+ b) = list_ascii_of_string a ++ list_ascii_of_string b.
Proof. induction a as [| c a IH]; simpl; [reflexivity | now rewrite IH]. Qed.

Lemma JsString_rev_involutive (s : string) : JsString.rev (JsString.rev s) = s.
Proof.
  unfold JsString.rev. rewrite list_ascii_of_string_of_list_ascii, rev_involutive.
  apply string_of_list_ascii_of_string.
Qed.

Lemma JsString_rev_snoc (s : string) (c : ascii) :
  JsString.rev (s +:+ String c EmptyString) = String c (JsString.rev s).
Proof.
  unfold JsString.rev. rewrite list_ascii_of_string_app, rev_app_distr. reflexivity.
Qed.

Lemma stripPrefix_app (p s : string) : JsString.stripPrefix p (p +:+ s) = Some s.
Proof.
  induction p as [| c p IH]; simpl; [now destruct s |].
  now rewrite Ascii.eqb_refl.
Qed.

(** A slash at the end is taken off. *)
Lemma removeTrailingSlash_snoc (s : string) :
  JsString.removeTrailingSlash (s +:+ "/") = s.
Proof.
  unfold JsString.removeTrailingSlash.
  rewrite (JsString_rev_snoc s "/"%char). simpl.
  apply JsString_rev_involutive.
Qed.

End StringFacts.

(** ** The domain-wide backlink finder *)

Section DomainFinder.

Context {W : Type} (P : Platform W) (R : Runtime W).

(** A domain written with a scheme and a slash at its end is cleaned to
    the domain. *)
Lemma clean_domain_decorated (d : string) :
  clean_domain ("https://" +:+ d +:+ "/") = d /\
  clean_domain ("http://" +:+ d +:+ "/") = d.
Proof.
  split.
  - unfold clean_domain.
    rewrite (stripPrefix_app "https://" (d +:+ "/")).
    apply removeTrailingSlash_snoc.
  - unfold clean_domain. simpl. apply removeTrailingSlash_snoc.
Qed.

(** X1.  [findBacklinks] does not mind how a clean domain is written:
    with [https://] or [http://] before it and a slash after it, the
    search, its result and its failures are those for the domain
    itself. *)
Theorem findBacklinks_normalises (d : string) (N : Z) (s : Sys W) :
  clean_domain d = d ->
  findBacklinks P ("https://" +:+ d +:+ "/") N s = findBacklinks P d N s /\
  findBacklinks P ("http://" +:+ d +:+ "/") N s = findBacklinks P d N s.
Proof.
  intros Hclean. destruct (clean_domain_decorated d) as [Hs Hp].
  unfold findBacklinks. rewrite Hs, Hp, Hclean. split; reflexivity.
Qed.

(** What [findBacklinks] returns are the results of one search, in its
    order, and an error of the search is the error of [findBacklinks]. *)
Lemma findBacklinks_of_search (domain : string) (N : Z) (s : Sys W) :
  let query := JsString.dquote +:+ clean_domain domain +:+ JsString.dquote
               +:+ " -site:" +:+ clean_domain domain in
  match findBacklinks P domain N s with
  | (Ok found, s') =>
      exists results,
        searchGoogle P query N s = (Ok results, s') /\
        map sourceUrl found = map link results /\
        Forall (fun b => target b = TargetDomain (clean_domain domain)) found
  | (Throw e, s') => searchGoogle P query N s = (Throw e, s')
  end.
Proof.
  intros query. unfold findBacklinks. rewrite try_rethrow. unfold bind.
  fold query. destruct (searchGoogle P query N s) as [[results | e] s'];
    [| reflexivity].
  unfold ret. exists results. split; [reflexivity |].
  rewrite !map_map. simpl. repeat split; try reflexivity.
  induction results as [| r results IH]; constructor; [reflexivity | exact IH].
Qed.

(** X2.  Finding the backlinks of a domain and then verifying them, as
    [run] does: the verifier returns one record a search result, in rank
    order, each for the link of that result and each tagged with the
    cleaned domain, after one fetch a result. *)
Theorem findBacklinks_then_verify (domain : string) (N : Z) (mc : nat)
        (s s1 : Sys W) (found : list Backlink) :
  (1 <= mc)%nat ->
  findBacklinks P domain N s = (Ok found, s1) ->
  exists results out outcomes s2,
    searchGoogle P (JsString.dquote +:+ clean_domain domain +:+ JsString.dquote
                    +:+ " -site:" +:+ clean_domain domain) N s = (Ok results, s1) /\
    verifyBacklinks P (length found) found domain mc s1 = (Ok (Some out), s2) /\
    map (fun vb => sourceUrl (vb_backlink vb)) out = map link results /\
    Forall (fun vb => target (vb_backlink vb) = TargetDomain (clean_domain domain)) out /\
    length outcomes = length results /\
    log s2 = log s1 ++ get_events found outcomes.
Proof.
  intros Hmc Hfind.
  pose proof (findBacklinks_of_search domain N s) as Hsearch.
  cbv zeta in Hsearch. rewrite Hfind in Hsearch.
  destruct Hsearch as (results & Hsearch & Hurls & Htargets).
  destruct (verifyBacklinks_run P found domain mc (length found) s1 Hmc (le_n _))
    as (outcomes & s2 & Hrun & Hlen & Hlog).
  exists results, (zip_with (record_of_outcome P (bare_hostname domain)) found outcomes),
         outcomes, s2.
  split; [exact Hsearch |]. split; [exact Hrun |].
  assert (Hback : map vb_backlink
                    (zip_with (record_of_outcome P (bare_hostname domain)) found outcomes)
                  = found).
  { clear - Hlen. revert outcomes Hlen.
    induction found as [| b bs IH]; intros [| o os] Hlen;
      try discriminate; [reflexivity |].
    simpl. f_equal; [now destruct o | apply IH; simpl in Hlen; lia]. }
  split.
  { transitivity (map sourceUrl (map vb_backlink
        (zip_with (record_of_outcome P (bare_hostname domain)) found outcomes))).
    - now rewrite map_map.
    - now rewrite Hback. }
  split.
  { rewrite <- Hback in Htargets. apply Forall_map in Htargets. exact Htargets. }
  split; [| exact Hlog].
  rewrite Hlen, <- (length_map sourceUrl found), Hurls. apply length_map.
Qed.

End DomainFinder.

Lemma findBacklinks_normalises_witness :
  findBacklinks Sample.platform "https://target.example/" 20 (Sample.start 10)
  = findBacklinks Sample.platform "target.example" 20 (Sample.start 10).
Proof.
  apply (findBacklinks_normalises Sample.platform "target.example" 20 (Sample.start 10)).
  reflexivity.
Defined.

Lemma findBacklinks_then_verify_witness :
  let run := findBacklinks Sample.platform "target.example" 3 (Sample.start 10) in
  let found := match fst run with Ok found => found | Throw _ => [] end in
  exists results out outcomes s2,
    searchGoogle Sample.platform
      (JsString.dquote +:+ clean_domain "target.example" +:+ JsString.dquote
       +:+ " -site:" +:+ clean_domain "target.example") 3 (Sample.start 10)
    = (Ok results, snd run) /\
    verifyBacklinks Sample.platform (length found) found "target.example"
                    default_maxConcurrent (snd run) = (Ok (Some out), s2) /\
    map (fun vb => sourceUrl (vb_backlink vb)) out = map link results /\
    Forall (fun vb => target (vb_backlink vb)
                      = TargetDomain (clean_domain "target.example")) out /\
    length outcomes = length results /\
    log s2 = log (snd run) ++ get_events found outcomes.
Proof.
  intros run found.
  apply (findBacklinks_then_verify Sample.platform "target.example" 3
           default_maxConcurrent (Sample.start 10) (snd run) found).
  - unfold default_maxConcurrent. lia.
  - vm_compute. reflexivity.
Defined.

(** ** The unique domains of a list of URLs *)

Section UniqueDomains.

Context {W : Type} (P : Platform W).

Lemma extractUniqueDomains_eq urls :
  extractUniqueDomains P urls = Set_of_array [] (map (domain_or_self P) urls).
Proof. reflexivity. Qed.

Lemma extractUniqueDomains_elem (urls : list string) (d : string) :
  d ∈ extractUniqueDomains P urls <-> exists u, u ∈ urls /\ d = domain_or_self P u.
Proof.
  rewrite extractUniqueDomains_eq, Set_of_array_elem.
  rewrite list_elem_of_fmap. split.
  - intros [Hnil | (u & -> & Hu)]; [inversion Hnil | eauto].
  - intros (u & Hu & ->). right. eauto.
Qed.

Lemma extractUniqueDomains_NoDup (urls : list string) :
  NoDup (extractUniqueDomains P urls).
Proof. apply Set_of_array_NoDup, NoDup_nil_2. Qed.


(** X4.  With a parser for which a host name is not itself a URL, as it
    is for [new URL], [extractUniqueDomains] is idempotent: on its own
    result it returns that result. *)
Theorem extractUniqueDomains_idempotent (urls : list string) :
  (forall u h, URL_hostname P u = Some h -> URL_hostname P h = None) ->
  extractUniqueDomains P (extractUniqueDomains P urls) = extractUniqueDomains P urls.
Proof.
  intros Hhost.
  pose proof (extractUniqueDomains_NoDup urls) as Hnd.
  pose proof (extractUniqueDomains_elem urls) as Hmem.
  set (out := extractUniqueDomains P urls) in *.
  assert (Hfix : forall l, (forall d, d ∈ l -> d ∈ out) -> map (domain_or_self P) l = l).
  { induction l as [| d l IH]; intros Hl; [reflexivity |]. simpl. f_equal.
    - destruct (proj1 (Hmem d) (Hl d ltac:(left))) as (u & _ & ->).
      unfold domain_or_self.
      destruct (URL_hostname P u) as [h |] eqn:Hu.
      + now rewrite (Hhost u h Hu).
      + now rewrite Hu.
    - apply IH. intros d' Hd'. apply Hl. now right. }
  rewrite (extractUniqueDomains_eq out), Hfix by auto.
  now apply (Set_of_array_NoDup_id out []).
Qed.

End UniqueDomains.

(** The sample parser is such a parser: its host names hold no colon,
    and it parses nothing without one. *)
Lemma lower_not_colon (c : ascii) :
  (nat_of_ascii c =? 58)%nat = false ->
  (nat_of_ascii (JsString.lower c) =? 58)%nat = false.
Proof.
  destruct c as [[] [] [] [] [] [] [] []]; vm_compute; congruence.
Qed.

Lemma Sample_host_chars_no_scheme (s : string) :
  Sample.split_scheme (Sample.host_chars s) = None.
Proof.
  induction s as [| c s IH]; [reflexivity |].
  cbn [Sample.host_chars].
  destruct (nat_of_ascii c =? 58)%nat eqn:Hcolon.
  - rewrite !orb_true_r. reflexivity.
  - rewrite orb_false_r.
    destruct ((nat_of_ascii c =? 47)%nat || (nat_of_ascii c =? 63)%nat
              || (nat_of_ascii c =? 35)%nat); [reflexivity |].
    cbn [Sample.split_scheme]. rewrite (lower_not_colon c Hcolon), IH.
    now destruct (Sample.is_scheme_char (JsString.lower c)).
Qed.

Lemma Sample_hostname_is_no_url (u h : string) :
  Sample.url_hostname u = Some h -> Sample.url_hostname h = None.
Proof.
  unfold Sample.url_hostname, Sample.parse. intros Hu.
  destruct (Sample.split_scheme u) as [[[| c scheme] rest] |]; try discriminate.
  destruct (_ && _); [| discriminate].
  destruct (String.eqb _ EmptyString); [discriminate |].
  inversion Hu; subst. simpl. now rewrite Sample_host_chars_no_scheme.
Qed.

Lemma extractUniqueDomains_idempotent_witness :
  let urls := ["https://site1.example/a"; "not a url"; "https://SITE1.example/b"] in
  extractUniqueDomains Sample.platform (extractUniqueDomains Sample.platform urls)
  = extractUniqueDomains Sample.platform urls.
Proof.
  intros urls.
  apply (extractUniqueDomains_idempotent Sample.platform urls).
  exact Sample_hostname_is_no_url.
Defined.

(** ** The metadata extractor *)

Section MetadataExtractor.

Context {W : Type} (P : Platform W) (R : Runtime W).

(** Promises that never reject, all awaited. *)
Lemma Promise_all_total {A B : Type} (f : A -> M W B) (Q : A -> B -> Prop) :
  (forall a s, exists b s', f a s = (Ok b, s') /\ Q a b) ->
  forall l s, exists bs s', Promise_all (map f l) s = (Ok bs, s') /\ Forall2 Q l bs.
Proof.
  intros Hf. induction l as [| a l IH]; intros s.
  - exists [], s. split; [reflexivity | constructor].
  - destruct (Hf a s) as (b & s1 & Hb & HQ).
    destruct (IH s1) as (bs & s2 & Hbs & HQs).
    exists (b :: bs), s2. simpl. unfold bind. rewrite Hb.
    fold (@bind W (list B)). unfold bind. rewrite Hbs.
    split; [reflexivity | now constructor].
Qed.

Lemma slice_then_drop {A : Type} (l : list A) i n :
  drop i l = slice l i (i + n) ++ drop (i + n) l.
Proof.
  unfold slice. replace (i + n - i)%nat with n by lia.
  rewrite <- (take_drop n (drop i l)) at 1. now rewrite drop_drop.
Qed.

(** The headings gathered are the trimmed texts that are not empty. *)
Lemma heading_texts_nonempty doc tag :
  Forall (fun t => t <> EmptyString) (heading_texts doc tag).
Proof.
  unfold heading_texts.
  assert (Hgen : forall els acc,
             Forall (fun t => t <> EmptyString) acc ->
             Forall (fun t => t <> EmptyString)
                    (fold_left
                       (fun tags el =>
                          let text := JsString.trim (Cheerio.text el) in
                          if String.eqb text EmptyString then tags else tags ++ [text])
                       els acc)).
  { induction els as [| el els IH]; intros acc Hacc; [exact Hacc |].
    simpl. apply IH.
    destruct (String.eqb (JsString.trim (Cheerio.text el)) EmptyString) eqn:He;
      [exact Hacc |].
    apply Forall_app. split; [exact Hacc |].
    constructor; [| constructor]. now apply String.eqb_neq. }
  apply Hgen. constructor.
Qed.

(** Whatever the page does, [extractMetadata] returns a record for the
    URL. *)
Lemma extractMetadata_for u s :
  exists md s', extractMetadata P u s = (Ok md, s') /\ metadata_for u md.
Proof.
  unfold extractMetadata, try_catch, bind, await_axios_get.
  destruct (axios_get P u (world s)) as [[response | e] w']; unfold ret.
  - do 2 eexists. split; [reflexivity |].
    split; [reflexivity |]. split; simpl.
    + rewrite !Forall_app. repeat split; apply heading_texts_nonempty.
    + intros Hne. contradiction.
  - do 2 eexists. split; [reflexivity |].
    split; [reflexivity |]. split; simpl; [constructor | auto 10].
Qed.

(** X5.  [extractMetadata] never throws: it fetches the page once and
    returns a record for the URL, with no empty heading; when the fetch
    fails the record has the message of the error and every other field
    empty, and only then has it an error. *)
Theorem extractMetadata_never_throws (u : string) (s : Sys W) :
  exists md o w',
    axios_get P u (world s) = (o, w') /\
    extractMetadata P u s = (Ok md, mkSys w' (log s ++ [EvGet u o])) /\
    metadata_for u md /\
    (forall e, o = Throw e -> md_error md = Some (message e)) /\
    (forall response, o = Ok response -> md_error md = None).
Proof.
  destruct (axios_get P u (world s)) as [o w'] eqn:Hget.
  destruct (extractMetadata_for u s) as (md & s' & Hrun & Hfor).
  unfold extractMetadata, try_catch, bind, await_axios_get in Hrun.
  rewrite Hget in Hrun.
  exists md, o, w'. split; [reflexivity |].
  destruct o as [response | e]; unfold ret in Hrun; inversion Hrun; subst.
  - split; [unfold extractMetadata, try_catch, bind, await_axios_get;
            rewrite Hget; reflexivity |].
    split; [exact Hfor |]. split; [discriminate | reflexivity].
  - split; [unfold extractMetadata, try_catch, bind, await_axios_get;
            rewrite Hget; reflexivity |].
    split; [exact Hfor |].
    split; [| discriminate]. intros e' He'. now inversion He'.
Qed.

Lemma extractMetadataFromUrls_loop_run urls :
  (1 <= concurrentRequests R)%nat ->
  forall fuel i acc s,
    (length urls - i <= fuel)%nat ->
    exists mds s',
      extractMetadataFromUrls_loop P R fuel urls i acc s = (Ok (Some (acc ++ mds)), s') /\
      Forall2 metadata_for (drop i urls) mds.
Proof.
  intros Hc. induction fuel as [| fuel IH]; intros i acc s Hfuel.
  - exists [], s. simpl.
    assert (Hi : (i <? length urls)%nat = false) by (apply Nat.ltb_ge; lia).
    rewrite Hi, drop_ge, app_nil_r by lia. split; [reflexivity | constructor].
  - simpl. destruct (i <? length urls)%nat eqn:Hi.
    + apply Nat.ltb_lt in Hi.
      destruct (Promise_all_total (extractMetadata P) metadata_for extractMetadata_for
                  (slice urls i (i + concurrentRequests R)) s)
        as (b1 & s1 & Hbatch & HQ1).
      destruct (IH (i + concurrentRequests R)%nat (acc ++ b1) s1 ltac:(lia))
        as (b2 & s2 & Hrest & HQ2).
      exists (b1 ++ b2), s2. unfold bind. rewrite Hbatch, Hrest.
      split; [now rewrite <- app_assoc |].
      rewrite (slice_then_drop urls i (concurrentRequests R)).
      now apply Forall2_app.
    + apply Nat.ltb_ge in Hi. exists [], s.
      rewrite drop_ge, app_nil_r by lia. split; [reflexivity | constructor].
Qed.

(** X6.  With at least one concurrent request configured,
    [extractMetadataFromUrls] returns one record a URL, in the order of
    the input and each for its URL, whatever the pages do: a page that
    cannot be fetched still has its record. *)
Theorem extractMetadataFromUrls_preserves_input (urls : list string)
        (fuel : nat) (s : Sys W) :
  (1 <= concurrentRequests R)%nat ->
  (length urls <= fuel)%nat ->
  exists mds s',
    extractMetadataFromUrls P R fuel urls s = (Ok (Some mds), s') /\
    map md_url mds = urls /\
    length mds = length urls /\
    Forall well_formed_metadata mds.
Proof.
  intros Hc Hfuel.
  destruct (extractMetadataFromUrls_loop_run urls Hc fuel 0%nat [] s ltac:(lia))
    as (mds & s' & Hrun & HQ).
  rewrite drop_0 in HQ. exists mds, s'. split; [exact Hrun |].
  clear Hrun. induction HQ as [| u md urls' mds' [Hu Hwf] _ IH].
  - repeat split; constructor.
  - simpl in Hfuel. destruct (IH ltac:(lia)) as (Hm & Hl & Hf).
    simpl. rewrite Hu, Hm, Hl. repeat split. now constructor.
Qed.

(** The token before the first space has no space in it. *)
Lemma first_token_no_space (u : string) :
  JsString.includes (first_token u) " " = false.
Proof.
  induction u as [| c u IH]; [reflexivity |].
  cbn [first_token]. destruct (Ascii.eqb c space) eqn:Hc; [reflexivity |].
  cbn [JsString.includes String.prefix]. rewrite IH.
  destruct (ascii_dec " " c) as [<- | Hne]; [discriminate Hc | reflexivity].
Qed.

(** X7.  [processUrls] never throws and returns one record a line of its
    input, in order, each for the token of the line before its first
    space; so no record has a URL with a space in it. *)
Theorem processUrls_first_tokens (urls : list string) (s : Sys W) :
  exists mds s',
    processUrls P urls s = (Ok mds, s') /\
    map md_url mds = map first_token urls /\
    Forall well_formed_metadata mds /\
    Forall (fun md => JsString.includes (md_url md) " " = false) mds.
Proof.
  unfold processUrls.
  assert (Hgen : forall l acc s0,
             exists mds s',
               processUrls_loop P l acc s0 = (Ok (acc ++ mds), s') /\
               Forall2 (fun u md => metadata_for (first_token u) md) l mds).
  { induction l as [| u l IH]; intros acc s0.
    - exists [], s0. simpl. rewrite app_nil_r. split; [reflexivity | constructor].
    - destruct (extractMetadata_for (first_token u) s0) as (md & s1 & Hmd & Hfor).
      destruct (IH (acc ++ [md]) s1) as (mds & s2 & Hrest & HQ).
      exists (md :: mds), s2. simpl. unfold bind at 1, try_catch, bind.
      rewrite Hmd. unfold ret at 1. rewrite Hrest.
      split; [now rewrite <- app_assoc | now constructor]. }
  destruct (Hgen urls [] s) as (mds & s' & Hrun & HQ).
  exists mds, s'. split; [exact Hrun |]. clear Hrun Hgen.
  induction HQ as [| u md urls' mds' [Hu Hwf] _ IH].
  - repeat split; constructor.
  - destruct IH as (Hm & Hf & Hs). simpl. rewrite Hu, Hm. repeat split.
    + now constructor.
    + constructor; [| exact Hs]. rewrite Hu. apply first_token_no_space.
Qed.

End MetadataExtractor.

(** ** The search client of the workflow *)

Section ResearchSearch.

Context {W : Type} (P : Platform W).

(** One run of the loop: it asks for ten results a page, passes over the
    pages that fail or come back empty, and stops before result 101. *)
Lemma Research_searchGoogle_loop_pages kw :
  forall remaining i acc s,
    0 <= i ->
    exists pages s',
      Research.searchGoogle_loop P kw remaining i acc s = (Ok (acc ++ items_of pages), s') /\
      log s' = log s ++ map page_event pages /\
      length pages = Nat.min remaining (Z.to_nat (10 - i)) /\
      (forall k p, pages !! k = Some p ->
         fst p = {| req_q := kw; req_start := (i + Z.of_nat k) * 10 + 1; req_num := 10 |}).
Proof.
  induction remaining as [| remaining IH]; intros i acc s Hi.
  - exists [], s. simpl. rewrite !app_nil_r. repeat split; auto.
    intros k p Hk. destruct k; discriminate.
  - cbn [Research.searchGoogle_loop]. cbv zeta.
    destruct (100 <? i * 10 + 1) eqn:Hstop.
    + apply Z.ltb_lt in Hstop. exists [], s. unfold ret. simpl. rewrite !app_nil_r.
      repeat split; auto.
      * replace (Z.to_nat (10 - i)) with 0%nat by lia. lia.
      * intros k p Hk. destruct k; discriminate.
    + apply Z.ltb_ge in Hstop.
      set (rq := {| req_q := kw; req_start := i * 10 + 1; req_num := 10 |}).
      unfold bind at 1, try_catch, bind, await_cse_list.
      destruct (cse_list P rq (world s)) as [o w'] eqn:Hcall.
      set (s1 := mkSys w' (log s ++ [EvSearch rq o])).
      assert (Hstep : exists acc1,
                 acc1 = acc ++ page_items o /\
                 (let (r, s0) :=
                    match o with
                    | Ok a =>
                        match a with
                        | Some (item :: items') => ret (acc ++ item :: items')
                        | _ => ret acc
                        end s1
                    | Throw e => (Throw e, s1)
                    end in
                  match r with
                  | Ok a => (Ok a, s0)
                  | Throw e => ret acc s0
                  end) = (Ok acc1, s1)).
      { exists (acc ++ page_items o). split; [reflexivity |].
        destruct o as [[[| item items'] |] | e]; unfold ret; simpl;
          rewrite ?app_nil_r; reflexivity. }
      destruct Hstep as (acc1 & Hacc1 & Hstep). rewrite Hstep.
      destruct (IH (i + 1) acc1 s1 ltac:(lia)) as (pages & s' & Hrun & Hlog & Hlen & Hreq).
      exists ((rq, o) :: pages), s'. rewrite Hrun.
      split. { subst acc1. unfold items_of. simpl. now rewrite <- app_assoc. }
      split. { rewrite Hlog. simpl. now rewrite <- app_assoc. }
      split. { cbn [length]. rewrite Hlen. lia. }
      intros k p Hk. destruct k as [| k].
      * inversion Hk; subst. simpl. unfold rq. f_equal. lia.
      * simpl in Hk. rewrite (Hreq k p Hk). f_equal. lia.
Qed.

(** Ten results a page at most, from an API that serves no more than it
    is asked for. *)
Lemma ten_a_page (pages : list Page) :
  (forall p, p ∈ pages -> req_num (fst p) = 10) ->
  (forall p, p ∈ pages -> honest_page p) ->
  Z.of_nat (length (items_of pages)) <= 10 * Z.of_nat (length pages).
Proof.
  induction pages as [| p pages IH]; intros Hten Hhonest; [simpl; lia |].
  cbn [items_of flat_map]. fold (items_of pages).
  rewrite length_app, Nat2Z.inj_add.
  assert (Hp : honest_page p) by (apply Hhonest; left).
  unfold honest_page in Hp. rewrite (Hten p ltac:(left)) in Hp.
  assert (Hrest : Z.of_nat (length (items_of pages)) <= 10 * Z.of_nat (length pages)).
  { apply IH; intros q Hq; [apply Hten | apply Hhonest]; now right. }
  simpl length. lia.
Qed.

(** X8.  The search client of the workflow never throws.  It makes
    [min(ceil(N / 10), 10)] calls whatever they return, call [k] asking
    for ten results from [10 k + 1] on, whatever [N] is; it returns the
    results of the calls that succeeded, in order, which may be more than
    [N]; and from an API that serves no more than it is asked for it
    returns at most 100 results. *)
Theorem Research_searchGoogle_calls (kw : string) (N : Z) (s : Sys W) :
  exists results pages s',
    Research.searchGoogle P kw N s = (Ok results, s') /\
    log s' = log s ++ map page_event pages /\
    length pages = Nat.min (Z.to_nat (ceil_div10 N)) 10 /\
    (forall k p, pages !! k = Some p ->
       fst p = {| req_q := kw; req_start := Z.of_nat k * 10 + 1; req_num := 10 |}) /\
    results = map format_item (items_of pages) /\
    ((forall p, p ∈ pages -> honest_page p) ->
     Z.of_nat (length results) <= 10 * Z.of_nat (length pages) <= 100).
Proof.
  destruct (Research_searchGoogle_loop_pages kw (Z.to_nat (ceil_div10 N)) 0 [] s
              ltac:(lia)) as (pages & s' & Hrun & Hlog & Hlen & Hreq).
  exists (map format_item (items_of pages)), pages, s'.
  unfold Research.searchGoogle, try_catch, bind. rewrite Hrun. unfold ret.
  split; [reflexivity |]. split; [exact Hlog |].
  split. { rewrite Hlen. reflexivity. }
  split. { intros k p Hk. rewrite (Hreq k p Hk). f_equal. }
  split; [reflexivity |].
  intros Hhonest. rewrite length_map. split; [| lia].
  apply ten_a_page; [| exact Hhonest].
  intros p Hp. apply list_elem_of_lookup in Hp. destruct Hp as [k Hk].
  now rewrite (Hreq k p Hk).
Qed.

End ResearchSearch.

(** ** Searching for several keywords *)

Section MultipleKeywords.

Context {W : Type} (P : Platform W).

Lemma add_unique_keeps kws kw acc result :
  kw ∈ kws ->
  unique_so_far kws acc ->
  unique_so_far kws (Research.add_unique kw acc result).
Proof.
  intros Hkw (Hnd & Hset & Htags). destruct acc as [allResults uniqueUrls].
  unfold Research.add_unique. simpl in *.
  destruct (decide (link result ∈ uniqueUrls)) as [Hseen | Hnew];
    [unfold unique_so_far; simpl; auto |].
  unfold unique_so_far. simpl. rewrite map_app. simpl.
  split.
  { apply NoDup_app. split; [exact Hnd |]. split; [| apply NoDup_singleton].
    intros l Hl Hl'. apply list_elem_of_singleton in Hl'. subst l.
    apply Hnew, Hset, Hl. }
  split.
  { intros l. rewrite elem_of_union, elem_of_singleton, elem_of_app,
      list_elem_of_singleton, Hset. tauto. }
  apply Forall_app. split; [exact Htags |]. constructor; [exact Hkw | constructor].
Qed.

Lemma fold_add_unique_keeps kws kw results : forall acc,
  kw ∈ kws ->
  unique_so_far kws acc ->
  unique_so_far kws (fold_left (Research.add_unique kw) results acc).
Proof.
  induction results as [| r results IH]; intros acc Hkw Hacc; [exact Hacc |].
  simpl. apply IH; [exact Hkw |]. now apply add_unique_keeps.
Qed.

Lemma searchMultipleKeywords_loop_run kws n :
  forall ks acc s,
    (forall k, k ∈ ks -> k ∈ kws) ->
    unique_so_far kws acc ->
    exists out (pages : list Page) s',
      Research.searchMultipleKeywords_loop P ks n acc s = (Ok out, s') /\
      NoDup (map (fun r : TaggedResult => link (tr_result r)) out) /\
      Forall (fun r => tr_keyword r ∈ kws) out /\
      log s' = log s ++ map page_event pages /\
      length pages = (length ks * Nat.min (Z.to_nat (ceil_div10 n)) 10)%nat.
Proof.
  induction ks as [| kw ks IH]; intros acc s Hks Hacc.
  - exists (fst acc), [], s. simpl. rewrite app_nil_r.
    destruct Hacc as (Hnd & _ & Htags). repeat split; auto.
  - cbn [Research.searchMultipleKeywords_loop].
    destruct (Research_searchGoogle_loop_pages P kw (Z.to_nat (ceil_div10 n)) 0 [] s
                ltac:(lia)) as (pages & s1 & Hrun & Hlog & Hlen & _).
    unfold bind at 1, try_catch, bind at 1, Research.searchGoogle, try_catch, bind.
    rewrite Hrun. unfold ret at 1 2. cbv beta iota.
    set (acc1 := fold_left (Research.add_unique kw) _ acc).
    assert (Hacc1 : unique_so_far kws acc1).
    { apply fold_add_unique_keeps; [apply Hks; left | exact Hacc]. }
    destruct (IH acc1 s1 ltac:(intros k Hk; apply Hks; now right) Hacc1)
      as (out & pages' & s2 & Hrest & Hnd & Htags & Hlog' & Hlen').
    exists out, (pages ++ pages'), s2.
    split; [exact Hrest |]. split; [exact Hnd |]. split; [exact Htags |].
    split.
    + rewrite Hlog', Hlog, map_app. now rewrite <- app_assoc.
    + rewrite length_app, Hlen, Hlen'. simpl. lia.
Qed.

(** X9.  [searchMultipleKeywords] never throws.  No two of its results
    have the same link, each result is tagged with one of the keywords
    given, and it makes [min(ceil(n / 10), 10)] calls of the search API
    for every keyword, no more and no fewer. *)
Theorem searchMultipleKeywords_unique_links (kws : list string) (n : Z) (s : Sys W) :
  exists out (pages : list Page) s',
    Research.searchMultipleKeywords P kws n s = (Ok out, s') /\
    NoDup (map (fun r => link (tr_result r)) out) /\
    Forall (fun r => tr_keyword r ∈ kws) out /\
    log s' = log s ++ map page_event pages /\
    length pages = (length kws * Nat.min (Z.to_nat (ceil_div10 n)) 10)%nat.
Proof.
  unfold Research.searchMultipleKeywords.
  apply searchMultipleKeywords_loop_run; [auto |].
  unfold unique_so_far. simpl. split; [constructor |]. split; [| constructor].
  intros l. rewrite elem_of_empty. split; [tauto | intros H; inversion H].
Qed.

End MultipleKeywords.

(** ** Organising the analysed sites *)

Section Organiser.

Lemma organize_fold (sites : list AnalyzedSite) : forall o,
  fold_left organize_step sites o =
  {| highPotential :=
       highPotential o ++ filter (fun st => 70 <= site_confidence st) sites;
     mediumPotential :=
       mediumPotential o ++ filter (fun st => 40 <= site_confidence st < 70) sites;
     lowPotential :=
       lowPotential o ++ filter (fun st => 30 <= site_confidence st < 40) sites;
     rejected :=
       rejected o ++ filter (fun st => site_confidence st < 30) sites |}.
Proof.
  induction sites as [| st sites IH]; intros o.
  - simpl. rewrite !app_nil_r. now destruct o.
  - cbn [fold_left]. rewrite IH. unfold organize_step.
    fold (site_confidence st).
    destruct (70 <=? site_confidence st) eqn:H70;
      [apply Z.leb_le in H70 | apply Z.leb_gt in H70;
       destruct (40 <=? site_confidence st) eqn:H40;
       [apply Z.leb_le in H40 | apply Z.leb_gt in H40;
        destruct (30 <=? site_confidence st) eqn:H30;
        [apply Z.leb_le in H30 | apply Z.leb_gt in H30]]];
      cbn [highPotential mediumPotential lowPotential rejected];
      rewrite !filter_cons; repeat case_decide; try lia;
      now rewrite <- ?app_assoc.
Qed.

(** X10.  [organizePotentialSites] sorts the sites into four lists by
    their confidence: 70 and more, 40 to 69, 30 to 39, less than 30.
    Each list keeps the order of the input, and no site is lost or
    listed twice: the four lengths add up to the length of the input. *)
Theorem organizePotentialSites_partition (sites : list AnalyzedSite) :
  let o := organizePotentialSites sites in
  highPotential o = filter (fun st => 70 <= site_confidence st) sites /\
  mediumPotential o = filter (fun st => 40 <= site_confidence st < 70) sites /\
  lowPotential o = filter (fun st => 30 <= site_confidence st < 40) sites /\
  rejected o = filter (fun st => site_confidence st < 30) sites /\
  (length (highPotential o) + length (mediumPotential o) +
   length (lowPotential o) + length (rejected o) = length sites)%nat.
Proof.
  intros o. unfold o, organizePotentialSites. rewrite organize_fold.
  cbn [highPotential mediumPotential lowPotential rejected app].
  repeat split.
  clear o. induction sites as [| st sites IH]; [reflexivity |].
  rewrite !filter_cons. repeat case_decide; cbn [length]; lia.
Qed.

(** X11.  For sites whose records keep the invariant of the analyser,
    the rejected sites are exactly the sites that do not accept
    submissions, and the sites of the three other lists all accept
    them. *)
Theorem organizePotentialSites_accepting (sites : list AnalyzedSite) :
  Forall (fun st => confidence_invariant (as_analysis st)) sites ->
  let o := organizePotentialSites sites in
  rejected o = filter (fun st => acceptsSubmissions (as_analysis st) = false) sites /\
  Forall (fun st => acceptsSubmissions (as_analysis st) = true)
         (highPotential o ++ mediumPotential o ++ lowPotential o) /\
  Forall (fun st => site_confidence st <= 100) (highPotential o).
Proof.
  intros Hinv o. unfold o, organizePotentialSites. rewrite organize_fold.
  cbn [highPotential mediumPotential lowPotential rejected app].
  split; [| split].
  - induction Hinv as [| st sites [_ Hacc] _ IH]; [reflexivity |].
    rewrite !filter_cons, IH. unfold site_confidence.
    repeat case_decide; try reflexivity; exfalso.
    + rewrite Hacc in *.
      assert ((30 <=? confidence (as_analysis st)) = false) by (apply Z.leb_gt; lia).
      congruence.
    + rewrite Hacc in *.
      assert ((30 <=? confidence (as_analysis st)) = true) by (apply Z.leb_le; lia).
      congruence.
  - rewrite !Forall_app. repeat split; apply Forall_forall; intros st Hst;
      apply list_elem_of_filter in Hst; destruct Hst as [Hc Hst];
      rewrite Forall_forall in Hinv; destruct (Hinv st Hst) as [_ Hacc];
      rewrite Hacc; apply Z.leb_le; unfold site_confidence in Hc; lia.
  - apply Forall_forall. intros st Hst.
    apply list_elem_of_filter in Hst. destruct Hst as [_ Hst].
    rewrite Forall_forall in Hinv. destruct (Hinv st Hst) as [[_ Hle] _].
    exact Hle.
Qed.

End Organiser.

(** ** The batch analyser of sites *)

Section BatchAnalyser.

Context {W : Type} (P : Platform W) (R : Runtime W).





End BatchAnalyser.

(** ** The theorems with hypotheses, on the sample platform *)

Lemma extractMetadataFromUrls_preserves_input_witness :
  exists mds s',
    extractMetadataFromUrls Sample.platform SampleRuntime.runtime 2
      ["https://site1.example/"; "https://site2.example/"] (Sample.start 0)
    = (Ok (Some mds), s') /\
    map md_url mds = ["https://site1.example/"; "https://site2.example/"] /\
    length mds = 2%nat /\
    Forall well_formed_metadata mds.
Proof.
  apply (extractMetadataFromUrls_preserves_input Sample.platform SampleRuntime.runtime
           ["https://site1.example/"; "https://site2.example/"] 2 (Sample.start 0)).
  - simpl. lia.
  - simpl. lia.
Defined.

Lemma organizePotentialSites_accepting_witness :
  let sites := [ SampleRuntime.analysed "https://a.example/" 75;
                 SampleRuntime.analysed "https://b.example/" 10;
                 SampleRuntime.analysed "https://c.example/" 35 ] in
  let o := organizePotentialSites sites in
  rejected o = filter (fun st => acceptsSubmissions (as_analysis st) = false) sites /\
  Forall (fun st => acceptsSubmissions (as_analysis st) = true)
         (highPotential o ++ mediumPotential o ++ lowPotential o) /\
  Forall (fun st => site_confidence st <= 100) (highPotential o).
Proof.
  intros sites.
  apply (organizePotentialSites_accepting sites).
  repeat constructor; simpl; lia.
Defined.


(** ** More of the CSV exporter *)

Section ExporterEdges.

Context {W : Type} (P : Platform W).

Lemma JsString_rev_app (a b : string) :
  JsString.rev (a +:+ b) = JsString.rev b +:+ JsString.rev a.
Proof.
  unfold JsString.rev. rewrite list_ascii_of_string_app, rev_app_distr.
  generalize (rev (list_ascii_of_string b)) as x.
  generalize (rev (list_ascii_of_string a)) as y.
  intros y x. induction x as [| c x IH]; simpl; [reflexivity | now rewrite IH].
Qed.

Lemma prefix_app (p s : string) : String.prefix p (p +:+ s) = true.
Proof.
  induction p as [| c p IH]; simpl; [now destruct s |].
  destruct (ascii_dec c c); [exact IH | contradiction].
Qed.

Lemma endsWith_app (s p : string) : JsString.endsWith (s +:+ p) p = true.
Proof. unfold JsString.endsWith. rewrite JsString_rev_app. apply prefix_app. Qed.

(** X13.  The extension is added only where it is missing: a file name
    without [.csv] and the same name with it are one file to
    [exportToCsv], which does the same with both. *)
Theorem exportToCsv_extension (data : JsValue) (filename : string) (s : Sys W) :
  JsString.endsWith filename ".csv" = false ->
  exportToCsv P data (filename +:+ ".csv") s = exportToCsv P data filename s.
Proof.
  intros Hext. unfold exportToCsv.
  rewrite (endsWith_app filename ".csv"), Hext. reflexivity.
Qed.

(** An item without properties to list ends the flattening. *)
Lemma map_throwing_null (items : list JsValue) (s : Sys W) :
  (exists item, item ∈ items /\ own_entries item = None) ->
  map_throwing (process_item P) items s
  = (Throw (Error "Cannot convert undefined or null to object"), s).
Proof.
  induction items as [| x items IH]; intros (item & Hin & Hnone).
  - inversion Hin.
  - cbn [map_throwing]. unfold process_item at 1.
    destruct (own_entries x) as [entries |] eqn:Hx; [| reflexivity].
    unfold bind. rewrite IH; [reflexivity |].
    exists item. split; [| exact Hnone].
    apply elem_of_cons in Hin. destruct Hin as [-> | Hin]; [congruence | exact Hin].
Qed.

(** X14.  An array that holds [null] or [undefined] among its records is
    not exported: [exportToCsv] throws once the directory is there, and
    nothing is handed to the CSV writer. *)
Theorem exportToCsv_null_record (items : list JsValue) (filename : string)
        (s : Sys W) (w1 : W) :
  JsNull ∈ items \/ JsUndefined ∈ items ->
  fs_ensureDir P (csvDir P) (world s) = (Ok tt, w1) ->
  exportToCsv P (JsArray items) filename s
  = (Throw (Error "Cannot convert undefined or null to object"),
     mkSys w1 (log s ++ [EvEnsureDir (csvDir P) (Ok tt)])).
Proof.
  intros Hnull Hdir. unfold exportToCsv. rewrite try_rethrow.
  unfold bind at 1, await_ensureDir. rewrite Hdir. cbv beta iota zeta.
  destruct items as [| x items].
  - destruct Hnull as [H | H]; inversion H.
  - change (length (x :: items) =? 0)%nat with false. cbv iota.
    unfold bind. rewrite map_throwing_null; [reflexivity |].
    destruct Hnull as [H | H]; eexists; (split; [exact H | reflexivity]).
Qed.

End ExporterEdges.

Lemma exportToCsv_extension_witness :
  exportToCsv Sample.platform (JsArray [JsObject [("a", JsString "1")]])
              "report.csv" (Sample.start 0)
  = exportToCsv Sample.platform (JsArray [JsObject [("a", JsString "1")]])
                "report" (Sample.start 0).
Proof.
  apply (exportToCsv_extension Sample.platform
           (JsArray [JsObject [("a", JsString "1")]]) "report" (Sample.start 0)).
  reflexivity.
Defined.

Lemma exportToCsv_null_record_witness :
  exportToCsv Sample.platform
    (JsArray [JsObject [("a", JsString "1")]; JsNull]) "report" (Sample.start 0)
  = (Throw (Error "Cannot convert undefined or null to object"),
     mkSys 0%nat (log (Sample.start 0) ++ [EvEnsureDir "output/csv" (Ok tt)])).
Proof.
  apply (exportToCsv_null_record Sample.platform
           [JsObject [("a", JsString "1")]; JsNull] "report" (Sample.start 0) 0%nat).
  - left. right. left.
  - reflexivity.
Defined.

(** ** More of the backlink verifier *)

Section VerifierRecords.

Context {W : Type} (P : Platform W).



End VerifierRecords.


(** ** More of the search client *)

Section SearchFailure.

Context {W : Type} (P : Platform W).

(** Which calls of a run threw: none when the loop returns, the last and
    only the last when it throws. *)
Lemma searchGoogle_loop_throws q N :
  forall remaining i allResults s r s',
    searchGoogle_loop P q N remaining i allResults s = (r, s') ->
    exists pages : list Page,
      log s' = log s ++ map page_event pages /\
      match r with
      | Ok _ => Forall (fun p => ~ page_threw p) pages
      | Throw e =>
          exists before rq,
            pages = before ++ [(rq, Throw e)] /\
            Forall (fun p => ~ page_threw p /\ page_items (snd p) <> []) before
      end.
Proof.
  induction remaining as [| remaining IH]; intros i allResults s r s' Hrun.
  - simpl in Hrun. inversion Hrun; subst. exists []. simpl.
    rewrite app_nil_r. split; [reflexivity | constructor].
  - simpl in Hrun. unfold bind in Hrun.
    set (rq := {| req_q := q; req_start := i * 10 + 1;
                  req_num := Z.min 10 (N - Z.of_nat (length allResults)) |}) in *.
    destruct (await_cse_list_log P rq s) as [o Ho]. rewrite Ho in Hrun.
    destruct o as [[[| item items'] |] | e].
    + inversion Hrun; subst. exists [(rq, Ok (Some []))]. simpl.
      split; [reflexivity |]. constructor; [auto | constructor].
    + apply IH in Hrun. destruct Hrun as (pages & Hlog & Hres).
      exists ((rq, Ok (Some (item :: items'))) :: pages).
      split. { rewrite Hlog. simpl. now rewrite <- app_assoc. }
      destruct r as [results | e].
      * constructor; [auto | exact Hres].
      * destruct Hres as (before & rq' & -> & Hbefore).
        exists ((rq, Ok (Some (item :: items'))) :: before), rq'.
        split; [reflexivity |]. constructor; [| exact Hbefore].
        split; [auto | discriminate].
    + inversion Hrun; subst. exists [(rq, Ok None)]. simpl.
      split; [reflexivity |]. constructor; [auto | constructor].
    + inversion Hrun; subst. exists [(rq, Throw e)]. simpl.
      split; [reflexivity |]. exists [], rq. split; [reflexivity | constructor].
Qed.

(** X16.  [searchGoogle] returns exactly when none of its page calls
    throws.  When one throws, it is the last call made, every page before
    it had results, and the search throws that very error: the results of
    the pages before are not returned. *)
Theorem searchGoogle_fails_with_page (q : string) (N : Z) (s : Sys W) :
  exists pages : list Page,
    log (snd (searchGoogle P q N s)) = log s ++ map page_event pages /\
    match fst (searchGoogle P q N s) with
    | Ok results =>
        Forall (fun p => ~ page_threw p) pages /\
        results = map format_item (items_of pages)
    | Throw e =>
        exists before rq,
          pages = before ++ [(rq, Throw e)] /\
          Forall (fun p => ~ page_threw p /\ page_items (snd p) <> []) before
    end.
Proof.
  unfold searchGoogle. rewrite try_rethrow. unfold bind.
  destruct (searchGoogle_loop P q N (Z.to_nat (ceil_div10 N)) 0 [] s)
    as [r s1] eqn:Hloop.
  destruct (searchGoogle_loop_throws q N _ _ _ _ _ _ Hloop) as (pages & Hlog & Hres).
  destruct (searchGoogle_loop_pages P q N _ _ _ _ _ _ Hloop)
    as (pages' & Hlog' & _ & _ & _ & Hres').
  assert (pages' = pages).
  { rewrite Hlog in Hlog'. apply app_inv_head in Hlog'.
    clear - Hlog'. revert pages' Hlog'.
    induction pages as [| [rq o] pages IH]; intros [| [rq' o'] pages'] H;
      try discriminate; [reflexivity |].
    simpl in H. inversion H; subst. f_equal. now apply IH. }
  subst pages'. exists pages. destruct r as [results | e]; simpl.
  - split; [exact Hlog |]. split; [exact Hres |].
    destruct Hres' as [-> _]. reflexivity.
  - split; [exact Hlog | exact Hres].
Qed.

End SearchFailure.

(** ** More of the competitor analysis *)

Section AnalysisRecords.

Context {W : Type} (P : Platform W).

Lemma length_omap_le {A B : Type} (f : A -> option B) (l : list A) :
  (length (omap f l) <= length l)%nat.
Proof.
  induction l as [| a l IH]; [reflexivity |].
  change (omap f (a :: l))
    with (match f a with Some y => y :: omap f l | None => omap f l end).
  destruct (f a); cbn [length]; lia.
Qed.

Lemma uniqueDomains_at_most_backlinks (found : list Backlink) :
  (length (getUniqueReferringDomains P found) <= length found)%nat.
Proof.
  rewrite getUniqueReferringDomains_eq.
  destruct (Set_of_array_sublist (parsed_hosts P found) []) as (added & -> & Hsub).
  apply sublist_length in Hsub. simpl.
  pose proof (length_omap_le (fun b => URL_hostname P (sourceUrl b)) found) as Hle.
  unfold parsed_hosts in Hsub. lia.
Qed.

Lemma findBacklinksForUrl_targets u N s found s' :
  findBacklinksForUrl P u N s = (Ok found, s') ->
  Forall (fun b => target b = TargetUrl u) found.
Proof.
  unfold findBacklinksForUrl. rewrite try_rethrow. unfold bind.
  destruct (searchGoogle P _ N s) as [[results | e] s1]; [| discriminate].
  unfold ret. intros H. inversion H; subst. clear H.
  induction results as [| r results IH]; simpl; constructor;
    [reflexivity | exact IH].
Qed.

Lemma analyze_loop_counted maxB :
  forall pages acc s out s',
    analyze_loop P pages maxB acc s = (Ok out, s') ->
    Forall counted_backlinks acc ->
    Forall counted_backlinks out /\
    length out = (length acc + length pages)%nat.
Proof.
  induction pages as [| page pages IH]; intros acc s out s' Hrun Hacc.
  - simpl in Hrun. inversion Hrun; subst. split; [exact Hacc | simpl; lia].
  - simpl in Hrun. unfold bind in Hrun.
    destruct (findBacklinksForUrl P (url page) maxB s) as [[found | e] s1] eqn:Hfind;
      [| discriminate].
    apply IH in Hrun.
    + destruct Hrun as [Hout Hlen]. split; [exact Hout |].
      rewrite Hlen, length_app. simpl. lia.
    + apply Forall_app. split; [exact Hacc |]. constructor; [| constructor].
      unfold counted_backlinks. simpl.
      pose proof (uniqueDomains_at_most_backlinks found) as Hle.
      repeat split; try lia.
      * rewrite getUniqueReferringDomains_eq. apply Set_of_array_NoDup, NoDup_nil_2.
      * eapply findBacklinksForUrl_targets; eauto.
Qed.

(** X17.  For any number of results asked for, the analysis that returns
    has one record a top page, in rank order, and every record is
    consistent: its counts are the lengths of its lists, it has no more
    unique domains than backlinks and no domain twice, and all its
    backlinks point to the URL of its page. *)
Theorem analyzeTopRankingBacklinks_counts (K : string) (N maxB : Z) (s s' : Sys W)
        (analysis : CompetitorAnalysis) :
  analyzeTopRankingBacklinks P K N maxB s = (Ok analysis, s') ->
  keyword analysis = K /\
  length (backlinksAnalysis analysis) = length (topPages analysis) /\
  map ba_position (backlinksAnalysis analysis) = map position (topPages analysis) /\
  map ba_url (backlinksAnalysis analysis) = map url (topPages analysis) /\
  Forall counted_backlinks (backlinksAnalysis analysis).
Proof.
  intros Hrun.
  destruct (analyzeTopRankingBacklinks_rank_order P _ _ _ _ _ _ Hrun) as (Hpos & Hurl & _).
  unfold analyzeTopRankingBacklinks in Hrun. rewrite try_rethrow in Hrun.
  unfold bind at 1 in Hrun.
  destruct (analyzeSERP P K N s) as [[pages | e] s1]; [| discriminate].
  unfold bind in Hrun.
  destruct (analyze_loop P pages maxB [] s1) as [[out | e] s2] eqn:Hloop;
    [| discriminate].
  unfold ret in Hrun. inversion Hrun; subst. simpl in *.
  destruct (analyze_loop_counted maxB _ _ _ _ _ Hloop ltac:(constructor))
    as [Hcounted Hlen].
  repeat split; auto.
Qed.

End AnalysisRecords.

Lemma analyzeTopRankingBacklinks_counts_witness :
  let run := analyzeTopRankingBacklinks Sample.platform "k" 3 5 (Sample.start 10) in
  let analysis :=
    match fst run with
    | Ok analysis => analysis
    | Throw _ => {| keyword := EmptyString; topPages := []; backlinksAnalysis := [] |}
    end in
  keyword analysis = "k" /\
  length (backlinksAnalysis analysis) = length (topPages analysis) /\
  map ba_position (backlinksAnalysis analysis) = map position (topPages analysis) /\
  map ba_url (backlinksAnalysis analysis) = map url (topPages analysis) /\
  Forall counted_backlinks (backlinksAnalysis analysis).
Proof.
  intros run analysis.
  apply (analyzeTopRankingBacklinks_counts Sample.platform "k" 3 5
           (Sample.start 10) (snd run) analysis).
  vm_compute. reflexivity.
Defined.

(** ** More of the URL categoriser *)

Section CategoriserRules.

Context {W : Type} (P : Platform W).

Lemma existsb_includes (host : string) (domains : list string) :
  existsb (fun domain => JsString.includes host domain) domains = true <->
  exists d, d ∈ domains /\ JsString.includes host d = true.
Proof.
  rewrite existsb_exists. split; intros (d & H1 & H2); exists d.
  - split; [now apply list_elem_of_In | exact H2].
  - split; [now apply list_elem_of_In | exact H2].
Qed.

(** X18.  The rules of [categorizeUrl]: a URL is an [error] exactly when
    url-parse throws on it; otherwise it is [social_media] exactly when
    its host name (less a leading [www.]) contains one of the social
    media domains anywhere in it, and [content_platform] exactly when it
    contains none of those but one of the content platforms. *)
Theorem categorizeUrl_rules (u : string) :
  (category (categorizeUrl P u) = "error" <-> exists e, URLParser P u = Throw e) /\
  (forall parsed, URLParser P u = Ok parsed ->
     let host := JsString.removePrefix "www." (hostname parsed) in
     cat_domain (categorizeUrl P u) = host /\
     (category (categorizeUrl P u) = "social_media" <->
      exists d, d ∈ SOCIAL_MEDIA_DOMAINS /\ JsString.includes host d = true) /\
     (category (categorizeUrl P u) = "content_platform" <->
      (forall d, d ∈ SOCIAL_MEDIA_DOMAINS -> JsString.includes host d = false) /\
      exists d, d ∈ CONTENT_PLATFORMS /\ JsString.includes host d = true)).
Proof.
  unfold categorizeUrl. destruct (URLParser P u) as [parsed0 | e0] eqn:Hparse.
  - split.
    { split.
      - destruct (existsb _ SOCIAL_MEDIA_DOMAINS); [discriminate |].
        destruct (existsb _ CONTENT_PLATFORMS); discriminate.
      - intros [e He]. discriminate. }
    intros parsed Hp. inversion Hp; subst parsed0. cbv zeta.
    set (host := JsString.removePrefix "www." (hostname parsed)).
    pose proof (existsb_includes host SOCIAL_MEDIA_DOMAINS) as Hsocial.
    pose proof (existsb_includes host CONTENT_PLATFORMS) as Hcontent.
    destruct (existsb _ SOCIAL_MEDIA_DOMAINS) eqn:Hs.
    + simpl. split; [reflexivity |]. split.
      * split; [intros _; now apply Hsocial | reflexivity].
      * split; [discriminate |]. intros [Hnone _].
        destruct (proj1 Hsocial eq_refl) as (d & Hd & Hinc).
        rewrite (Hnone d Hd) in Hinc. discriminate.
    + assert (Hnone : forall d, d ∈ SOCIAL_MEDIA_DOMAINS ->
                                JsString.includes host d = false).
      { intros d Hd. destruct (JsString.includes host d) eqn:Hinc; [| reflexivity].
        assert (false = true) by (apply Hsocial; eauto). discriminate. }
      destruct (existsb _ CONTENT_PLATFORMS) eqn:Hc; simpl.
      * split; [reflexivity |]. split.
        -- split; [discriminate |]. intros (d & Hd & Hinc).
           rewrite (Hnone d Hd) in Hinc. discriminate.
        -- split; [intros _; split; [exact Hnone | now apply Hcontent] | reflexivity].
      * split; [reflexivity |]. split.
        -- split; [discriminate |]. intros (d & Hd & Hinc).
           rewrite (Hnone d Hd) in Hinc. discriminate.
        -- split; [discriminate |]. intros [_ Hex].
           assert (false = true) by (apply Hcontent; exact Hex). discriminate.
  - split.
    + split; [eauto | reflexivity].
    + intros parsed Hp. discriminate.
Qed.

End CategoriserRules.

(** ** More of the submission analyser *)

Section Evidence.

Context {W : Type} (P : Platform W).

Lemma Array_includes_elem (xs : list string) (x : string) :
  Array_includes xs x = true <-> x ∈ xs.
Proof. unfold Array_includes. apply existsb_eqb_elem. Qed.

Lemma check_pattern_evidence baseUrl href linkText r pattern a :
  backed_by_evidence r a ->
  backed_by_evidence (check_pattern baseUrl href linkText r pattern) a.
Proof.
  intros (Hc & Hu & Hk & Hsub). unfold check_pattern.
  destruct (_ || _); [| now repeat split].
  set (fullUrl := if JsString.startsWith href "/" then _ else _).
  destruct (Array_includes (submissionPageUrls r) fullUrl) eqn:Hin; simpl;
    [now repeat split |].
  unfold backed_by_evidence. simpl. rewrite length_app. simpl.
  split; [lia |]. split; [| split; [exact Hk | exact Hsub]].
  apply NoDup_app. split; [exact Hu |]. split; [| apply NoDup_singleton].
  intros x Hx Hx'. apply list_elem_of_singleton in Hx'. subst x.
  apply Array_includes_elem in Hx. congruence.
Qed.

Lemma check_keyword_evidence text n r keyword a :
  n <= 15 ->
  keyword ∈ SUBMISSION_KEYWORDS ->
  backed_by_evidence r a ->
  backed_by_evidence (check_keyword text n r keyword) a.
Proof.
  intros Hn Hkw (Hc & Hu & Hk & Hsub). unfold check_keyword.
  destruct (JsString.includes text keyword); [| now repeat split].
  destruct (Array_includes (submissionKeywordsFound r) keyword) eqn:Hin; simpl;
    [now repeat split |].
  unfold backed_by_evidence. simpl. rewrite length_app. simpl.
  split; [lia |]. split; [exact Hu |]. split.
  - apply NoDup_app. split; [exact Hk |]. split; [| apply NoDup_singleton].
    intros x Hx Hx'. apply list_elem_of_singleton in Hx'. subst x.
    apply Array_includes_elem in Hx. congruence.
  - intros k Hk'. apply elem_of_app in Hk'. destruct Hk' as [Hk' | Hk'].
    + now apply Hsub.
    + apply list_elem_of_singleton in Hk'. now subst k.
Qed.

(** A loop over a list keeps what its body keeps on the elements of the
    list. *)
Lemma fold_left_keeps {A B : Type} (f : A -> B -> A) (Q : A -> Prop) (l : list B) :
  (forall a x, x ∈ l -> Q a -> Q (f a x)) ->
  forall a, Q a -> Q (fold_left f l a).
Proof.
  induction l as [| x l IH]; intros Hf a Ha; [exact Ha |].
  simpl. apply IH.
  - intros a' x' Hx'. apply Hf. now right.
  - apply Hf; [left | exact Ha].
Qed.

Lemma visit_anchor_evidence baseUrl r el a :
  backed_by_evidence r a -> backed_by_evidence (visit_anchor baseUrl r el) a.
Proof.
  intros Hr. unfold visit_anchor.
  destruct (Cheerio.attr "href" el) as [href |]; [| exact Hr].
  destruct (String.eqb href EmptyString); [exact Hr |].
  apply fold_left_keeps.
  - intros r' k Hk Hr'. apply check_keyword_evidence; [lia | exact Hk | exact Hr'].
  - apply fold_left_keeps; [| exact Hr].
    intros r' p _ Hr'. now apply check_pattern_evidence.
Qed.

Lemma add_note_evidence r note n a :
  backed_by_evidence r a -> backed_by_evidence (add_note r note n) (a + n).
Proof.
  intros (Hc & Hu & Hk & Hsub). unfold backed_by_evidence. simpl.
  repeat split; auto. lia.
Qed.

Lemma evidence_more r a b :
  a <= b -> backed_by_evidence r a -> backed_by_evidence r b.
Proof.
  intros Hab (Hc & Hu & Hk & Hsub). unfold backed_by_evidence.
  repeat split; auto. lia.
Qed.

Lemma cond_note_evidence (c : bool) r note n a :
  0 <= n ->
  backed_by_evidence r a ->
  backed_by_evidence (if c then add_note r note n else r) (a + n).
Proof.
  intros Hn Hr. destruct c.
  - now apply add_note_evidence.
  - apply (evidence_more r a); [lia | exact Hr].
Qed.

Lemma analyze_document_evidence u parsed doc :
  backed_by_evidence (analyze_document u parsed doc) 15.
Proof.
  unfold analyze_document.
  set (r0 := {| sa_url := u; sa_domain := hostname parsed;
                acceptsSubmissions := false; confidence := 0;
                submissionPageUrls := []; submissionKeywordsFound := [];
                notes := [] |}).
  set (r1 := fold_left _ (Cheerio.select doc "a") r0).
  set (pageText := JsString.toLowerCase _).
  set (r2 := fold_left (check_keyword pageText 10) SUBMISSION_KEYWORDS r1).
  set (c3 := (_ && _)%bool).
  set (r3 := if c3 then add_note r2 _ 5 else r2).
  set (c4 := (_ || _)%bool).
  set (r4 := if c4 then add_note r3 _ 10 else r3).
  assert (H0 : backed_by_evidence r0 0).
  { unfold backed_by_evidence. simpl.
    split; [lia |]. split; [constructor |]. split; [constructor |].
    intros k Hk. inversion Hk. }
  assert (H1 : backed_by_evidence r1 0).
  { apply fold_left_keeps; [| exact H0]. intros r el _ Hr.
    now apply visit_anchor_evidence. }
  assert (H2 : backed_by_evidence r2 0).
  { apply fold_left_keeps; [| exact H1]. intros r k Hk Hr.
    apply check_keyword_evidence; [lia | exact Hk | exact Hr]. }
  assert (H3 : backed_by_evidence r3 5).
  { apply (cond_note_evidence c3 r2 _ 5 0); [lia | exact H2]. }
  assert (H4 : backed_by_evidence r4 15).
  { apply (cond_note_evidence c4 r3 _ 10 5); [lia | exact H3]. }
  destruct H4 as (Hc & Hu & Hk & Hsub).
  destruct (acceptsSubmissions (decide_acceptance r4));
    unfold backed_by_evidence; simpl; repeat split; auto; lia.
Qed.

(** X19.  A confidence is backed by what was found: in every record of
    [analyzeSiteForSubmission] the submission pages are distinct, the
    keywords are distinct and taken from the list of keywords, and the
    confidence is at most 20 a page, 15 a keyword and 15 for the contact
    form and WordPress together; so a site with no submission page and no
    keyword found is never said to accept submissions.  The function
    returns such a record unless url-parse throws on the URL. *)
Theorem analyzeSiteForSubmission_evidence (u : string) (s : Sys W) :
  match fst (analyzeSiteForSubmission P u s) with
  | Ok r =>
      backed_by_evidence r 15 /\
      (submissionPageUrls r = [] -> submissionKeywordsFound r = [] ->
       acceptsSubmissions r = false)
  | Throw e => URLParser P u = Throw e
  end.
Proof.
  assert (Hgen : forall r, confidence_invariant r -> backed_by_evidence r 15 ->
                           backed_by_evidence r 15 /\
                           (submissionPageUrls r = [] -> submissionKeywordsFound r = [] ->
                            acceptsSubmissions r = false)).
  { intros r [_ Hacc] Hev. split; [exact Hev |]. intros Hu Hk.
    destruct Hev as (Hc & _). rewrite Hu, Hk in Hc. simpl in Hc.
    rewrite Hacc. apply Z.leb_gt. lia. }
  unfold analyzeSiteForSubmission, try_catch, bind, lift.
  destruct (URLParser P u) as [parsed | e0] eqn:Hparse.
  - unfold ret at 1. cbv beta iota. unfold await_axios_get.
    destruct (axios_get P u (world s)) as [[response | e] w'].
    + simpl. apply Hgen; [apply analyze_document_invariant | apply analyze_document_evidence].
    + simpl. apply Hgen.
      * unfold confidence_invariant. simpl. split; [lia | reflexivity].
      * unfold backed_by_evidence. simpl.
        split; [lia |]. split; [constructor |]. split; [constructor |].
        intros k Hk. inversion Hk.
  - simpl. reflexivity.
Qed.

End Evidence.

(** ** [lib/backlinkAnalyzer.js], [exportBacklinkAnalysis] *)

Section AnalysisExport.

Context {W : Type} (P : Platform W) (R : Runtime W).

Lemma exportToJson_ok (data : JsValue) (filename : string) (s : Sys W) :
  fs_never_fails P R ->
  exists w',
    exportToJson P R data filename s
    = (Ok (json_path P R filename),
       mkSys w' (log s ++ [EvEnsureDir (jsonDir R) (Ok tt)])).
Proof.
  intros (Hdir & _ & Hjson).
  unfold exportToJson, try_catch, bind, await_ensureDir, await_writeJson, ret.
  specialize (Hdir (jsonDir R) (world s)).
  destruct (fs_ensureDir P (jsonDir R) (world s)) as [o w1].
  simpl in Hdir. subst o. cbn [world log].
  match goal with
  | |- context [fs_writeJson R ?p ?d w1] =>
      specialize (Hjson p d w1); destruct (fs_writeJson R p d w1) as [o w2]
  end.
  simpl in Hjson. subst o. eexists. reflexivity.
Qed.


Lemma exportToCsv_records_ok (records : list CsvRecord) (filename : string)
      (s : Sys W) :
  fs_never_fails P R ->
  records <> [] ->
  exists w',
    exportToCsv P (JsArray (map JsObject records)) filename s
    = (Ok (csv_path P filename),
       mkSys w' (log s ++
                 [ EvEnsureDir (csvDir P) (Ok tt);
                   EvWriteRecords (csv_path P filename)
                     (csv_header (map (flatten_record P) records))
                     (map (flatten_record P) records) (Ok tt) ])).
Proof.
  intros (Hdir & Hcsv & _) Hne.
  unfold exportToCsv, try_catch, bind at 1, await_ensureDir.
  specialize (Hdir (csvDir P) (world s)).
  destruct (fs_ensureDir P (csvDir P) (world s)) as [o w1].
  simpl in Hdir. subst o.
  destruct records as [| r records]; [congruence |].
  rewrite length_map. cbn [length Nat.eqb].
  unfold bind at 1. rewrite map_throwing_records.
  unfold bind, await_writeRecords, ret. cbn [world log].
  match goal with
  | |- context [csv_writeRecords P ?p ?h ?rs w1] =>
      specialize (Hcsv p h rs w1); destruct (csv_writeRecords P p h rs w1) as [o w2]
  end.
  simpl in Hcsv. subst o. eexists. unfold csv_path.
  rewrite <- app_assoc. reflexivity.
Qed.


Lemma written_app (evs1 evs2 : list Event) :
  written (evs1 ++ evs2) = written evs1 ++ written evs2.
Proof.
  unfold written. induction evs1 as [| ev evs1 IH]; [reflexivity |].
  destruct ev; cbn; rewrite ?IH; reflexivity.
Qed.

Lemma export_domains_run (filePrefix : string) :
  fs_never_fails P R ->
  forall items s,
  exists s' evs,
    export_domains P filePrefix items s = (Ok tt, s') /\
    log s' = log s ++ evs /\
    written evs =
      map (fun item => (pos_file P filePrefix item "_domains",
                        length (uniqueDomains item)))
          (List.filter (fun item => (0 <? length (uniqueDomains item))%nat) items).
Proof.
  intros Hfs. induction items as [| item items IH]; intros s.
  - exists s, []. simpl. unfold ret. rewrite app_nil_r. auto.
  - cbn [export_domains List.filter]. unfold bind at 1.
    rewrite length_map.
    destruct (0 <? length (uniqueDomains item))%nat eqn:Hlen.
    + unfold bind at 1.
      assert (Hne : map (fun domain =>
                           [ ("targetUrl", JsString (ba_url item));
                             ("targetPosition", JsNumber (ba_position item));
                             ("referringDomain", JsString domain) ])
                        (uniqueDomains item) <> []).
      { destruct (uniqueDomains item); [discriminate Hlen | discriminate]. }
      destruct (exportToCsv_records_ok _
                  (filePrefix +:+ "_pos" +:+
                   padStart2 (JsString.of_Z (ba_position item)) +:+ "_domains")
                  s Hfs Hne) as (w' & Hrun).
      rewrite map_map in Hrun.
      change (map (fun x => JsObject _) (uniqueDomains item))
        with (map (domain_row item) (uniqueDomains item)) in Hrun.
      rewrite Hrun. unfold ret at 1.
      match goal with
      | |- context [export_domains P filePrefix items ?s1] =>
          destruct (IH s1) as (s' & evs & Hrest & Hlog & Hw)
      end.
      rewrite Hrest. do 2 eexists. split; [reflexivity |].
      split.
      * rewrite Hlog. cbn [log]. rewrite <- app_assoc. reflexivity.
      * rewrite written_app, Hw. cbn. rewrite !length_map. reflexivity.
    + unfold ret at 1.
      destruct (IH s) as (s' & evs & Hrest & Hlog & Hw).
      rewrite Hrest. exists s', evs. auto.
Qed.

Lemma export_backlinks_run (filePrefix : string) :
  fs_never_fails P R ->
  forall items s,
  exists s' evs,
    export_backlinks P filePrefix items s = (Ok tt, s') /\
    log s' = log s ++ evs /\
    written evs =
      map (fun item => (pos_file P filePrefix item "_backlinks",
                        length (backlinks item)))
          (List.filter (fun item => (0 <? length (backlinks item))%nat) items).
Proof.
  intros Hfs. induction items as [| item items IH]; intros s.
  - exists s, []. simpl. unfold ret. rewrite app_nil_r. auto.
  - cbn [export_backlinks List.filter]. unfold bind at 1.
    destruct (0 <? length (backlinks item))%nat eqn:Hlen.
    + unfold bind at 1.
      assert (Hne : map (fun b =>
                           [ ("sourceUrl", JsString (sourceUrl b));
                             ("sourceTitle", JsString (sourceTitle b));
                             match target b with
                             | TargetDomain d => ("targetDomain", JsString d)
                             | TargetUrl u => ("targetUrl", JsString u)
                             end;
                             ("snippet", JsString (bl_snippet b)) ])
                        (backlinks item) <> []).
      { destruct (backlinks item); [discriminate Hlen | discriminate]. }
      destruct (exportToCsv_records_ok _
                  (filePrefix +:+ "_pos" +:+
                   padStart2 (JsString.of_Z (ba_position item)) +:+ "_backlinks")
                  s Hfs Hne) as (w' & Hrun).
      rewrite map_map in Hrun.
      change (map (fun x => JsObject _) (backlinks item))
        with (map js_of_backlink (backlinks item)) in Hrun.
      rewrite Hrun. unfold ret at 1.
      match goal with
      | |- context [export_backlinks P filePrefix items ?s1] =>
          destruct (IH s1) as (s' & evs & Hrest & Hlog & Hw)
      end.
      rewrite Hrest. do 2 eexists. split; [reflexivity |].
      split.
      * rewrite Hlog. cbn [log]. rewrite <- app_assoc. reflexivity.
      * rewrite written_app, Hw. cbn. rewrite !length_map. reflexivity.
    + unfold ret at 1.
      destruct (IH s) as (s' & evs & Hrest & Hlog & Hw).
      rewrite Hrest. exists s', evs. auto.
Qed.


(** X21.  When the file system plays along, [exportBacklinkAnalysis] of
    an analysis with ranked pages returns the paths of the full JSON file
    and of the summary, and the CSV files it writes are, in this order:
    the summary with one row for every ranked page, a file of domains for
    every page that has a referring domain, with one row a domain, and a
    file of backlinks for every page that has a backlink, with one row a
    backlink; a page without backlinks gets no file of its own. *)
Theorem exportBacklinkAnalysis_files
        (analysis : CompetitorAnalysis) (outputPrefix : option string)
        (s : Sys W) :
  fs_never_fails P R ->
  backlinksAnalysis analysis <> [] ->
  let fp := file_prefix R outputPrefix s in
  let items := backlinksAnalysis analysis in
  exists s' evs,
    exportBacklinkAnalysis P R analysis outputPrefix s
    = (Ok (json_path P R (fp +:+ "_full"), csv_path P (fp +:+ "_summary")), s') /\
    log s' = log s ++ evs /\
    written evs =
      (csv_path P (fp +:+ "_summary"), length items) ::
      map (fun item => (pos_file P fp item "_domains",
                        length (uniqueDomains item)))
          (List.filter (fun item => (0 <? length (uniqueDomains item))%nat) items) ++
      map (fun item => (pos_file P fp item "_backlinks",
                        length (backlinks item)))
          (List.filter (fun item => (0 <? length (backlinks item))%nat) items).
Proof.
  intros Hfs Hne fp items.
  unfold exportBacklinkAnalysis. rewrite try_rethrow.
  unfold bind at 1, timestamp_now.
  fold (file_prefix R outputPrefix s). fold fp. fold items.
  unfold bind at 1.
  destruct (exportToJson_ok (js_of_analysis analysis) (fp +:+ "_full") s Hfs)
    as (w1 & Hjson).
  rewrite Hjson.
  unfold bind at 1.
  assert (Hrows : map (fun item =>
                         [ ("keyword", JsString (keyword analysis));
                           ("position", JsNumber (ba_position item));
                           ("url", JsString (ba_url item));
                           ("title", JsString (ba_title item));
                           ("backlinksCount", JsNumber (backlinksCount item));
                           ("uniqueDomainsCount",
                            JsNumber (uniqueDomainsCount item)) ])
                      items <> []).
  { subst items. destruct (backlinksAnalysis analysis); [congruence | discriminate]. }
  match goal with
  | |- context [exportToCsv P _ _ ?s1] =>
      destruct (exportToCsv_records_ok _ (fp +:+ "_summary") s1 Hfs Hrows)
        as (w2 & Hsummary)
  end.
  rewrite map_map in Hsummary.
  change (map (fun x => JsObject _) items)
    with (map (summary_row analysis) items) in Hsummary.
  rewrite Hsummary.
  unfold bind at 1.
  match goal with
  | |- context [export_domains P fp items ?s2] =>
      destruct (export_domains_run fp Hfs items s2)
        as (s3 & evs3 & Hdomains & Hlog3 & Hw3)
  end.
  rewrite Hdomains.
  unfold bind at 1.
  destruct (export_backlinks_run fp Hfs items s3)
    as (s4 & evs4 & Hbacklinks & Hlog4 & Hw4).
  rewrite Hbacklinks. unfold ret.
  do 2 eexists. split; [reflexivity |].
  split.
  - rewrite Hlog4, Hlog3. cbn [log]. rewrite <- !app_assoc. reflexivity.
  - rewrite !written_app, Hw3, Hw4. cbn. rewrite !length_map. reflexivity.
Qed.

End AnalysisExport.

Lemma Sample_fs_never_fails : fs_never_fails Sample.platform SampleRuntime.runtime.
Proof. repeat split. Qed.


Lemma exportBacklinkAnalysis_files_witness :
  exists s' evs,
    exportBacklinkAnalysis Sample.platform SampleRuntime.runtime
      SampleAnalysis.analysis (Some "run") (Sample.start 0)
    = (Ok ("output/json/run_full.json", "output/csv/run_summary.csv"), s') /\
    log s' = evs /\
    written evs =
      [ ("output/csv/run_summary.csv", 2%nat);
        ("output/csv/run_pos01_domains.csv", 1%nat);
        ("output/csv/run_pos01_backlinks.csv", 1%nat) ].
Proof.
  apply (exportBacklinkAnalysis_files Sample.platform SampleRuntime.runtime
           SampleAnalysis.analysis (Some "run") (Sample.start 0)).
  - repeat split.
  - discriminate.
Defined.

(** ** Searching for the keywords of the metadata *)

Section MetadataSearch.

Context {W : Type} (P : Platform W) (R : Runtime W).










Lemma safe_after_sanitize (c : ascii) :
  is_safe_char
    (JsString.lower (if negb (Research.is_alnum c) then ascii_of_nat 95 else c))
  = true.
Proof.
  destruct c as [[] [] [] [] [] [] [] []]; vm_compute; reflexivity.
Qed.

Lemma sanitize_fixes_safe (c : ascii) :
  is_safe_char c = true ->
  JsString.lower (if negb (Research.is_alnum c) then ascii_of_nat 95 else c) = c.
Proof.
  destruct c as [[] [] [] [] [] [] [] []]; vm_compute; intros H;
    first [reflexivity | discriminate H].
Qed.

(** X23.  The name of the file of [saveSearchResults] is the keyword
    with every letter in lower case and every character that is no
    letter of [a-z] and no digit made an underscore, so it has only
    lower-case letters, digits and underscores and keywords that differ
    in case or punctuation only share a file; sanitising twice changes
    nothing.  The function returns the path of this file in the
    directory of the search results when the directory and the file can
    be written, and calls no API. *)
Theorem saveSearchResults_safe_name (results : list SearchResult)
        (keyword : string) (s : Sys W) :
  Forall (fun c => is_safe_char c = true)
         (list_ascii_of_string (Research.sanitize keyword)) /\
  Research.sanitize (Research.sanitize keyword) = Research.sanitize keyword /\
  exists result s',
    Research.saveSearchResults P R results keyword s = (result, s') /\
    log s' = log s /\
    (forall p, result = Ok p ->
       p = path_join P (Research.search_results_dir P R)
                     (Research.sanitize keyword +:+ "_results.json")) /\
    (files_never_fail R -> exists p, result = Ok p).
Proof.
  assert (Hsafe : Forall (fun c => is_safe_char c = true)
                         (list_ascii_of_string (Research.sanitize keyword))).
  { unfold Research.sanitize.
    induction keyword as [| c keyword IH]; [constructor |].
    cbn [JsString.replaceAllChars JsString.toLowerCase list_ascii_of_string].
    constructor; [apply safe_after_sanitize | exact IH]. }
  split; [exact Hsafe |].
  split.
  { revert Hsafe. generalize (Research.sanitize keyword) as k.
    unfold Research.sanitize.
    induction k as [| c k IH]; intros Hsafe; [reflexivity |].
    cbn [list_ascii_of_string] in Hsafe.
    apply Forall_cons in Hsafe. destruct Hsafe as [Hc Hk].
    cbn [JsString.replaceAllChars JsString.toLowerCase].
    rewrite (sanitize_fixes_safe c Hc), (IH Hk). reflexivity. }
  unfold Research.saveSearchResults. rewrite try_rethrow.
  unfold bind, Research.await_mkdir, Research.await_writeFile, ret.
  destruct (fs_mkdir R (Research.search_results_dir P R) (world s))
    as [[[] | e] w1] eqn:Hmk; cbn [world log].
  - match goal with
    | |- context [fs_writeFile R ?p ?t w1] =>
        destruct (fs_writeFile R p t w1) as [[[] | e] w2] eqn:Hwr
    end.
    + do 2 eexists. split; [reflexivity |]. split; [reflexivity |].
      split; [| eauto]. intros p Hp. inversion Hp. reflexivity.
    + do 2 eexists. split; [reflexivity |]. split; [reflexivity |].
      split; [discriminate |].
      intros (_ & Hfile).
      match type of Hwr with
      | fs_writeFile R ?p ?t w1 = _ => specialize (Hfile p t w1)
      end.
      rewrite Hwr in Hfile. discriminate.
  - do 2 eexists. split; [reflexivity |]. split; [reflexivity |].
    split; [discriminate |].
    intros (Hdir & _).
    specialize (Hdir (Research.search_results_dir P R) (world s)).
    rewrite Hmk in Hdir. discriminate.
Qed.

End MetadataSearch.

(** ** Exporting the categorised sites *)

Section CategorisedExport.

Context {W : Type} (P : Platform W) (R : Runtime W).

Lemma categorizeUrl_no_error (u : string) :
  category (categorizeUrl P u) <> "error" ->
  cat_error (categorizeUrl P u) = None.
Proof.
  unfold categorizeUrl. destruct (URLParser P u) as [parsed | e].
  - destruct (existsb _ SOCIAL_MEDIA_DOMAINS); [reflexivity |].
    destruct (existsb _ CONTENT_PLATFORMS); reflexivity.
  - simpl. congruence.
Qed.

Lemma in_category_rows (c : string) (results : list KeywordResult) :
  c <> "error" ->
  Forall (fun site =>
            category (categorization site) = c /\
            map fst (DataExporter.js_of_site site)
            = map col_id DataExporter.categorized_headers)
         (in_category P c results).
Proof.
  intros Hc. apply Forall_forall. intros site Hsite.
  unfold in_category in Hsite. apply list_elem_of_filter in Hsite.
  destruct Hsite as [Hcat Hin]. split; [exact Hcat |].
  apply list_elem_of_fmap in Hin. destruct Hin as (r & -> & _).
  unfold DataExporter.js_of_site. cbn [enhance categorization] in *.
  rewrite categorizeUrl_no_error by congruence. reflexivity.
Qed.

(** X24.  The sites that [categorizeSearchResults] could not parse are
    categorised but never exported: [exportCategorizedSites] of its
    result hands the CSV writer the sites of the categories
    [social_media], [content_platform] and [other], in this order and
    each in the order of the search results, which are all results but
    those of the category [error]; every row has the keys of the header
    and no others.  It writes this one CSV file or, when a directory
    cannot be made, none; and it returns the paths of the CSV file and of
    the workbook when nothing fails. *)
Theorem exportCategorizedSites_leaves_errors_out
        (results : list KeywordResult) (s : Sys W) :
  let exported :=
    in_category P "social_media" results ++
    in_category P "content_platform" results ++
    in_category P "other" results in
  let csvPath := path_join P (categorized_dir P R) "categorized_sites.csv" in
  let excelPath := path_join P (categorized_dir P R) "categorized_sites.xlsx" in
  let written_by o :=
    EvWriteRecords csvPath DataExporter.categorized_headers
                   (map DataExporter.js_of_site exported) o in
  exists categorizedSites result s',
    categorizeSearchResults P results = Ok categorizedSites /\
    DataExporter.exportCategorizedSites P R categorizedSites s = (result, s') /\
    (length exported + length (in_category P "error" results)
     = length results)%nat /\
    Forall (fun site =>
              category (categorization site) <> "error" /\
              map fst (DataExporter.js_of_site site)
              = map col_id DataExporter.categorized_headers) exported /\
    (log s' = log s \/ exists o, log s' = log s ++ [written_by o]) /\
    (exports_never_fail P R ->
     result = Ok (csvPath, excelPath) /\ log s' = log s ++ [written_by (Ok tt)]).
Proof.
  intros exported csvPath excelPath written_by.
  exists (categories_of (in_category P "social_media" results)
                        (in_category P "content_platform" results)
                        (in_category P "other" results)
                        (in_category P "error" results)).
  assert (Hcat : categorizeSearchResults P results =
                 Ok (categories_of (in_category P "social_media" results)
                                   (in_category P "content_platform" results)
                                   (in_category P "other" results)
                                   (in_category P "error" results))).
  { unfold categorizeSearchResults.
    change empty_categories with (categories_of [] [] [] []).
    now rewrite categorize_fold. }
  assert (Hlen : (length exported + length (in_category P "error" results)
                  = length results)%nat).
  { unfold exported. rewrite !length_app.
    pose proof (in_category_lengths P results). lia. }
  assert (Hrows : Forall (fun site =>
              category (categorization site) <> "error" /\
              map fst (DataExporter.js_of_site site)
              = map col_id DataExporter.categorized_headers) exported).
  { unfold exported. rewrite !Forall_app.
    repeat split;
      (eapply Forall_impl;
       [apply in_category_rows; discriminate
       | intros site [Hc Hk]; split; [rewrite Hc; discriminate | exact Hk]]). }
  unfold DataExporter.exportCategorizedSites. rewrite try_rethrow.
  fold (categorized_dir P R).
  unfold bind at 1, Research.await_mkdir.
  destruct (fs_mkdir R (categorized_dir P R) (world s)) as [[[] | e] w1] eqn:Hmk1.
  2:{ do 2 eexists. split; [exact Hcat |]. split; [reflexivity |].
      split; [exact Hlen |]. split; [exact Hrows |]. split; [left; reflexivity |].
      intros (Hdir & _). specialize (Hdir (categorized_dir P R) (world s)).
      rewrite Hmk1 in Hdir. discriminate. }
  unfold DataExporter.spread.
  change (categories_of (in_category P "social_media" results)
            (in_category P "content_platform" results)
            (in_category P "other" results)
            (in_category P "error" results) !! "social_media")
    with (Some (in_category P "social_media" results)).
  change (categories_of (in_category P "social_media" results)
            (in_category P "content_platform" results)
            (in_category P "other" results)
            (in_category P "error" results) !! "content_platform")
    with (Some (in_category P "content_platform" results)).
  change (categories_of (in_category P "social_media" results)
            (in_category P "content_platform" results)
            (in_category P "other" results)
            (in_category P "error" results) !! "other")
    with (Some (in_category P "other" results)).
  unfold bind at 1, ret at 1. unfold bind at 1, ret at 1. unfold bind at 1, ret at 1.
  fold exported. fold csvPath. fold excelPath.
  unfold bind at 1, DataExporter.exportToCsv. rewrite try_rethrow.
  unfold bind at 1, Research.await_mkdir. cbn [world log].
  destruct (fs_mkdir R (path_dirname R csvPath) w1) as [[[] | e] w2] eqn:Hmk2.
  2:{ do 2 eexists. split; [exact Hcat |]. split; [reflexivity |].
      split; [exact Hlen |]. split; [exact Hrows |]. split; [left; reflexivity |].
      intros (Hdir & _). specialize (Hdir (path_dirname R csvPath) w1).
      rewrite Hmk2 in Hdir. discriminate. }
  unfold bind at 1, await_writeRecords. cbn [world log].
  destruct (csv_writeRecords P csvPath DataExporter.categorized_headers
              (map DataExporter.js_of_site exported) w2) as [[[] | e] w3] eqn:Hcsv.
  2:{ do 2 eexists. split; [exact Hcat |]. split; [reflexivity |].
      split; [exact Hlen |]. split; [exact Hrows |].
      split; [right; eexists; reflexivity |].
      intros (_ & Hwr & _).
      specialize (Hwr csvPath DataExporter.categorized_headers
                      (map DataExporter.js_of_site exported) w2).
      rewrite Hcsv in Hwr. discriminate. }
  unfold ret at 1.
  unfold bind at 1, DataExporter.exportToExcel. rewrite try_rethrow.
  unfold bind at 1, Research.await_mkdir. cbn [world log].
  destruct (fs_mkdir R (path_dirname R excelPath) w3) as [[[] | e] w4] eqn:Hmk3.
  2:{ do 2 eexists. split; [exact Hcat |]. split; [reflexivity |].
      split; [exact Hlen |]. split; [exact Hrows |].
      split; [right; eexists; reflexivity |].
      intros (Hdir & _). specialize (Hdir (path_dirname R excelPath) w3).
      rewrite Hmk3 in Hdir. discriminate. }
  unfold bind at 1, DataExporter.write_workbook. cbn [world log].
  match goal with
  | |- context [XLSX_writeFile R ?d excelPath w4] =>
      destruct (XLSX_writeFile R d excelPath w4) as [[[] | e] w5] eqn:Hxl
  end.
  2:{ do 2 eexists. split; [exact Hcat |]. split; [reflexivity |].
      split; [exact Hlen |]. split; [exact Hrows |].
      split; [right; eexists; reflexivity |].
      intros (_ & _ & Hwb).
      match type of Hxl with
      | XLSX_writeFile R ?d excelPath w4 = _ => specialize (Hwb d excelPath w4)
      end.
      rewrite Hxl in Hwb. discriminate. }
  unfold ret.
  do 2 eexists. split; [exact Hcat |]. split; [reflexivity |].
  split; [exact Hlen |]. split; [exact Hrows |].
  split; [right; eexists; reflexivity |].
  intros _. split; reflexivity.
Qed.

End CategorisedExport.

(** ** Exporting the potential sites *)

Section PotentialExport.

Context {W : Type} (P : Platform W) (R : Runtime W).

(** X25.  A rejected site is never exported to the CSV file of the
    potential sites: [exportPotentialSites] of what
    [organizePotentialSites] returns hands the CSV writer one row for
    every site of confidence 30 or more, the sites of confidence 70 or
    more first, then those of 40 to 69, then those of 30 to 39, each
    group in the order of the input; for sites that keep the invariant of
    the analyser these are exactly the sites that accept submissions.  It
    writes this one CSV file or, when its directory cannot be made, none,
    and it returns when nothing fails. *)
Theorem exportPotentialSites_accepting_only (sites : list AnalyzedSite) (s : Sys W) :
  let exported :=
    filter (fun st => 70 <= site_confidence st) sites ++
    filter (fun st => 40 <= site_confidence st < 70) sites ++
    filter (fun st => 30 <= site_confidence st < 40) sites in
  let csvPath := path_join P (potential_dir P R) "potential_submission_sites.csv" in
  let written_by o :=
    EvWriteRecords csvPath potential_headers (map prepared_site exported) o in
  exists result s',
    exportPotentialSites P R (organizePotentialSites sites) s = (result, s') /\
    (forall st, st ∈ exported <-> st ∈ sites /\ 30 <= site_confidence st) /\
    (Forall (fun st => confidence_invariant (as_analysis st)) sites ->
     forall st, st ∈ exported <->
                st ∈ sites /\ acceptsSubmissions (as_analysis st) = true) /\
    (log s' = log s \/ exists o, log s' = log s ++ [written_by o]) /\
    (exports_never_fail P R ->
     result = Ok tt /\ log s' = log s ++ [written_by (Ok tt)]).
Proof.
  intros exported csvPath written_by.
  assert (Hin : forall st, st ∈ exported <-> st ∈ sites /\ 30 <= site_confidence st).
  { intros st. unfold exported. rewrite !elem_of_app, !list_elem_of_filter.
    split; [intros [[? ?] | [[? ?] | [? ?]]]; split; auto; lia |].
    intros [Hst Hc].
    destruct (Z_le_gt_dec 70 (site_confidence st));
      [left; auto | right].
    destruct (Z_le_gt_dec 40 (site_confidence st));
      [left; split; [lia | auto] | right; split; [lia | auto]]. }
  assert (Hacc : Forall (fun st => confidence_invariant (as_analysis st)) sites ->
                 forall st, st ∈ exported <->
                            st ∈ sites /\ acceptsSubmissions (as_analysis st) = true).
  { intros Hinv st. rewrite Hin. rewrite Forall_forall in Hinv.
    split; intros [Hst Hc]; (split; [exact Hst |]);
      destruct (Hinv st Hst) as [_ Heq]; unfold site_confidence in *.
    - rewrite Heq. apply Z.leb_le. exact Hc.
    - rewrite Heq in Hc. apply Z.leb_le. exact Hc. }
  unfold exportPotentialSites. rewrite try_rethrow.
  unfold organizePotentialSites. rewrite organize_fold.
  cbn [highPotential mediumPotential lowPotential rejected app].
  unfold prepareForExport. rewrite <- !map_app.
  fold exported. fold (potential_dir P R). fold csvPath.
  unfold bind at 1, DataExporter.exportToCsv. rewrite try_rethrow.
  unfold bind at 1, Research.await_mkdir.
  destruct (fs_mkdir R (path_dirname R csvPath) (world s)) as [[[] | e] w1] eqn:Hmk1.
  2:{ do 2 eexists. split; [reflexivity |]. split; [exact Hin |].
      split; [exact Hacc |]. split; [left; reflexivity |].
      intros (Hdir & _). specialize (Hdir (path_dirname R csvPath) (world s)).
      rewrite Hmk1 in Hdir. discriminate. }
  unfold bind at 1, await_writeRecords. cbn [world log].
  destruct (csv_writeRecords P csvPath potential_headers
              (map prepared_site exported) w1) as [[[] | e] w2] eqn:Hcsv.
  2:{ do 2 eexists. split; [reflexivity |]. split; [exact Hin |].
      split; [exact Hacc |]. split; [right; eexists; reflexivity |].
      intros (_ & Hwr & _).
      specialize (Hwr csvPath potential_headers (map prepared_site exported) w1).
      rewrite Hcsv in Hwr. discriminate. }
  unfold ret at 1.
  unfold bind at 1, DataExporter.exportToExcel. rewrite try_rethrow.
  unfold bind at 1, Research.await_mkdir. cbn [world log].
  match goal with
  | |- context [fs_mkdir R ?d w2] =>
      destruct (fs_mkdir R d w2) as [[[] | e] w3] eqn:Hmk2
  end.
  2:{ do 2 eexists. split; [reflexivity |]. split; [exact Hin |].
      split; [exact Hacc |]. split; [right; eexists; reflexivity |].
      intros (Hdir & _).
      match type of Hmk2 with
      | fs_mkdir R ?d w2 = _ => specialize (Hdir d w2)
      end.
      rewrite Hmk2 in Hdir. discriminate. }
  unfold bind at 1, DataExporter.write_workbook. cbn [world log].
  match goal with
  | |- context [XLSX_writeFile R ?d ?p w3] =>
      destruct (XLSX_writeFile R d p w3) as [[[] | e] w4] eqn:Hxl
  end.
  2:{ do 2 eexists. split; [reflexivity |]. split; [exact Hin |].
      split; [exact Hacc |]. split; [right; eexists; reflexivity |].
      intros (_ & _ & Hwb).
      match type of Hxl with
      | XLSX_writeFile R ?d ?p w3 = _ => specialize (Hwb d p w3)
      end.
      rewrite Hxl in Hwb. discriminate. }
  unfold ret.
  do 2 eexists. split; [reflexivity |]. split; [exact Hin |].
  split; [exact Hacc |]. split; [right; eexists; reflexivity |].
  intros _. split; reflexivity.
Qed.

End PotentialExport.
